(** * H5Utilities: namespace management and handle lifecycle over HDF5

    A shallow embedding of [Source/H5Support/H5Utilities.h].

    - Integers ([hid_t], [herr_t], [ssize_t], [hsize_t], [size_t]) are [Z];
      the unsigned wrap-around of [size_t] is written out with [to_size_t].
    - [std::string] is a list of characters; positions are [size_t] values
      with [npos = 2^64 - 1]; [substr], [erase] and [at] raise
      [out_of_range] as the C++ library does.  A string reaches the
      library as its [c_str()], the characters before the first terminator.
    - A [std::vector<char>] or [std::array<char, N>] is a list of
      characters; the C string at its [data()] is read with
      [Buffer.read], which is undefined for a buffer that holds no
      terminator, a vector of size 0 among them.  Allocation is taken to
      succeed.
    - Calls into the HDF5 library are the constructors of [H5call]; a
      function of the header is a [prog]: a tree of library calls and
      console output, run against a [gateway] that answers the calls.
      Statements about every gateway speak of the calls a function makes;
      statements about names, links and open identifiers are made in
      [Container], an executable model of the library.
    - A reference parameter ([hid_t&], [std::string&], [std::list&]) is an
      argument and a component of the result.
    - [H5SUPPORT_MUTEX_LOCK] and [HDF_ERROR_HANDLER_OFF/ON] come from headers
      that are not part of this file's source; they guard re-entrancy and
      the library's own error printing and are not modelled. *)

From Stdlib Require Import ZArith Ascii String List Bool Lia.
Import ListNotations.

Open Scope string_scope.
Open Scope list_scope.
Open Scope Z_scope.

(* ================================================================== *)
(** * Part I: definitions                                              *)
(* ================================================================== *)

(** ** Characters, strings and exceptions *)

Definition str := list ascii.
Coercion list_ascii_of_string : string >-> list.

(** [out_of_range] is [std::out_of_range]; [undefined] stands for a step
    whose behaviour C++ leaves undefined: a run that reaches one stops
    there, and nothing is stated about what the program does then. *)
Inductive exn := out_of_range | out_of_fuel | undefined.

Inductive result (A : Type) : Type :=
| Ok (a : A)
| Raise (e : exn).
Arguments Ok {A} a.
Arguments Raise {A} e.

Definition str_eqb (a b : str) : bool :=
  if list_eq_dec ascii_dec a b then true else false.

Module StdString.

Definition to_size_t (z : Z) : Z := z mod 2 ^ 64.

Definition npos : Z := 2 ^ 64 - 1.

Definition size (s : str) : Z := Z.of_nat (length s).

(** Offset of the first [c] in [s]. *)
Fixpoint index (c : ascii) (s : str) : option nat :=
  match s with
  | [] => None
  | x :: t => if Ascii.eqb x c then Some O else option_map S (index c t)
  end.

(** Offset of the last [c] in [s]. *)
Fixpoint rindex (c : ascii) (s : str) : option nat :=
  match s with
  | [] => None
  | x :: t =>
      match rindex c t with
      | Some i => Some (S i)
      | None => if Ascii.eqb x c then Some O else None
      end
  end.

(** [s.find_first_of(c, pos)] *)
Definition find_first_of (s : str) (c : ascii) (pos : Z) : Z :=
  if size s <=? pos then npos
  else match index c (skipn (Z.to_nat pos) s) with
       | Some i => pos + Z.of_nat i
       | None => npos
       end.

(** [s.find_last_of(c)] *)
Definition find_last_of (s : str) (c : ascii) : Z :=
  match rindex c s with
  | Some i => Z.of_nat i
  | None => npos
  end.

(** [s.substr(pos, len)] *)
Definition substr (s : str) (pos len : Z) : result str :=
  if size s <? pos then Raise out_of_range
  else
    let rlen := Z.min len (size s - pos) in
    Ok (firstn (Z.to_nat rlen) (skipn (Z.to_nat pos) s)).

(** [s.erase(pos, len)] *)
Definition erase (s : str) (pos len : Z) : result str :=
  if size s <? pos then Raise out_of_range
  else
    let rlen := Z.min len (size s - pos) in
    Ok (firstn (Z.to_nat pos) s ++ skipn (Z.to_nat (pos + rlen)) s).

(** [s.at(pos)] *)
Definition at_ (s : str) (pos : Z) : result ascii :=
  if size s <=? pos then Raise out_of_range
  else Ok (nth (Z.to_nat pos) s zero).

(** What a C function reads at [s.c_str()]: the characters before the
    first terminator. *)
Fixpoint c_str (s : str) : str :=
  match s with
  | [] => []
  | c :: r => if Ascii.eqb c zero then [] else c :: c_str r
  end.

End StdString.
Import StdString.

(** ** Path utilities (pure string transforms) *)

Definition slash : ascii := "/"%char.

(** [getParentPath(const std::string&)]: [erase] is called with the result
    of [find_last_of] unchecked. *)
Definition getParentPath (objectPath : str) : result str :=
  let parentPath := objectPath in
  let start := find_last_of parentPath slash in
  erase parentPath start (to_size_t (size parentPath - start)).

(** [getObjectNameFromPath]: [end + 1] wraps to 0 when [end] is [npos]. *)
Definition getObjectNameFromPath (objectPath : str) : result str :=
  let s := objectPath in
  let end_ := find_last_of s slash in
  erase s 0 (to_size_t (end_ + 1)).

(** [extractObjectName] *)
Definition extractObjectName (path : str) : result str :=
  let pos := find_last_of path slash in
  if (pos =? npos) || str_eqb path "/" then Ok path
  else substr path (to_size_t (pos + 1)) npos.

(** ** Integer types and library constants *)

Definition hid_t := Z.
Definition herr_t := Z.
Definition htri_t := Z.
Definition ssize_t := Z.
Definition hsize_t := Z.

(** Narrowing conversion to the 32-bit [herr_t]. *)
Definition to_herr_t (z : Z) : herr_t := (z + 2 ^ 31) mod 2 ^ 32 - 2 ^ 31.

Definition H5P_DEFAULT : hid_t := 0.

Inductive H5F_libver_t :=
| H5F_LIBVER_EARLIEST
| H5F_LIBVER_V18
| H5F_LIBVER_LATEST.

(** The three library versions the header distinguishes by [H5_VERS_MINOR]. *)
Inductive H5_VERS_MINOR := Minor8 | Minor10 | Minor12.

(** [H5F_LIBVER_18], the name under 1.8, is [H5F_LIBVER_V18] here. *)
Definition HDF5_VERSION_LIB_LOWER_BOUNDS (v : H5_VERS_MINOR) : H5F_libver_t :=
  match v with
  | Minor8 => H5F_LIBVER_V18
  | Minor10 | Minor12 => H5F_LIBVER_V18
  end.

Definition HDF5_VERSION_LIB_UPPER_BOUNDS (v : H5_VERS_MINOR) : H5F_libver_t :=
  match v with
  | Minor8 => H5F_LIBVER_LATEST
  | Minor10 | Minor12 => H5F_LIBVER_V18
  end.

Inductive H5F_acc_t := H5F_ACC_RDONLY | H5F_ACC_RDWR | H5F_ACC_TRUNC.

Inductive H5P_class_t := H5P_FILE_ACCESS.

Inductive H5I_type_t :=
| H5I_BADID
| H5I_FILE
| H5I_GROUP
| H5I_DATATYPE
| H5I_DATASPACE
| H5I_DATASET
| H5I_ATTR
| H5I_GENPROP_LST.

Inductive H5O_type_t :=
| H5O_TYPE_UNKNOWN
| H5O_TYPE_GROUP
| H5O_TYPE_DATASET
| H5O_TYPE_NAMED_DATATYPE
| H5O_TYPE_NTYPES.

Definition H5O_type_eqb (a b : H5O_type_t) : bool :=
  match a, b with
  | H5O_TYPE_UNKNOWN, H5O_TYPE_UNKNOWN
  | H5O_TYPE_GROUP, H5O_TYPE_GROUP
  | H5O_TYPE_DATASET, H5O_TYPE_DATASET
  | H5O_TYPE_NAMED_DATATYPE, H5O_TYPE_NAMED_DATATYPE
  | H5O_TYPE_NTYPES, H5O_TYPE_NTYPES => true
  | _, _ => false
  end.

Record H5O_info_t := { type : H5O_type_t; num_attrs : hsize_t }.

Record H5G_info_t := { nlinks : hsize_t }.

Inductive H5_index_t := H5_INDEX_NAME | H5_INDEX_CRT_ORDER.

Inductive H5_iter_order_t := H5_ITER_INC | H5_ITER_DEC | H5_ITER_NATIVE.

Definition H5F_OBJ_FILE : Z := 1.
Definition H5F_OBJ_DATASET : Z := 2.
Definition H5F_OBJ_GROUP : Z := 4.
Definition H5F_OBJ_DATATYPE : Z := 8.
Definition H5F_OBJ_ATTR : Z := 16.
Definition H5F_OBJ_LOCAL : Z := 32.

(** [enum class CustomHDFDataTypes : int32_t]; [operator|] combines the
    underlying integers. *)
Module CustomHDFDataTypes.
Definition t := Z.
Definition Group : t := 1.
Definition Dataset : t := 2.
Definition Type_ : t := 4.
Definition Link : t := 8.
Definition Any : t := 15.
Definition bitor (lhs rhs : t) : t := Z.lor lhs rhs.
End CustomHDFDataTypes.

(** ** Character buffers ([std::vector<char>], [std::array<char, N>]) *)

Module Buffer.

Definition t := list ascii.

Definition make (n : Z) : t := repeat zero (Z.to_nat n).

(** [b.resize(n, 0)] *)
Definition resize (n : Z) (b : t) : t :=
  firstn (Z.to_nat n) b ++ repeat zero (Z.to_nat n - length b).

(** [b.fill(0)] *)
Definition fill0 (b : t) : t := repeat zero (length b).

(** The buffer after the library wrote [w] at its start. *)
Definition store {A : Type} (w b : list A) : list A :=
  firstn (length b) w ++ skipn (length w) b.

(** The characters of a buffer before its first terminator. *)
Fixpoint c_str (b : t) : str :=
  match b with
  | [] => []
  | c :: r => if Ascii.eqb c zero then [] else c :: c_str r
  end.

Definition terminated (b : t) : bool :=
  existsb (fun c => Ascii.eqb c zero) b.

(** The C string read at [b.data()].  The read is defined when a
    terminator lies among the elements of [b].  Without one it runs past
    the end of the buffer; in particular, for a vector of size 0,
    [data()] is null or points at storage the vector no longer holds
    (what an earlier, longer content left there).  Both are undefined. *)
Definition read (b : t) : result str :=
  if terminated b then Ok (c_str b) else Raise undefined.

End Buffer.

(** ** Calls into the HDF5 library

    A call that fills a caller-supplied buffer answers with its return
    value and the elements it wrote at the start of the buffer; a null
    buffer is passed as size 0.  A call that fills an info struct answers
    with its status and the struct as it is after the call (every caller
    passes it zero-initialised and reads it only after a success). *)

Inductive H5call : Type -> Type :=
| H5Fopen (filename : str) (flags : H5F_acc_t) (fapl : hid_t) : H5call hid_t
| H5Fcreate (filename : str) (flags : H5F_acc_t) (fcpl fapl : hid_t)
  : H5call hid_t
| H5Fclose (file_id : hid_t) : H5call herr_t
| H5Fget_obj_count (file_id : hid_t) (types : Z) : H5call ssize_t
| H5Fget_obj_ids (file_id : hid_t) (types : Z) (max_objs : Z)
  : H5call (ssize_t * list hid_t)
| H5Pcreate (cls : H5P_class_t) : H5call hid_t
| H5Pset_libver_bounds (plist : hid_t) (low high : H5F_libver_t)
  : H5call herr_t
| H5Pclose (plist : hid_t) : H5call herr_t
| H5Iget_type (id : hid_t) : H5call H5I_type_t
| H5Iget_name (id : hid_t) (size : Z) : H5call (ssize_t * list ascii)
| H5Gclose (id : hid_t) : H5call herr_t
| H5Dclose (id : hid_t) : H5call herr_t
| H5Aclose (id : hid_t) : H5call herr_t
| H5Tclose (id : hid_t) : H5call herr_t
| H5Sclose (id : hid_t) : H5call herr_t
| H5Oget_info_by_name (loc : hid_t) (name : str) (lapl : hid_t)
  : H5call (herr_t * H5O_info_t)
| H5Oget_info (id : hid_t) : H5call (herr_t * H5O_info_t)
| H5Oexists_by_name (loc : hid_t) (name : str) (lapl : hid_t) : H5call htri_t
| H5Gget_info (loc : hid_t) : H5call (herr_t * H5G_info_t)
| H5Lget_name_by_idx (loc : hid_t) (group_name : str) (idx : H5_index_t)
    (order : H5_iter_order_t) (n : hsize_t) (size : Z) (lapl : hid_t)
  : H5call (ssize_t * list ascii)
| H5Gopen (loc : hid_t) (name : str) (gapl : hid_t) : H5call hid_t
| H5Dopen (loc : hid_t) (name : str) (dapl : hid_t) : H5call hid_t
| H5Gcreate (loc : hid_t) (name : str) (lcpl gcpl gapl : hid_t)
  : H5call hid_t
| H5Aopen_by_idx (loc : hid_t) (obj_name : str) (idx : H5_index_t)
    (order : H5_iter_order_t) (n : hsize_t) (aapl lapl : hid_t)
  : H5call hid_t
| H5Aget_name (attr : hid_t) (buf_size : Z) : H5call (ssize_t * list ascii).

(** ** Console output ([std::cout]) *)

Inductive message :=
| WarnIdsNotClosed
| ErrGetName
| ObjectLeftOpen (id : hid_t) (name : str)
| ErrClosingFile (err : herr_t)
| ErrDatasetNameForIndex (index : Z)
| ErrGetObjInfo
| UnknownHDFType (objectType : H5O_type_t)
| BadParentId
| ErrCreatingGroupErr (path : str) (groupID : hid_t)
| ErrCreatingGroupFor (path : str) (groupID : hid_t)
| ErrCreatingGroup (groupID : hid_t)
| ErrClosingGroup.

(** ** Programs over the library *)

Inductive prog (A : Type) : Type :=
| Ret (a : A)
| Throw (e : exn)
| Cout (m : message) (k : prog A)
| Call {R : Type} (c : H5call R) (k : R -> prog A).
Arguments Ret {A} a.
Arguments Throw {A} e.
Arguments Cout {A} m k.
Arguments Call {A R} c k.

Fixpoint bind {A B : Type} (p : prog A) (f : A -> prog B) : prog B :=
  match p with
  | Ret a => f a
  | Throw e => Throw e
  | Cout m k => Cout m (bind k f)
  | Call c k => Call c (fun r => bind (k r) f)
  end.

Definition call {R : Type} (c : H5call R) : prog R := Call c Ret.

Definition cout (m : message) : prog unit := Cout m (Ret tt).

Definition lift {A : Type} (r : result A) : prog A :=
  match r with
  | Ok a => Ret a
  | Raise e => Throw e
  end.

Declare Scope prog_scope.
Delimit Scope prog_scope with prog.
Notation "x <- p ;; k" := (bind p (fun x => k))
  (at level 61, p at next level, right associativity) : prog_scope.
Notation "' pat <- p ;; k" := (bind p (fun x => match x with pat => k end))
  (at level 61, pat pattern, p at next level, right associativity) : prog_scope.
Notation "p ;; k" := (bind p (fun _ => k))
  (at level 61, right associativity) : prog_scope.
Open Scope prog_scope.

(** ** A gateway answers the calls; running a program records them *)

Record gateway := {
  state : Type;
  answer : forall R : Type, H5call R -> state -> R * state
}.

Inductive event :=
| Called {R : Type} (c : H5call R) (r : R)
| Printed (m : message).

Fixpoint run (g : gateway) {A : Type} (p : prog A) (s : state g)
  : result A * state g * list event :=
  match p with
  | Ret a => (Ok a, s, [])
  | Throw e => (Raise e, s, [])
  | Cout m k =>
      let '(r, s', t) := run g k s in (r, s', Printed m :: t)
  | Call c k =>
      let (x, s1) := answer g _ c s in
      let '(r, s', t) := run g (k x) s1 in (r, s', Called c x :: t)
  end.

Definition is_call (e : event) : bool :=
  match e with
  | Called _ _ => true
  | Printed _ => false
  end.

(** The gateway calls of a trace, without the console output. *)
Definition calls (t : list event) : list event := filter is_call t.

(** ** File operations *)

Definition openFile (v : H5_VERS_MINOR) (filename : str) (readOnly : bool)
  : prog hid_t :=
  if readOnly then
    fileID <- call (H5Fopen (c_str filename) H5F_ACC_RDONLY H5P_DEFAULT) ;;
    Ret fileID
  else
    fileAccessPropertyList <- call (H5Pcreate H5P_FILE_ACCESS) ;;
    call (H5Pset_libver_bounds fileAccessPropertyList
            (HDF5_VERSION_LIB_LOWER_BOUNDS v)
            (HDF5_VERSION_LIB_UPPER_BOUNDS v)) ;;
    fileID <- call (H5Fopen (c_str filename) H5F_ACC_RDWR H5P_DEFAULT) ;;
    call (H5Pclose fileAccessPropertyList) ;;
    Ret fileID.

Definition createFile (v : H5_VERS_MINOR) (filename : str) : prog hid_t :=
  fileAccessPropertyList <- call (H5Pcreate H5P_FILE_ACCESS) ;;
  call (H5Pset_libver_bounds fileAccessPropertyList
          (HDF5_VERSION_LIB_LOWER_BOUNDS v)
          (HDF5_VERSION_LIB_UPPER_BOUNDS v)) ;;
  fileID <- call (H5Fcreate (c_str filename) H5F_ACC_TRUNC H5P_DEFAULT
                    fileAccessPropertyList) ;;
  call (H5Pclose fileAccessPropertyList) ;;
  Ret fileID.

Definition closeHDF5Object (objectID : hid_t) : prog herr_t :=
  if objectID <? 0 then Ret 0
  else
    objectType <- call (H5Iget_type objectID) ;;
    ' (charsRead, _) <- call (H5Iget_name objectID 1024) ;;
    if charsRead <? 0 then
      cout ErrGetName ;; Ret (-1)
    else
      match objectType with
      | H5I_FILE => call (H5Fclose objectID)
      | H5I_GROUP => call (H5Gclose objectID)
      | H5I_DATASET => call (H5Dclose objectID)
      | H5I_ATTR => call (H5Aclose objectID)
      | H5I_DATATYPE => call (H5Tclose objectID)
      | H5I_DATASPACE => call (H5Sclose objectID)
      | _ => Ret (-1)
      end.

(** The [for] loop of [closeFile] over the identifiers left open.
    [Some err] is the [return err] inside the loop. *)
Fixpoint closeFile_sweep (attributeIDs : list hid_t) (name : Buffer.t)
  : prog (option herr_t) :=
  match attributeIDs with
  | [] => Ret None
  | id :: rest =>
      let name := Buffer.fill0 name in
      ' (charsRead, w) <- call (H5Iget_name id (Z.of_nat (length name))) ;;
      let name := Buffer.store w name in
      if charsRead <? 0 then
        cout ErrGetName ;; Ret (Some (-1))
      else
        leaked <- lift (Buffer.read name) ;;
        cout (ObjectLeftOpen id leaked) ;;
        closeHDF5Object id ;;
        closeFile_sweep rest name
  end.

Definition closeFile_types : Z :=
  Z.lor (Z.lor (Z.lor H5F_OBJ_DATASET H5F_OBJ_GROUP) H5F_OBJ_DATATYPE)
    H5F_OBJ_ATTR.

(** [closeFile(hid_t& fileID)] returns the status and the value left in
    [fileID]. *)
Definition closeFile (fileID : hid_t) : prog (herr_t * hid_t) :=
  if fileID <? 0 then Ret (1, fileID)
  else
    numOpen <- call (H5Fget_obj_count fileID
                       (Z.lor closeFile_types H5F_OBJ_LOCAL)) ;;
    swept <-
      (if 0 <? numOpen then
         cout WarnIdsNotClosed ;;
         let attributeIDs := repeat 0 (Z.to_nat numOpen) in
         ' (_, w) <- call (H5Fget_obj_ids fileID closeFile_types numOpen) ;;
         let attributeIDs := Buffer.store w attributeIDs in
         closeFile_sweep attributeIDs (Buffer.make 1024)
       else Ret None) ;;
    match swept with
    | Some err => Ret (err, fileID)
    | None =>
        err <- call (H5Fclose fileID) ;;
        (if err <? 0 then cout (ErrClosingFile err) else Ret tt) ;;
        Ret (err, -1)
    end.

(** ** Identifier methods *)

Definition getObjectPath (locationID : hid_t) (trim : bool) : prog str :=
  ' (r, _) <- call (H5Iget_name locationID 0) ;;
  let nameSize := to_size_t (1 + r) in
  let objectName := Buffer.make nameSize in
  ' (_, w) <- call (H5Iget_name locationID nameSize) ;;
  let objectName := Buffer.store w objectName in
  objectPath <- lift (Buffer.read objectName) ;;
  if negb (str_eqb objectPath "/") then
    c <- lift (at_ objectPath 0) ;;
    if Ascii.eqb c slash then lift (erase objectPath 0 1) else Ret objectPath
  else Ret objectPath.

(** [getObjectType(objectID, objectName, int32_t& objectType)] returns the
    status and the value left in [objectType]. *)
Definition getObjectType (objectID : hid_t) (objectName : str)
  (objectType : H5O_type_t) : prog (herr_t * H5O_type_t) :=
  ' (error, objectInfo) <-
    call (H5Oget_info_by_name objectID (c_str objectName) H5P_DEFAULT) ;;
  if error <? 0 then Ret (error, objectType)
  else Ret (error, type objectInfo).

(** [objectNameAtIndex(fileID, index, std::string& name)] returns the status
    and the value left in [name]. *)
Definition objectNameAtIndex (fileID : hid_t) (index : Z) (name : str)
  : prog (herr_t * str) :=
  ' (nameSize, _) <-
    call (H5Lget_name_by_idx fileID "." H5_INDEX_NAME H5_ITER_NATIVE
            (to_size_t index) 0 H5P_DEFAULT) ;;
  if nameSize <? 0 then Ret (-1, [])
  else
    let buffer := Buffer.make (nameSize + 1) in
    ' (error, w) <-
      call (H5Lget_name_by_idx fileID "." H5_INDEX_NAME H5_ITER_NATIVE
              (to_size_t index) (Z.of_nat (length buffer)) H5P_DEFAULT) ;;
    let buffer := Buffer.store w buffer in
    if error <? 0 then
      cout (ErrDatasetNameForIndex index) ;; Ret (to_herr_t error, [])
    else
      fetched <- lift (Buffer.read buffer) ;;
      Ret (to_herr_t error, name ++ fetched).

(** [getParentPath(hid_t)] *)
Definition getParentPath_id (objectID : hid_t) : prog str :=
  objectPath <- getObjectPath objectID false ;;
  lift (getParentPath objectPath).

Definition isGroup (nodeID : hid_t) (objectName : str) : prog bool :=
  ' (error, objectInfo) <-
    call (H5Oget_info_by_name nodeID (c_str objectName) H5P_DEFAULT) ;;
  if error <? 0 then
    cout ErrGetObjInfo ;; Ret false
  else
    match type objectInfo with
    | H5O_TYPE_GROUP => Ret true
    | H5O_TYPE_DATASET => Ret false
    | H5O_TYPE_NAMED_DATATYPE => Ret false
    | _ => Ret false
    end.

Definition objectExists (nodeID : hid_t) (objectName : str) : prog bool :=
  err <- call (H5Oexists_by_name nodeID (c_str objectName) H5P_DEFAULT) ;;
  Ret (0 <? err).

Definition openHDF5Object (locationID : hid_t) (objectName : str)
  : prog hid_t :=
  ' (error, objectType) <-
    getObjectType locationID objectName H5O_TYPE_GROUP ;;
  if error <? 0 then Ret (-1)
  else
    match objectType with
    | H5O_TYPE_GROUP =>
        call (H5Gopen locationID (c_str objectName) H5P_DEFAULT)
    | H5O_TYPE_DATASET =>
        call (H5Dopen locationID (c_str objectName) H5P_DEFAULT)
    | _ => cout (UnknownHDFType objectType) ;; Ret (-1)
    end.

(** ** Datatype classes

    [H5T_class_t], with the values the library gives its enumerators. *)

Inductive H5T_class_t :=
| H5T_NO_CLASS
| H5T_INTEGER
| H5T_FLOAT
| H5T_TIME
| H5T_STRING
| H5T_BITFIELD
| H5T_OPAQUE
| H5T_COMPOUND
| H5T_REFERENCE
| H5T_ENUM
| H5T_VLEN
| H5T_ARRAY
| H5T_NCLASSES.

Definition H5T_class_value (c : H5T_class_t) : Z :=
  match c with
  | H5T_NO_CLASS => -1
  | H5T_INTEGER => 0
  | H5T_FLOAT => 1
  | H5T_TIME => 2
  | H5T_STRING => 3
  | H5T_BITFIELD => 4
  | H5T_OPAQUE => 5
  | H5T_COMPOUND => 6
  | H5T_REFERENCE => 7
  | H5T_ENUM => 8
  | H5T_VLEN => 9
  | H5T_ARRAY => 10
  | H5T_NCLASSES => 11
  end.

(** [HDFClassTypeAsStr(hid_t classType)]: the [switch] compares the
    integer with the enumerators, in the order of the [case] labels. *)
Definition HDFClassTypeAsStr (classType : hid_t) : str :=
  if classType =? H5T_class_value H5T_INTEGER then "H5T_INTEGER"
  else if classType =? H5T_class_value H5T_FLOAT then "H5T_FLOAT"
  else if classType =? H5T_class_value H5T_STRING then "H5T_STRING"
  else if classType =? H5T_class_value H5T_TIME then "H5T_TIME"
  else if classType =? H5T_class_value H5T_BITFIELD then "H5T_BITFIELD"
  else if classType =? H5T_class_value H5T_OPAQUE then "H5T_OPAQUE"
  else if classType =? H5T_class_value H5T_COMPOUND then "H5T_COMPOUND"
  else if classType =? H5T_class_value H5T_REFERENCE then "H5T_REFERENCE"
  else if classType =? H5T_class_value H5T_ENUM then "H5T_ENUM"
  else if classType =? H5T_class_value H5T_VLEN then "H5T_VLEN"
  else if classType =? H5T_class_value H5T_ARRAY then "H5T_ARRAY"
  else "OTHER".

(** [printHDFClassType(H5T_class_t classType)]: the line it writes to
    [std::cout]. *)
Definition printHDFClassType (classType : H5T_class_t) : str :=
  match classType with
  | H5T_INTEGER => "H5T_INTEGER"
  | H5T_FLOAT => "H5T_FLOAT"
  | H5T_STRING => "H5T_STRING"
  | H5T_TIME => "H5T_TIME"
  | H5T_BITFIELD => "H5T_BITFIELD"
  | H5T_OPAQUE => "H5T_OPAQUE"
  | H5T_COMPOUND => "H5T_COMPOUND"
  | H5T_REFERENCE => "H5T_REFERENCE"
  | H5T_ENUM => "H5T_ENUM"
  | H5T_VLEN => "H5T_VLEN"
  | H5T_ARRAY => "H5T_ARRAY"
  | _ => "OTHER"
  end.

(** ** Group methods *)

(** The test of [getGroupObjects] on a classified child. *)
Definition type_selected (typeFilter : CustomHDFDataTypes.t)
  (t : H5O_type_t) : bool :=
  (H5O_type_eqb t H5O_TYPE_GROUP
   && negb (Z.land CustomHDFDataTypes.Group typeFilter =? 0))
  || (H5O_type_eqb t H5O_TYPE_DATASET
      && negb (Z.land CustomHDFDataTypes.Dataset typeFilter =? 0)).

(** The [for] loop of [getGroupObjects]: [n] iterations remain, [i] is the
    index, [name] the reused buffer. *)
Fixpoint getGroupObjects_loop (n : nat) (locationID : hid_t)
  (typeFilter : CustomHDFDataTypes.t) (i : hsize_t) (name : Buffer.t)
  (error : herr_t) (names : list str) : prog (herr_t * list str) :=
  match n with
  | O => Ret (error, names)
  | S n' =>
      ' (r, _) <-
        call (H5Lget_name_by_idx locationID "." H5_INDEX_NAME H5_ITER_INC
                i 0 H5P_DEFAULT) ;;
      let size := to_size_t (1 + r) in
      let name := Buffer.resize size name in
      ' (_, w) <-
        call (H5Lget_name_by_idx locationID "." H5_INDEX_NAME H5_ITER_INC
                i size H5P_DEFAULT) ;;
      let name := Buffer.store w name in
      if typeFilter =? CustomHDFDataTypes.Any then
        objectName <- lift (Buffer.read name) ;;
        getGroupObjects_loop n' locationID typeFilter (i + 1) name error
          (names ++ [objectName])
      else
        child <- lift (Buffer.read name) ;;
        ' (error, objectInfo) <-
          call (H5Oget_info_by_name locationID child H5P_DEFAULT) ;;
        if 0 <=? error then
          if type_selected typeFilter (type objectInfo) then
            objectName <- lift (Buffer.read name) ;;
            getGroupObjects_loop n' locationID typeFilter (i + 1) name error
              (names ++ [objectName])
          else
            getGroupObjects_loop n' locationID typeFilter (i + 1) name error
              names
        else
          getGroupObjects_loop n' locationID typeFilter (i + 1) name error
            names
  end.

(** [getGroupObjects(locationID, typeFilter, std::list<std::string>& names)]
    returns the status and the value left in [names]. *)
Definition getGroupObjects (locationID : hid_t)
  (typeFilter : CustomHDFDataTypes.t) (names : list str)
  : prog (herr_t * list str) :=
  ' (error, groupInfo) <- call (H5Gget_info locationID) ;;
  if error <? 0 then Ret (error, names)
  else
    let numObjects := to_size_t (nlinks groupInfo) in
    if numObjects <=? 0 then Ret (0, names)
    else
      getGroupObjects_loop (Z.to_nat numObjects) locationID typeFilter 0 []
        error names.

Definition createGroup (locationID : hid_t) (group : str) : prog hid_t :=
  ' (error, _) <-
    call (H5Oget_info_by_name locationID (c_str group) H5P_DEFAULT) ;;
  if error =? 0 then
    call (H5Gopen locationID (c_str group) H5P_DEFAULT)
  else
    call (H5Gcreate locationID (c_str group) H5P_DEFAULT H5P_DEFAULT
            H5P_DEFAULT).

(** The [while (pos != npos)] loop of [createGroupsFromPath].  Each
    iteration moves [pos] to a later separator, so [length path] rounds
    are enough; [out_of_fuel] is never reached
    (see [createGroupsFromPath_loop_fuel]). *)
Fixpoint createGroupsFromPath_loop (fuel : nat) (path : str)
  (parent : hid_t) (pos : Z) (error : herr_t) : prog hid_t :=
  if pos =? npos then Ret error
  else
    match fuel with
    | O => Throw out_of_fuel
    | S fuel' =>
        first <- lift (substr path 0 pos) ;;
        second <- lift (substr path (to_size_t (pos + 1)) (size path)) ;;
        groupID <- createGroup parent first ;;
        if groupID <? 0 then
          cout (ErrCreatingGroup groupID) ;; Ret groupID
        else
          error <- call (H5Gclose groupID) ;;
          let pos := find_first_of path slash (to_size_t (pos + 1)) in
          if pos =? npos then
            let first := first ++ "/" ++ second in
            groupID <- createGroup parent first ;;
            if groupID <? 0 then
              cout (ErrCreatingGroup groupID) ;; Ret groupID
            else
              error <- call (H5Gclose groupID) ;;
              createGroupsFromPath_loop fuel' path parent pos error
          else
            createGroupsFromPath_loop fuel' path parent pos error
    end.

(** [createGroupsFromPath] from "Remove any trailing slash" on. *)
Definition createGroupsFromPath_tail (path : str) (parent : hid_t)
  : prog hid_t :=
  let pos := find_last_of path slash in
  path <- (if pos =? to_size_t (size path - 1)
           then lift (substr path 0 pos) else Ret path) ;;
  match path with
  | [] => Ret (-1)
  | _ =>
      let pos := find_first_of path slash 0 in
      if pos =? npos then
        groupID <- createGroup parent path ;;
        if groupID <? 0 then
          cout (ErrCreatingGroupFor path groupID) ;; Ret groupID
        else
          error <- call (H5Gclose groupID) ;;
          Ret error
      else
        createGroupsFromPath_loop (length path) path parent pos (-1)
  end.

Definition createGroupsFromPath (pathToCheck : str) (parent : hid_t)
  : prog hid_t :=
  let path := pathToCheck in
  if parent <=? 0 then
    cout BadParentId ;; Ret (-1)
  else
    let pos := find_first_of path slash 0 in
    if 0 =? pos then
      path <- lift (substr path 1 (size path)) ;;
      createGroupsFromPath_tail path parent
    else if pos =? npos then
      groupID <- createGroup parent path ;;
      if groupID <? 0 then
        cout (ErrCreatingGroupErr path groupID) ;; Ret groupID
      else
        error <- call (H5Gclose groupID) ;;
        if error <? 0 then
          cout ErrClosingGroup ;; Ret error
        else Ret error
    else
      createGroupsFromPath_tail path parent.

Definition createGroupsForDataset (datasetPath : str) (parent : hid_t)
  : prog hid_t :=
  let pos := find_last_of datasetPath slash in
  if negb (pos =? 0) && negb (pos =? npos) then
    parentPath <- lift (substr datasetPath 0 pos) ;;
    createGroupsFromPath parentPath parent
  else Ret 1.

(** ** Attribute methods *)

(** The [for] loop of [getAllAttributeNames]. *)
Fixpoint getAllAttributeNames_loop (n : nat) (objectID : hid_t)
  (i : hsize_t) (attributeName : Buffer.t) (error : herr_t)
  (results : list str) : prog (herr_t * list str) :=
  match n with
  | O => Ret (error, results)
  | S n' =>
      attributeID <-
        call (H5Aopen_by_idx objectID "." H5_INDEX_NAME H5_ITER_INC i
                H5P_DEFAULT H5P_DEFAULT) ;;
      ' (r, _) <- call (H5Aget_name attributeID 0) ;;
      let nameSize := to_size_t (1 + r) in
      let attributeName := Buffer.resize nameSize attributeName in
      ' (_, w) <- call (H5Aget_name attributeID nameSize) ;;
      let attributeName := Buffer.store w attributeName in
      fetched <- lift (Buffer.read attributeName) ;;
      let results := results ++ [fetched] in
      error <- call (H5Aclose attributeID) ;;
      getAllAttributeNames_loop n' objectID (i + 1) attributeName error
        results
  end.

(** [getAllAttributeNames(objectID, std::list<std::string>& results)] *)
Definition getAllAttributeNames (objectID : hid_t) (results : list str)
  : prog (herr_t * list str) :=
  if objectID <? 0 then Ret (-1, results)
  else
    ' (error, objectInfo) <- call (H5Oget_info objectID) ;;
    let numAttributes := to_size_t (num_attrs objectInfo) in
    getAllAttributeNames_loop (Z.to_nat numAttributes) objectID 0 [] error
      results.

(** [getAllAttributeNames(locationID, objectName, names)] *)
Definition getAllAttributeNames_by_name (locationID : hid_t)
  (objectName : str) (names : list str) : prog (herr_t * list str) :=
  let names : list str := [] in
  objectID <- openHDF5Object locationID objectName ;;
  if objectID <? 0 then Ret (to_herr_t objectID, names)
  else
    ' (_, names) <- getAllAttributeNames objectID names ;;
    error <- closeHDF5Object objectID ;;
    Ret (error, names).

(** ** The container: a reference gateway

    An executable model of the library side, as far as the header uses it:
    files hold a tree of links (to groups, datasets, named datatypes, or
    dangling soft links) and attributes in creation order; identifiers are
    entries of a handle table.  The name index ([H5_INDEX_NAME]) lists
    names in increasing byte order, the creation-order index in the order
    of creation.  A name is written into a buffer of [size] bytes as at
    most [size - 1] characters and a terminator. *)

Module Container.

Definition path := list str.

(** A location: file name and the segments from its root group. *)
Definition loc := (str * path)%type.

Inductive link :=
| Hard (t : H5O_type_t)
| Dangling.

Inductive handle :=
| HFile (f : str) (low high : H5F_libver_t)
| HObject (t : H5I_type_t) (f : str) (p : option path)
| HAttr (l : loc) (a : str)
| HPlist (low high : H5F_libver_t).

Record t := {
  links : list (loc * link);
  attrs : list (loc * str);
  handles : list (hid_t * handle);
  next_id : hid_t
}.

Definition path_eqb (p q : path) : bool :=
  if list_eq_dec (list_eq_dec ascii_dec) p q then true else false.

Definition loc_eqb (a b : loc) : bool :=
  str_eqb (fst a) (fst b) && path_eqb (snd a) (snd b).

Fixpoint lookup_link (k : loc) (l : list (loc * link)) : option link :=
  match l with
  | [] => None
  | (k', v) :: r => if loc_eqb k' k then Some v else lookup_link k r
  end.

Fixpoint find_handle (id : hid_t) (l : list (hid_t * handle))
  : option handle :=
  match l with
  | [] => None
  | (i, h) :: r => if i =? id then Some h else find_handle id r
  end.

Definition remove_handle (id : hid_t) (l : list (hid_t * handle))
  : list (hid_t * handle) :=
  filter (fun e => negb (fst e =? id)) l.

(** *** Paths *)

Fixpoint split (s : str) : list str :=
  match s with
  | [] => [[]]
  | c :: r =>
      if Ascii.eqb c slash then [] :: split r
      else match split r with
           | seg :: segs => (c :: seg) :: segs
           | [] => [[c]]
           end
  end.

(** Empty segments and ["."] do not move. *)
Definition moves (seg : str) : bool :=
  negb (str_eqb seg []) && negb (str_eqb seg ".").

Definition segments (name : str) : path := filter moves (split name).

Definition is_absolute (name : str) : bool :=
  match name with
  | c :: _ => Ascii.eqb c slash
  | [] => false
  end.

Definition resolve (base : loc) (name : str) : loc :=
  if is_absolute name then (fst base, segments name)
  else (fst base, snd base ++ segments name).

Fixpoint join (p : path) : str :=
  match p with
  | [] => []
  | [seg] => seg
  | seg :: rest => seg ++ slash :: join rest
  end.

Definition path_name (p : path) : str := slash :: join p.

(** *** Indexes *)

Fixpoint str_leb (a b : str) : bool :=
  match a, b with
  | [], _ => true
  | _ :: _, [] => false
  | x :: a', y :: b' =>
      match Ascii.compare x y with
      | Lt => true
      | Gt => false
      | Eq => str_leb a' b'
      end
  end.

Fixpoint insert_sorted (x : str) (l : list str) : list str :=
  match l with
  | [] => [x]
  | y :: r => if str_leb x y then x :: l else y :: insert_sorted x r
  end.

Definition sort_names (l : list str) : list str :=
  fold_right insert_sorted [] l.

Definition by_index (idx : H5_index_t) (order : H5_iter_order_t)
  (created : list str) : list str :=
  let l := match idx with
           | H5_INDEX_NAME => sort_names created
           | H5_INDEX_CRT_ORDER => created
           end in
  match order with
  | H5_ITER_DEC => rev l
  | H5_ITER_INC | H5_ITER_NATIVE => l
  end.

(** The name under which [k] is a child of the group at [l]. *)
Definition child_name (l k : loc) : option str :=
  if str_eqb (fst l) (fst k) then
    match rev (snd k) with
    | n :: rp => if path_eqb (rev rp) (snd l) then Some n else None
    | [] => None
    end
  else None.

Fixpoint children_of (l : loc) (ls : list (loc * link)) : list str :=
  match ls with
  | [] => []
  | (k, _) :: r =>
      match child_name l k with
      | Some n => n :: children_of l r
      | None => children_of l r
      end
  end.

Definition children (s : t) (l : loc) : list str := children_of l (links s).

Fixpoint attrs_of (l : loc) (al : list (loc * str)) : list str :=
  match al with
  | [] => []
  | (k, a) :: r => if loc_eqb k l then a :: attrs_of l r else attrs_of l r
  end.

Definition attributes (s : t) (l : loc) : list str := attrs_of l (attrs s).

(** *** Handles *)

Definition alloc (h : handle) (s : t) : hid_t * t :=
  (next_id s,
   {| links := links s; attrs := attrs s;
      handles := handles s ++ [(next_id s, h)];
      next_id := next_id s + 1 |}).

Definition release (id : hid_t) (s : t) : t :=
  {| links := links s; attrs := attrs s;
     handles := remove_handle id (handles s);
     next_id := next_id s |}.

Definition with_links (ls : list (loc * link)) (al : list (loc * str))
  (s : t) : t :=
  {| links := ls; attrs := al; handles := handles s;
     next_id := next_id s |}.

(** The container after [k] identifiers were handed out and released. *)
Definition bump (k : nat) (s : t) : t :=
  {| links := links s; attrs := attrs s; handles := handles s;
     next_id := next_id s + Z.of_nat k |}.

Definition set_handle (id : hid_t) (h : handle) (s : t) : t :=
  {| links := links s; attrs := attrs s;
     handles := map (fun e => if fst e =? id then (id, h) else e)
                  (handles s);
     next_id := next_id s |}.

(** The location an identifier stands for when used as [loc_id]. *)
Definition location (s : t) (id : hid_t) : option loc :=
  match find_handle id (handles s) with
  | Some (HFile f _ _) => Some (f, [])
  | Some (HObject _ f (Some p)) => Some (f, p)
  | _ => None
  end.

(** The location a by-name call addresses; the library rejects an empty
    name. *)
Definition target (s : t) (loc_id : hid_t) (name : str) : option loc :=
  match name, location s loc_id with
  | _ :: _, Some base => Some (resolve base name)
  | _, _ => None
  end.

Definition handle_type (h : handle) : H5I_type_t :=
  match h with
  | HFile _ _ _ => H5I_FILE
  | HObject t _ _ => t
  | HAttr _ _ => H5I_ATTR
  | HPlist _ _ => H5I_GENPROP_LST
  end.

Definition handle_file (h : handle) : option str :=
  match h with
  | HFile f _ _ => Some f
  | HObject _ f _ => Some f
  | HAttr l _ => Some (fst l)
  | HPlist _ _ => None
  end.

Definition handle_bit (h : handle) : Z :=
  match h with
  | HFile _ _ _ => H5F_OBJ_FILE
  | HObject H5I_GROUP _ _ => H5F_OBJ_GROUP
  | HObject H5I_DATASET _ _ => H5F_OBJ_DATASET
  | HObject H5I_DATATYPE _ _ => H5F_OBJ_DATATYPE
  | HAttr _ _ => H5F_OBJ_ATTR
  | _ => 0
  end.

(** The name [H5Iget_name] resolves for an identifier. *)
Definition handle_name (h : handle) : option str :=
  match h with
  | HFile _ _ _ => Some (path_name [])
  | HObject _ _ (Some p) => Some (path_name p)
  | HAttr l _ => Some (path_name (snd l))
  | _ => None
  end.

Definition counted (f : str) (types : Z) (e : hid_t * handle) : bool :=
  match handle_file (snd e) with
  | Some f' => str_eqb f' f && negb (Z.land (handle_bit (snd e)) types =? 0)
  | None => false
  end.

(** Identifiers of the given kinds open on file [f], oldest first.
    Identifiers are not tied to the file identifier they were opened
    through, so [H5F_OBJ_LOCAL] makes no difference here. *)
Definition open_ids (s : t) (f : str) (types : Z) : list hid_t :=
  map fst (filter (counted f types) (handles s)).

Definition file_is_open (s : t) (f : str) : bool :=
  existsb (fun e => match handle_file (snd e) with
                    | Some f' => str_eqb f' f
                    | None => false
                    end) (handles s).

(** *** Answers *)

Definition write_name (size : Z) (name : str) : list ascii :=
  if size <=? 0 then []
  else firstn (Z.to_nat (size - 1)) name ++ [zero].

Definition name_answer (size : Z) (name : option str)
  : ssize_t * list ascii :=
  match name with
  | Some n => (Z.of_nat (length n), write_name size n)
  | None => (-1, [])
  end.

Definition default_low : H5F_libver_t := H5F_LIBVER_EARLIEST.
Definition default_high : H5F_libver_t := H5F_LIBVER_LATEST.

(** The version bounds a file access property list carries. *)
Definition fapl_bounds (s : t) (fapl : hid_t)
  : option (H5F_libver_t * H5F_libver_t) :=
  if fapl =? H5P_DEFAULT then Some (default_low, default_high)
  else match find_handle fapl (handles s) with
       | Some (HPlist low high) => Some (low, high)
       | _ => None
       end.

Definition no_info : H5O_info_t :=
  {| type := H5O_TYPE_UNKNOWN; num_attrs := 0 |}.

Definition info_at (s : t) (l : loc) : herr_t * H5O_info_t :=
  match lookup_link l (links s) with
  | Some (Hard ty) =>
      (0, {| type := ty;
             num_attrs := Z.of_nat (length (attributes s l)) |})
  | _ => (-1, no_info)
  end.

Definition close_if (ok : handle -> bool) (id : hid_t) (s : t)
  : herr_t * t :=
  match find_handle id (handles s) with
  | Some h => if ok h then (0, release id s) else (-1, s)
  | None => (-1, s)
  end.

Definition is_object (ty : H5I_type_t) (h : handle) : bool :=
  match h, ty with
  | HObject H5I_GROUP _ _, H5I_GROUP
  | HObject H5I_DATASET _ _, H5I_DATASET
  | HObject H5I_DATATYPE _ _, H5I_DATATYPE => true
  | _, _ => false
  end.

Definition open_object (ty : H5O_type_t) (it : H5I_type_t) (loc_id : hid_t)
  (name : str) (s : t) : hid_t * t :=
  match target s loc_id name with
  | Some k =>
      match lookup_link k (links s) with
      | Some (Hard ty') =>
          if H5O_type_eqb ty' ty then
            alloc (HObject it (fst k) (Some (snd k))) s
          else (-1, s)
      | _ => (-1, s)
      end
  | None => (-1, s)
  end.

Definition create_group (loc_id : hid_t) (name : str) (s : t)
  : hid_t * t :=
  match target s loc_id name with
  | Some k =>
      match snd k, lookup_link k (links s),
            lookup_link (fst k, removelast (snd k)) (links s) with
      | _ :: _, None, Some (Hard H5O_TYPE_GROUP) =>
          alloc (HObject H5I_GROUP (fst k) (Some (snd k)))
            (with_links (links s ++ [(k, Hard H5O_TYPE_GROUP)]) (attrs s) s)
      | _, _, _ => (-1, s)
      end
  | None => (-1, s)
  end.

Definition respond (R : Type) (c : H5call R) (s : t) : R * t :=
  match c in H5call R return R * t with
  | H5Fopen filename _ fapl =>
      match lookup_link (filename, []) (links s), fapl_bounds s fapl with
      | Some _, Some (low, high) => alloc (HFile filename low high) s
      | _, _ => (-1, s)
      end
  | H5Fcreate filename _ _ fapl =>
      match file_is_open s filename, fapl_bounds s fapl with
      | false, Some (low, high) =>
          let keep {V} (e : loc * V) := negb (str_eqb (fst (fst e)) filename) in
          alloc (HFile filename low high)
            (with_links
               (filter keep (links s)
                ++ [((filename, []), Hard H5O_TYPE_GROUP)])
               (filter keep (attrs s)) s)
      | _, _ => (-1, s)
      end
  | H5Fclose id =>
      close_if (fun h => match h with HFile _ _ _ => true | _ => false end)
        id s
  | H5Fget_obj_count id types =>
      match find_handle id (handles s) with
      | Some (HFile f _ _) => (Z.of_nat (length (open_ids s f types)), s)
      | _ => (-1, s)
      end
  | H5Fget_obj_ids id types max_objs =>
      match find_handle id (handles s) with
      | Some (HFile f _ _) =>
          let ids := firstn (Z.to_nat max_objs) (open_ids s f types) in
          ((Z.of_nat (length ids), ids), s)
      | _ => ((-1, []), s)
      end
  | H5Pcreate _ => alloc (HPlist default_low default_high) s
  | H5Pset_libver_bounds plist low high =>
      match find_handle plist (handles s) with
      | Some (HPlist _ _) => (0, set_handle plist (HPlist low high) s)
      | _ => (-1, s)
      end
  | H5Pclose plist =>
      close_if (fun h => match h with HPlist _ _ => true | _ => false end)
        plist s
  | H5Iget_type id =>
      (match find_handle id (handles s) with
       | Some h => handle_type h
       | None => H5I_BADID
       end, s)
  | H5Iget_name id size =>
      (name_answer size
         (match find_handle id (handles s) with
          | Some h => handle_name h
          | None => None
          end), s)
  | H5Gclose id => close_if (is_object H5I_GROUP) id s
  | H5Dclose id => close_if (is_object H5I_DATASET) id s
  | H5Tclose id => close_if (is_object H5I_DATATYPE) id s
  | H5Aclose id =>
      close_if (fun h => match h with HAttr _ _ => true | _ => false end)
        id s
  | H5Sclose _ => (-1, s)
  | H5Oget_info_by_name loc_id name _ =>
      (match target s loc_id name with
       | Some l => info_at s l
       | None => (-1, no_info)
       end, s)
  | H5Oget_info id =>
      (match location s id with
       | Some l => info_at s l
       | None => (-1, no_info)
       end, s)
  | H5Oexists_by_name loc_id name _ =>
      (match target s loc_id name with
       | Some l =>
           match lookup_link l (links s) with
           | Some (Hard _) => 1
           | _ => 0
           end
       | None => -1
       end, s)
  | H5Gget_info loc_id =>
      (match location s loc_id with
       | Some l =>
           match lookup_link l (links s) with
           | Some (Hard H5O_TYPE_GROUP) =>
               (0, {| nlinks := Z.of_nat (length (children s l)) |})
           | _ => (-1, {| nlinks := 0 |})
           end
       | None => (-1, {| nlinks := 0 |})
       end, s)
  | H5Lget_name_by_idx loc_id group_name idx order n size _ =>
      (name_answer size
         (match target s loc_id group_name with
          | Some l =>
              match lookup_link l (links s) with
              | Some (Hard H5O_TYPE_GROUP) =>
                  if n <? 0 then None
                  else nth_error (by_index idx order (children s l))
                         (Z.to_nat n)
              | _ => None
              end
          | None => None
          end), s)
  | H5Gopen loc_id name _ =>
      open_object H5O_TYPE_GROUP H5I_GROUP loc_id name s
  | H5Dopen loc_id name _ =>
      open_object H5O_TYPE_DATASET H5I_DATASET loc_id name s
  | H5Gcreate loc_id name _ _ _ => create_group loc_id name s
  | H5Aopen_by_idx loc_id obj_name idx order n _ _ =>
      match target s loc_id obj_name with
      | Some l =>
          match lookup_link l (links s) with
          | Some (Hard _) =>
              match (if n <? 0 then None
                     else nth_error (by_index idx order (attributes s l))
                            (Z.to_nat n)) with
              | Some a => alloc (HAttr l a) s
              | None => (-1, s)
              end
          | _ => (-1, s)
          end
      | None => (-1, s)
      end
  | H5Aget_name attr buf_size =>
      (name_answer buf_size
         (match find_handle attr (handles s) with
          | Some (HAttr _ a) => Some a
          | _ => None
          end), s)
  end.

Definition h5 : gateway := Build_gateway t respond.

Definition empty : t :=
  {| links := []; attrs := []; handles := []; next_id := 1 |}.

(** Identifiers are positive and never reused. *)
Definition ids_ok (s : t) : bool :=
  (0 <? next_id s) && forallb (fun e => fst e <? next_id s) (handles s).

Definition no_nul (n : str) : bool := negb (existsb (Ascii.eqb zero) n).

(** A path segment that names a link: non-empty, not ["."], without
    separator. *)
Definition segment_name (n : str) : bool :=
  moves n && negb (existsb (Ascii.eqb slash) n).

(** A link name: a segment name without terminator, of a length a
    [std::string] can have. *)
Definition link_name (n : str) : bool :=
  segment_name n && no_nul n && (size n <? npos).

Definition attr_name (a : str) : bool := no_nul a && (size a <? npos).

Definition names_ok (s : t) : bool :=
  forallb (fun e => forallb link_name (snd (fst e))) (links s)
  && forallb (fun e => attr_name (snd e)) (attrs s).

(** The children of the group at [l] as [getGroupObjects] indexes them. *)
Definition listing (s : t) (l : loc) : list str :=
  by_index H5_INDEX_NAME H5_ITER_INC (children s l).

(** The link behind the child [n] of the group at [l]. *)
Definition child_link (s : t) (l : loc) (n : str) : option link :=
  lookup_link (fst l, snd l ++ [n]) (links s).

(** The attributes of the object at [l] as [getAllAttributeNames] indexes
    them. *)
Definition attr_listing (s : t) (l : loc) : list str :=
  by_index H5_INDEX_NAME H5_ITER_INC (attributes s l).

End Container.

(** The identifier [id] is open on the object at [l], of type [ty], in a
    container with well-formed names and identifiers. *)
Definition object_open (id : hid_t) (l : Container.loc) (ty : H5O_type_t)
  (s : Container.t) : Prop :=
  Container.names_ok s = true /\
  Container.ids_ok s = true /\
  Container.location s id = Some l /\
  Container.lookup_link l (Container.links s) = Some (Container.Hard ty).

(** The container after the identifiers [ids] were released. *)
Definition release_all (ids : list hid_t) (s : Container.t) : Container.t :=
  fold_left (fun s id => Container.release id s) ids s.

(** The kinds of handle the sweep of [closeFile] asks for. *)
Definition swept (h : Container.handle) : bool :=
  match h with
  | Container.HObject H5I_GROUP _ _
  | Container.HObject H5I_DATASET _ _
  | Container.HObject H5I_DATATYPE _ _
  | Container.HAttr _ _ => true
  | _ => false
  end.

(** A group creation ([H5Gcreate]). *)
Definition is_create (e : event) : bool :=
  match e with
  | Called c _ =>
      match c with
      | H5Gcreate _ _ _ _ _ => true
      | _ => false
      end
  | Printed _ => false
  end.

(** A path segment: non-empty and without separator. *)
Definition plain_seg (x : str) : Prop := x <> [] /\ ~ In slash x.

(** The text of a path: segments joined by separators, with or without a
    leading and a trailing separator. *)
Definition path_text (lead trail : bool) (segs : list str) : str :=
  (if lead then [slash] else [])
  ++ Container.join segs ++ (if trail then [slash] else []).

(** The links after the group at [key] was ensured. *)
Definition add_group (key : Container.loc)
  (ls : list (Container.loc * Container.link))
  : list (Container.loc * Container.link) :=
  match Container.lookup_link key ls with
  | None => ls ++ [(key, Container.Hard H5O_TYPE_GROUP)]
  | Some _ => ls
  end.

(** The links after the groups [cur/x1], [cur/x1/x2], ... were ensured,
    outermost first. *)
Fixpoint ensured (f : str) (cur todo : Container.path)
  (ls : list (Container.loc * Container.link))
  : list (Container.loc * Container.link) :=
  match todo with
  | [] => ls
  | x :: rest => ensured f (cur ++ [x]) rest (add_group (f, cur ++ [x]) ls)
  end.

(** Every group to ensure is either absent or already a group. *)
Fixpoint ensurable (f : str) (cur todo : Container.path)
  (ls : list (Container.loc * Container.link)) : Prop :=
  match todo with
  | [] => True
  | x :: rest =>
      (Container.lookup_link (f, cur ++ [x]) ls = None \/
       Container.lookup_link (f, cur ++ [x]) ls
       = Some (Container.Hard H5O_TYPE_GROUP)) /\
      ensurable f (cur ++ [x]) rest ls
  end.

(** Every group to ensure is there. *)
Fixpoint all_groups (f : str) (cur todo : Container.path)
  (ls : list (Container.loc * Container.link)) : Prop :=
  match todo with
  | [] => True
  | x :: rest =>
      Container.lookup_link (f, cur ++ [x]) ls
      = Some (Container.Hard H5O_TYPE_GROUP) /\
      all_groups f (cur ++ [x]) rest ls
  end.

(** The container after [k] identifiers were handed out and released,
    with links [ls]. *)
Definition relinked (ls : list (Container.loc * Container.link)) (k : nat)
  (s : Container.t) : Container.t :=
  Container.bump k (Container.with_links ls (Container.attrs s) s).

(** A lookup of an object's type by name ([H5Oget_info_by_name]). *)
Definition is_type_lookup (e : event) : bool :=
  match e with
  | Called c _ =>
      match c with
      | H5Oget_info_by_name _ _ _ => true
      | _ => false
      end
  | Printed _ => false
  end.

(** What [getGroupObjects] keeps of a child behind link [k]: with the
    filter [Any] every child; otherwise a group under the [Group] bit and
    a dataset under the [Dataset] bit. *)
Definition child_kept (typeFilter : CustomHDFDataTypes.t)
  (k : option Container.link) : bool :=
  if typeFilter =? CustomHDFDataTypes.Any then true
  else
    match k with
    | Some (Container.Hard H5O_TYPE_GROUP) =>
        negb (Z.land CustomHDFDataTypes.Group typeFilter =? 0)
    | Some (Container.Hard H5O_TYPE_DATASET) =>
        negb (Z.land CustomHDFDataTypes.Dataset typeFilter =? 0)
    | _ => false
    end.

(** ** What a run is expected to show

    Descriptions of traces, written from what the functions are meant to
    do and compared with the runs of the code in Part II. *)

(** The two calls of a size-then-fill retrieval of the name [n], made as
    [fetch size]: the size query, which passes no buffer and is answered
    with the length of the name, and the fetch into a buffer of that
    length plus one, answered with the name and its terminator. *)
Definition size_then_fill (fetch : Z -> H5call (ssize_t * list ascii))
  (n : str) : list event :=
  [Called (fetch 0) (size n, []);
   Called (fetch (size n + 1)) (size n, n ++ [zero])].

(** The calls [getGroupObjects] makes for the child [n] at index [i] of
    the group at [l]: the name is retrieved size-then-fill and, unless the
    filter is [Any], the child's type is looked up. *)
Definition child_calls (s : Container.t) (loc_id : hid_t)
  (l : Container.loc) (typeFilter : CustomHDFDataTypes.t) (i : nat)
  (n : str) : list event :=
  size_then_fill
    (fun size => H5Lget_name_by_idx loc_id "." H5_INDEX_NAME H5_ITER_INC
                   (Z.of_nat i) size H5P_DEFAULT) n
  ++ (if typeFilter =? CustomHDFDataTypes.Any then []
      else [Called (H5Oget_info_by_name loc_id n H5P_DEFAULT)
              (Container.info_at s (fst l, snd l ++ [n]))]).

Fixpoint listing_calls (s : Container.t) (loc_id : hid_t)
  (l : Container.loc) (typeFilter : CustomHDFDataTypes.t) (i : nat)
  (children : list str) : list event :=
  match children with
  | [] => []
  | n :: rest =>
      child_calls s loc_id l typeFilter i n
      ++ listing_calls s loc_id l typeFilter (S i) rest
  end.

(** The calls [getAllAttributeNames] makes for the attributes [names]
    from index [i] on, when the next free identifier is [id]: each
    attribute is opened, its name retrieved size-then-fill, and it is
    closed again. *)
Fixpoint attribute_calls (objectID : hid_t) (i : nat) (id : hid_t)
  (names : list str) : list event :=
  match names with
  | [] => []
  | a :: rest =>
      Called (H5Aopen_by_idx objectID "." H5_INDEX_NAME H5_ITER_INC
                (Z.of_nat i) H5P_DEFAULT H5P_DEFAULT) id
      :: size_then_fill (H5Aget_name id) a
      ++ Called (H5Aclose id) 0
      :: attribute_calls objectID (S i) (id + 1) rest
  end.

(** What [closeFile] is to do for one identifier left open whose name
    resolves: fetch the name into the 1024-byte buffer, report the
    identifier with the name read from the buffer, and run
    [closeHDF5Object] on it, whatever status that returns. *)
Inductive leak_swept (g : gateway) (id : hid_t) (s s' : state g)
  : list event -> Prop :=
| leak_swept_intro (charsRead : ssize_t) (w : list ascii) (s1 : state g)
    (leaked : str) (err : herr_t) (t : list event) :
    answer g _ (H5Iget_name id 1024) s = ((charsRead, w), s1) ->
    0 <= charsRead ->
    Buffer.read (Buffer.store w (Buffer.make 1024)) = Ok leaked ->
    run g (closeHDF5Object id) s1 = (Ok err, s', t) ->
    leak_swept g id s s'
      (Called (H5Iget_name id 1024) (charsRead, w)
       :: Printed (ObjectLeftOpen id leaked)
       :: t).

(** The same for a list of identifiers, in order. *)
Inductive leaks_swept (g : gateway)
  : list hid_t -> state g -> state g -> list event -> Prop :=
| leaks_swept_nil (s : state g) : leaks_swept g [] s s []
| leaks_swept_cons (id : hid_t) (rest : list hid_t) (s s1 s2 : state g)
    (t1 t2 : list event) :
    leak_swept g id s s1 t1 ->
    leaks_swept g rest s1 s2 t2 ->
    leaks_swept g (id :: rest) s s2 (t1 ++ t2).

(** A library call that reads and neither opens, creates nor closes
    anything; console output counts as such. *)
Definition is_query (e : event) : bool :=
  match e with
  | Called c _ =>
      match c with
      | H5Iget_type _
      | H5Iget_name _ _
      | H5Oget_info_by_name _ _ _
      | H5Oget_info _
      | H5Oexists_by_name _ _ _
      | H5Gget_info _
      | H5Lget_name_by_idx _ _ _ _ _ _ _
      | H5Aget_name _ _
      | H5Fget_obj_count _ _
      | H5Fget_obj_ids _ _ _ => true
      | _ => false
      end
  | Printed _ => true
  end.




(** A library in which no identifier has a name: [H5Iget_name] answers 0
    and writes the terminator where there is room; every other call
    fails. *)
Definition unnamed : gateway :=
  Build_gateway unit
    (fun R c s =>
       (match c in H5call R return R with
        | H5Fopen _ _ _ => -1
        | H5Fcreate _ _ _ _ => -1
        | H5Fclose _ => -1
        | H5Fget_obj_count _ _ => -1
        | H5Fget_obj_ids _ _ _ => (-1, [])
        | H5Pcreate _ => -1
        | H5Pset_libver_bounds _ _ _ => -1
        | H5Pclose _ => -1
        | H5Iget_type _ => H5I_GROUP
        | H5Iget_name _ size => (0, Container.write_name size [])
        | H5Gclose _ => -1
        | H5Dclose _ => -1
        | H5Aclose _ => -1
        | H5Tclose _ => -1
        | H5Sclose _ => -1
        | H5Oget_info_by_name _ _ _ => (-1, Container.no_info)
        | H5Oget_info _ => (-1, Container.no_info)
        | H5Oexists_by_name _ _ _ => -1
        | H5Gget_info _ => (-1, {| nlinks := 0 |})
        | H5Lget_name_by_idx _ _ _ _ _ _ _ => (-1, [])
        | H5Gopen _ _ _ => -1
        | H5Dopen _ _ _ => -1
        | H5Gcreate _ _ _ _ _ => -1
        | H5Aopen_by_idx _ _ _ _ _ _ _ => -1
        | H5Aget_name _ _ => (-1, [])
        end, s)).

(** ** Sample containers *)

Module Samples.
Import Container.

Definition at_path (f : str) (p : list string) : loc :=
  (f, map list_ascii_of_string p).

Definition entry (f : str) (p : list string) (k : link) : loc * link :=
  (at_path f p, k).

Definition object (t : H5I_type_t) (f : str) (p : list string) : handle :=
  HObject t f (Some (map list_ascii_of_string p)).

(** A file on disk, not open. *)
Definition on_disk : Container.t :=
  {| links := [entry "data.h5" [] (Hard H5O_TYPE_GROUP)];
     attrs := []; handles := []; next_id := 1 |}.

(** An open file with one group handle left open whose name the library
    cannot resolve. *)
Definition unnamed_leak : Container.t :=
  {| links := [entry "data.h5" [] (Hard H5O_TYPE_GROUP);
               entry "data.h5" ["g"] (Hard H5O_TYPE_GROUP)];
     attrs := [];
     handles := [(1, HFile "data.h5" default_low default_high);
                 (2, HObject H5I_GROUP "data.h5" None)];
     next_id := 3 |}.

(** An open file with a group, a dataset and an attribute handle left
    open. *)
Definition leaks : Container.t :=
  {| links := [entry "data.h5" [] (Hard H5O_TYPE_GROUP);
               entry "data.h5" ["g"] (Hard H5O_TYPE_GROUP);
               entry "data.h5" ["g"; "d"] (Hard H5O_TYPE_DATASET)];
     attrs := [(at_path "data.h5" ["g"], "unit" : str)];
     handles := [(1, HFile "data.h5" default_low default_high);
                 (2, object H5I_GROUP "data.h5" ["g"]);
                 (3, object H5I_DATASET "data.h5" ["g"; "d"]);
                 (4, HAttr (at_path "data.h5" ["g"]) "unit")];
     next_id := 5 |}.

(** An open file whose root group holds a named datatype, a dangling
    soft link, a group and a dataset, and has two attributes, created in
    this order. *)
Definition mixed : Container.t :=
  {| links := [entry "data.h5" [] (Hard H5O_TYPE_GROUP);
               entry "data.h5" ["t"] (Hard H5O_TYPE_NAMED_DATATYPE);
               entry "data.h5" ["l"] Dangling;
               entry "data.h5" ["g"] (Hard H5O_TYPE_GROUP);
               entry "data.h5" ["d"] (Hard H5O_TYPE_DATASET)];
     attrs := [(at_path "data.h5" [], "b" : str);
               (at_path "data.h5" [], "a" : str)];
     handles := [(1, HFile "data.h5" default_low default_high)];
     next_id := 2 |}.

(** An open file whose root group holds a dangling soft link ["a"], a
    dataset ["c"] and a group ["b"]. *)
Definition dangling_first : Container.t :=
  {| links := [entry "data.h5" [] (Hard H5O_TYPE_GROUP);
               entry "data.h5" ["a"] Dangling;
               entry "data.h5" ["c"] (Hard H5O_TYPE_DATASET);
               entry "data.h5" ["b"] (Hard H5O_TYPE_GROUP)];
     attrs := [];
     handles := [(1, HFile "data.h5" default_low default_high)];
     next_id := 2 |}.

Definition long_name : str := repeat "x"%char 1100.

(** An open file whose root group has three attributes, created in the
    order ["b"], [long_name], ["a"], and a group with a 1100-character
    name on which a handle was left open. *)
Definition long_names : Container.t :=
  {| links := [entry "data.h5" [] (Hard H5O_TYPE_GROUP);
               (("data.h5" : str, [long_name]), Hard H5O_TYPE_GROUP)];
     attrs := [(at_path "data.h5" [], "b" : str);
               (at_path "data.h5" [], long_name);
               (at_path "data.h5" [], "a" : str)];
     handles := [(1, HFile "data.h5" default_low default_high);
                 (2, HObject H5I_GROUP "data.h5" (Some [long_name]))];
     next_id := 3 |}.

End Samples.

(* ================================================================== *)
(** * Part II: theorems                                                *)
(* ================================================================== *)

(** ** Facts about the string primitives *)

Lemma str_eqb_eq (a b : str) : str_eqb a b = true <-> a = b.
Proof.
  unfold str_eqb. destruct (list_eq_dec ascii_dec a b); split; congruence.
Qed.

Lemma npos_pos : 0 < npos.
Proof. reflexivity. Qed.

Lemma to_size_t_small (z : Z) : 0 <= z < 2 ^ 64 -> to_size_t z = z.
Proof. intros H. unfold to_size_t. apply Z.mod_small. exact H. Qed.

Lemma size_nonneg (s : str) : 0 <= size s.
Proof. unfold size. lia. Qed.

Lemma size_app (a b : str) : size (a ++ b) = size a + size b.
Proof. unfold size. rewrite length_app. lia. Qed.

(** [rindex] finds nothing exactly when the character does not occur. *)
Lemma rindex_None (c : ascii) (s : str) :
  rindex c s = None <-> ~ In c s.
Proof.
  induction s as [|x t IH]; simpl.
  - tauto.
  - destruct (rindex c t) as [i|].
    + split; [discriminate|]. intros H. exfalso. apply H. right.
      destruct (in_dec ascii_dec c t) as [Hi|Hn]; [exact Hi|].
      apply IH in Hn. discriminate.
    + destruct (Ascii.eqb_spec x c) as [->|Hne].
      * split; [discriminate|]. intros H. exfalso. apply H. now left.
      * split; [|reflexivity]. intros _ [H|H]; [congruence|].
        now apply (proj1 IH).
Qed.

(** When [rindex] finds an offset, it splits the string around the last
    occurrence. *)
Lemma rindex_Some (c : ascii) (s : str) (i : nat) :
  rindex c s = Some i ->
  exists pre post,
    s = pre ++ c :: post /\ length pre = i /\ ~ In c post.
Proof.
  revert i. induction s as [|x t IH]; simpl; intros i H.
  - discriminate.
  - destruct (rindex c t) as [j|] eqn:E.
    + injection H as <-. destruct (IH j eq_refl) as (pre & post & -> & Hl & Hn).
      exists (x :: pre), post. simpl. repeat split; auto.
    + destruct (Ascii.eqb_spec x c) as [->|Hne]; [|discriminate].
      injection H as <-. exists [], t. simpl. repeat split.
      now apply rindex_None.
Qed.

Lemma rindex_app_last (c : ascii) (pre post : str) :
  ~ In c post -> rindex c (pre ++ c :: post) = Some (length pre).
Proof.
  intros Hn. induction pre as [|x t IH]; simpl.
  - apply rindex_None in Hn. rewrite Hn. now rewrite Ascii.eqb_refl.
  - now rewrite IH.
Qed.

(** ** Path utilities *)

Section PathUtilities.

Variables (pre leaf : str).
Hypothesis leaf_plain : ~ In slash leaf.
Hypothesis fits : size (pre ++ slash :: leaf) < npos.

Let path : str := pre ++ slash :: leaf.

Lemma find_last_of_split : find_last_of path slash = size pre.
Proof.
  unfold find_last_of, path. now rewrite rindex_app_last.
Qed.

(** With a separator present, [getParentPath] returns what precedes the
    last separator. *)
Lemma getParentPath_split : getParentPath path = Ok pre.
Proof.
  unfold getParentPath. rewrite find_last_of_split.
  assert (Hs : size path = size pre + 1 + size leaf).
  { unfold path. rewrite size_app. unfold size. simpl length. lia. }
  pose proof (size_nonneg pre). pose proof (size_nonneg leaf).
  unfold erase. fold path in fits.
  destruct (Z.ltb_spec (size path) (size pre)); [lia|].
  rewrite to_size_t_small by (unfold npos in fits; lia).
  rewrite Z.min_id.
  replace (size pre + (size path - size pre)) with (size path) by lia.
  unfold size at 1 2. rewrite !Nat2Z.id.
  rewrite skipn_all, app_nil_r. unfold path.
  now rewrite firstn_app, Nat.sub_diag, firstn_all, firstn_O, app_nil_r.
Qed.

(** [getObjectNameFromPath] returns what follows the last separator. *)
Lemma getObjectNameFromPath_split : getObjectNameFromPath path = Ok leaf.
Proof.
  unfold getObjectNameFromPath. rewrite find_last_of_split.
  assert (Hs : size path = size pre + 1 + size leaf).
  { unfold path. rewrite size_app. unfold size. simpl length. lia. }
  pose proof (size_nonneg pre). pose proof (size_nonneg leaf).
  unfold erase. fold path in fits.
  destruct (Z.ltb_spec (size path) 0); [lia|].
  rewrite to_size_t_small by (unfold npos in fits; lia).
  rewrite Z.min_l by lia. rewrite Z.add_0_l.
  replace (Z.to_nat (size pre + 1)) with (length pre + 1)%nat
    by (unfold size; lia).
  simpl firstn. simpl app.
  unfold path. rewrite skipn_app.
  replace (length pre + 1 - length pre)%nat with 1%nat by lia.
  rewrite (@skipn_all2 _ _ pre) by lia. reflexivity.
Qed.

(** [extractObjectName] returns what follows the last separator, unless
    the path is the root path. *)
Lemma extractObjectName_split :
  path <> "/" -> extractObjectName path = Ok leaf.
Proof.
  intros Hroot. unfold extractObjectName. rewrite find_last_of_split.
  assert (Hs : size path = size pre + 1 + size leaf).
  { unfold path. rewrite size_app. unfold size. simpl length. lia. }
  pose proof (size_nonneg pre). pose proof (size_nonneg leaf).
  fold path in fits.
  destruct (Z.eqb_spec (size pre) npos); [lia|].
  destruct (str_eqb path "/") eqn:E; [apply str_eqb_eq in E; contradiction|].
  simpl orb. unfold substr.
  rewrite to_size_t_small by (unfold npos in fits; lia).
  destruct (Z.ltb_spec (size path) (size pre + 1)); [lia|].
  rewrite Z.min_r by lia.
  replace (Z.to_nat (size pre + 1)) with (length pre + 1)%nat
    by (unfold size; lia).
  replace (Z.to_nat (size path - (size pre + 1))) with (length leaf)
    by (unfold size in *; lia).
  unfold path. rewrite skipn_app.
  replace (length pre + 1 - length pre)%nat with 1%nat by lia.
  rewrite (@skipn_all2 _ _ pre) by lia. simpl. now rewrite firstn_all.
Qed.

End PathUtilities.

Section NoSeparator.

Variable path : str.
Hypothesis plain : ~ In slash path.
Hypothesis fits : size path < npos.

Lemma find_last_of_plain : find_last_of path slash = npos.
Proof.
  unfold find_last_of. apply rindex_None in plain. now rewrite plain.
Qed.

Lemma getObjectNameFromPath_plain : getObjectNameFromPath path = Ok path.
Proof.
  unfold getObjectNameFromPath. rewrite find_last_of_plain.
  pose proof (size_nonneg path).
  unfold erase. destruct (Z.ltb_spec (size path) 0); [lia|].
  change (to_size_t (npos + 1)) with 0. rewrite Z.min_l by lia.
  reflexivity.
Qed.

Lemma extractObjectName_plain : extractObjectName path = Ok path.
Proof.
  unfold extractObjectName. rewrite find_last_of_plain.
  now rewrite Z.eqb_refl.
Qed.

(** Without separator [find_last_of] yields [npos] and [erase(npos, _)]
    raises [std::out_of_range]. *)
Lemma getParentPath_plain_raises :
  getParentPath path = Raise out_of_range.
Proof.
  unfold getParentPath. rewrite find_last_of_plain.
  unfold erase. destruct (Z.ltb_spec (size path) npos); [reflexivity|lia].
Qed.

End NoSeparator.

(** C6, evaluated on the code: with a separator present [getParentPath]
    returns what precedes the last separator; without one it does not
    return the empty parent but raises [std::out_of_range]. *)
Theorem getParentPath_parent_or_raise (path : str) :
  size path < npos ->
  (forall pre leaf,
      path = pre ++ slash :: leaf -> ~ In slash leaf ->
      getParentPath path = Ok pre) /\
  (~ In slash path -> getParentPath path = Raise out_of_range).
Proof.
  intros Hsz. split.
  - intros pre leaf -> Hleaf. now apply getParentPath_split.
  - intros Hplain. now apply getParentPath_plain_raises.
Qed.

Lemma getParentPath_parent_or_raise_witness :
  size ("a" : str) < npos /\
  ~ In slash ("a" : str) /\
  getParentPath "a" = Raise out_of_range.
Proof.
  assert (H : ~ In slash ("a" : str))
    by (cbn; intros [H|[]]; discriminate H).
  split; [reflexivity|]. split; [exact H|].
  apply (proj2 (getParentPath_parent_or_raise "a" eq_refl) H).
Defined.

Example getParentPath_abc : getParentPath "a/b/c" = Ok ("a/b" : str).
Proof. reflexivity. Qed.

Example getParentPath_root_child : getParentPath "/a" = Ok [].
Proof. reflexivity. Qed.

Lemma last_separator (path : str) :
  In slash path ->
  exists pre leaf, path = pre ++ slash :: leaf /\ ~ In slash leaf.
Proof.
  intros Hin. destruct (rindex slash path) as [i|] eqn:E.
  - destruct (rindex_Some _ _ _ E) as (pre & leaf & -> & _ & Hleaf).
    now exists pre, leaf.
  - apply rindex_None in E. contradiction.
Qed.

(** C7, evaluated on the code: the two utilities return the same leaf
    name on every path but the root path: there [extractObjectName]
    returns ["/"] and [getObjectNameFromPath] the empty string.  Both
    return ["c"] on ["a/b/c"]. *)
Theorem leaf_name_of_root (path : str) :
  size path < npos ->
  (path <> "/" -> getObjectNameFromPath path = extractObjectName path) /\
  extractObjectName "/" = Ok ("/" : str) /\
  getObjectNameFromPath "/" = Ok [] /\
  extractObjectName "a/b/c" = Ok ("c" : str) /\
  getObjectNameFromPath "a/b/c" = Ok ("c" : str).
Proof.
  intros Hsz. split; [|repeat split].
  intros Hroot. destruct (in_dec ascii_dec slash path) as [Hin|Hout].
  - destruct (last_separator path Hin) as (pre & leaf & -> & Hleaf).
    rewrite getObjectNameFromPath_split, extractObjectName_split by assumption.
    reflexivity.
  - now rewrite getObjectNameFromPath_plain, extractObjectName_plain.
Qed.

Lemma leaf_name_of_root_witness :
  size ("/" : str) < npos /\
  ((("/" : str) <> "/" ->
    getObjectNameFromPath "/" = extractObjectName "/") /\
   extractObjectName "/" = Ok ("/" : str) /\
   getObjectNameFromPath "/" = Ok [] /\
   extractObjectName "a/b/c" = Ok ("c" : str) /\
   getObjectNameFromPath "a/b/c" = Ok ("c" : str)).
Proof.
  split; [reflexivity|]. apply (leaf_name_of_root "/"). reflexivity.
Defined.

(** ** Running programs *)

Lemma run_bind (g : gateway) (A B : Type) (p : prog A) (f : A -> prog B)
  (s : state g) :
  run g (bind p f) s =
  match run g p s with
  | (Ok a, s1, t1) =>
      let '(r, s2, t2) := run g (f a) s1 in (r, s2, t1 ++ t2)
  | (Raise e, s1, t1) => (Raise e, s1, t1)
  end.
Proof.
  revert s. induction p as [a|e|m k IH|R c k IH]; intros s; simpl.
  - destruct (run g (f a) s) as [[r s2] t2]. reflexivity.
  - reflexivity.
  - rewrite IH. destruct (run g k s) as [[[a|e] s1] t1]; [|reflexivity].
    destruct (run g (f a) s1) as [[r s2] t2]. reflexivity.
  - destruct (answer g R c s) as [x s1]. rewrite IH.
    destruct (run g (k x) s1) as [[[a|e] s2] t1]; [|reflexivity].
    destruct (run g (f a) s2) as [[r s3] t2]. reflexivity.
Qed.

Lemma calls_app (a b : list event) : calls (a ++ b) = calls a ++ calls b.
Proof. apply filter_app. Qed.

(** ** Closing invalid handles *)

(** C8: on a negative identifier [closeHDF5Object] returns 0 and
    [closeFile] returns 1 (both non-negative), the gateway is not called,
    nothing is printed, and the caller's identifier is left as it was. *)
Theorem close_negative_handle_is_noop (g : gateway) (s : state g)
  (id : hid_t) :
  id < 0 ->
  run g (closeHDF5Object id) s = (Ok 0, s, []) /\
  run g (closeFile id) s = (Ok (1, id), s, []).
Proof.
  intros H. unfold closeHDF5Object, closeFile.
  destruct (Z.ltb_spec id 0); [|lia]. split; reflexivity.
Qed.

Lemma close_negative_handle_is_noop_witness :
  run Container.h5 (closeHDF5Object (-1)) Container.empty
  = (Ok 0, Container.empty, []) /\
  run Container.h5 (closeFile (-1)) Container.empty
  = (Ok (1, -1), Container.empty, []).
Proof.
  apply (close_negative_handle_is_noop Container.h5 Container.empty (-1)).
  lia.
Defined.

(** ** Invalid parent for [createGroupsFromPath] *)

(** C10: with [parent <= 0] the function prints its complaint and returns
    -1; the trace holds no gateway call and the gateway state is
    unchanged. *)
Theorem createGroupsFromPath_bad_parent (g : gateway) (s : state g)
  (pathToCheck : str) (parent : hid_t) :
  parent <= 0 ->
  run g (createGroupsFromPath pathToCheck parent) s
  = (Ok (-1), s, [Printed BadParentId]) /\
  calls (snd (run g (createGroupsFromPath pathToCheck parent) s)) = [].
Proof.
  intros H. unfold createGroupsFromPath.
  destruct (Z.leb_spec parent 0); [|lia]. split; reflexivity.
Qed.

Lemma createGroupsFromPath_bad_parent_witness :
  run Container.h5 (createGroupsFromPath "a/b/c" 0) Container.empty
  = (Ok (-1), Container.empty, [Printed BadParentId]) /\
  calls (snd (run Container.h5 (createGroupsFromPath "a/b/c" 0)
                Container.empty)) = [].
Proof.
  apply (createGroupsFromPath_bad_parent Container.h5 Container.empty
           "a/b/c" 0).
  lia.
Defined.

(** ** The leak sweep of [closeFile] *)

Lemma fill0_length (b : Buffer.t) : length (Buffer.fill0 b) = length b.
Proof. unfold Buffer.fill0. apply repeat_length. Qed.

Lemma store_length (A : Type) (w b : list A) :
  length (Buffer.store w b) = length b.
Proof.
  unfold Buffer.store. rewrite length_app, length_firstn, length_skipn. lia.
Qed.

Lemma make_length (n : Z) : length (Buffer.make n) = Z.to_nat n.
Proof. unfold Buffer.make. apply repeat_length. Qed.

(** [closeHDF5Object] always returns; what it returns is one [herr_t]. *)
Lemma closeHDF5Object_returns (g : gateway) (s : state g) (id : hid_t) :
  exists err s' t, run g (closeHDF5Object id) s = (Ok err, s', t).
Proof.
  unfold closeHDF5Object. destruct (id <? 0); [now eexists _, _, _|].
  simpl. destruct (answer g _ (H5Iget_type id) s) as [ty s1].
  destruct (answer g _ (H5Iget_name id 1024) s1) as [[c w] s2]. simpl.
  destruct (c <? 0); [now eexists _, _, _|].
  destruct ty; simpl;
    try (now eexists _, _, _);
    match goal with
    | |- context [answer g _ ?c s2] =>
        destruct (answer g _ c s2) as [e s3]; now eexists _, _, _
    end.
Qed.

(** On the sample with three leaked handles the sweep closes all of them
    and then the file. *)
Example closeFile_leaks :
  exists t,
    run Container.h5 (closeFile 1) Samples.leaks
    = (Ok (0, -1),
       {| Container.links := Container.links Samples.leaks;
          Container.attrs := Container.attrs Samples.leaks;
          Container.handles := [];
          Container.next_id := 5 |}, t).
Proof. eexists. vm_compute. reflexivity. Qed.

(** C1 as stated fails: one leaked handle whose name the library cannot
    resolve makes [closeFile] return -1 with the file still open and the
    caller's identifier unchanged, although [H5Fclose] on the file would
    succeed in the state the sweep leaves. *)
Lemma closeFile_unnamed_leak_propagates :
  exists t,
    run Container.h5 (closeFile 1) Samples.unnamed_leak
    = (Ok (-1, 1), Samples.unnamed_leak, t) /\
    fst (Container.respond _ (H5Fclose 1) Samples.unnamed_leak) = 0 /\
    existsb (fun e => match e with
                      | Called (H5Fclose _) _ => true
                      | _ => false
                      end) t = false.
Proof. eexists. vm_compute. repeat split. Qed.

(** ** Opening a file read-write *)

(** C3, evaluated on the code: whatever the gateway, a read-write
    [openFile] creates a file access property list, sets the declared
    bounds on it, and closes it; the [H5Fopen] in between is passed
    [H5P_DEFAULT], not that list. *)
Theorem openFile_readwrite_opens_with_default_access (g : gateway)
  (s : state g) (v : H5_VERS_MINOR) (filename : str) :
  exists fapl e1 fileID e2 s',
    run g (openFile v filename false) s
    = (Ok fileID, s',
       [Called (H5Pcreate H5P_FILE_ACCESS) fapl;
        Called (H5Pset_libver_bounds fapl (HDF5_VERSION_LIB_LOWER_BOUNDS v)
                  (HDF5_VERSION_LIB_UPPER_BOUNDS v)) e1;
        Called (H5Fopen (c_str filename) H5F_ACC_RDWR H5P_DEFAULT) fileID;
        Called (H5Pclose fapl) e2]).
Proof.
  unfold openFile. cbn [call bind run].
  destruct (answer g _ (H5Pcreate H5P_FILE_ACCESS) s) as [fapl s1].
  destruct (answer g _ (H5Pset_libver_bounds fapl
                          (HDF5_VERSION_LIB_LOWER_BOUNDS v)
                          (HDF5_VERSION_LIB_UPPER_BOUNDS v)) s1) as [e1 s2].
  destruct (answer g _ (H5Fopen (c_str filename) H5F_ACC_RDWR H5P_DEFAULT)
              s2) as [fileID s3].
  destruct (answer g _ (H5Pclose fapl) s3) as [e2 s4].
  now exists fapl, e1, fileID, e2, s4.
Qed.

(** In the container the file opened read-write carries the library's
    default bounds; the file made by [createFile] carries the declared
    ones. *)
Example openFile_bounds_on_disk :
  exists s1 t1 s2 t2,
    run Container.h5 (openFile Minor10 "data.h5" false) Samples.on_disk
    = (Ok 2, s1, t1) /\
    Container.find_handle 2 (Container.handles s1)
    = Some (Container.HFile "data.h5" H5F_LIBVER_EARLIEST H5F_LIBVER_LATEST) /\
    run Container.h5 (createFile Minor10 "data.h5") Samples.on_disk
    = (Ok 2, s2, t2) /\
    Container.find_handle 2 (Container.handles s2)
    = Some (Container.HFile "data.h5" H5F_LIBVER_V18 H5F_LIBVER_V18).
Proof. eexists _, _, _, _. vm_compute. repeat split. Qed.

(** ** Facts about buffers and the container *)

Lemma c_str_terminated (n : str) (r : Buffer.t) :
  Container.no_nul n = true -> Buffer.c_str (n ++ zero :: r) = n.
Proof.
  unfold Container.no_nul.
  induction n as [|c n IH]; cbn [app Buffer.c_str existsb]; intros H.
  - now rewrite Ascii.eqb_refl.
  - apply negb_true_iff, orb_false_iff in H. destruct H as [Hc Hn].
    rewrite Ascii.eqb_sym, Hc. f_equal. apply IH.
    now rewrite Hn.
Qed.

Lemma resize_length (n : Z) (b : Buffer.t) :
  length (Buffer.resize n b) = Z.to_nat n.
Proof.
  unfold Buffer.resize. rewrite length_app, length_firstn, repeat_length. lia.
Qed.

(** Size-then-fill: a buffer resized to the queried length plus one
    receives the whole name. *)
Lemma two_phase_fetch (n : str) (buf : Buffer.t) :
  Container.no_nul n = true -> size n < npos ->
  Buffer.c_str
    (Buffer.store (Container.write_name (to_size_t (1 + size n)) n)
       (Buffer.resize (to_size_t (1 + size n)) buf)) = n.
Proof.
  intros Hn Hs. pose proof (size_nonneg n) as Hp.
  rewrite to_size_t_small by (unfold npos in Hs; lia).
  unfold Container.write_name.
  destruct (Z.leb_spec (1 + size n) 0); [lia|].
  replace (Z.to_nat (1 + size n - 1)) with (length n) by (unfold size; lia).
  rewrite firstn_all. unfold Buffer.store.
  rewrite resize_length, length_app. cbn [length].
  replace (Z.to_nat (1 + size n)) with (length n + 1)%nat
    by (unfold size; lia).
  rewrite firstn_all2 by (rewrite length_app; cbn; lia).
  rewrite skipn_all2 by (rewrite resize_length; unfold size; lia).
  rewrite app_nil_r. now apply c_str_terminated.
Qed.

(** The buffer size of the fill: the length the size query returned, plus
    one. *)
Lemma fetch_size (n : str) :
  size n < npos -> to_size_t (1 + size n) = size n + 1.
Proof.
  intros Hs. pose proof (size_nonneg n).
  rewrite to_size_t_small by (unfold npos in Hs; lia). lia.
Qed.

Lemma write_name_query (n : str) : Container.write_name 0 n = [].
Proof. reflexivity. Qed.

Lemma write_name_fill (n : str) :
  Container.write_name (size n + 1) n = n ++ [zero].
Proof.
  pose proof (size_nonneg n). unfold Container.write_name.
  destruct (Z.leb_spec (size n + 1) 0); [lia|].
  replace (Z.to_nat (size n + 1 - 1)) with (length n) by (unfold size; lia).
  now rewrite firstn_all.
Qed.

Lemma read_terminated (n : str) (r : Buffer.t) :
  Container.no_nul n = true -> Buffer.read (n ++ zero :: r) = Ok n.
Proof.
  intros Hn. unfold Buffer.read, Buffer.terminated.
  rewrite existsb_app. cbn [existsb]. rewrite Ascii.eqb_refl.
  cbn [orb]. rewrite orb_true_r. f_equal. now apply c_str_terminated.
Qed.

Lemma read_empty : Buffer.read [] = Raise undefined.
Proof. reflexivity. Qed.

(** A name fetched into a vector of its length plus one is read back
    whole. *)
Lemma read_fill (n : str) (buf : Buffer.t) :
  Container.no_nul n = true ->
  Buffer.read (Buffer.store (n ++ [zero]) (Buffer.resize (size n + 1) buf))
  = Ok n.
Proof.
  intros Hn. pose proof (size_nonneg n) as Hp.
  unfold Buffer.store.
  rewrite resize_length, length_app. cbn [length].
  replace (Z.to_nat (size n + 1)) with (length n + 1)%nat
    by (unfold size; lia).
  rewrite firstn_all2 by (rewrite length_app; cbn; lia).
  rewrite skipn_all2 by (rewrite resize_length; unfold size; lia).
  rewrite app_nil_r. now apply read_terminated.
Qed.

(** A string without terminator reaches the library whole. *)
Lemma c_str_no_nul (n : str) : Container.no_nul n = true -> c_str n = n.
Proof.
  unfold Container.no_nul. induction n as [|c n IH]; cbn [c_str existsb];
    intros H; [reflexivity|].
  rewrite negb_orb in H. apply andb_prop in H. destruct H as [Hc Hn].
  rewrite Ascii.eqb_sym in Hc. apply negb_true_iff in Hc. rewrite Hc.
  f_equal. now apply IH.
Qed.

Lemma no_nul_app (a b : str) :
  Container.no_nul (a ++ b) = Container.no_nul a && Container.no_nul b.
Proof.
  unfold Container.no_nul. rewrite existsb_app. now rewrite negb_orb.
Qed.

Lemma path_eqb_eq (p q : Container.path) :
  Container.path_eqb p q = true <-> p = q.
Proof.
  unfold Container.path_eqb.
  destruct (list_eq_dec (list_eq_dec ascii_dec) p q); split; congruence.
Qed.

Lemma loc_eqb_eq (a b : Container.loc) :
  Container.loc_eqb a b = true <-> a = b.
Proof.
  unfold Container.loc_eqb. rewrite andb_true_iff, str_eqb_eq, path_eqb_eq.
  destruct a, b; simpl. split; [intros [-> ->]; reflexivity|].
  intros H; injection H; auto.
Qed.

Lemma loc_eqb_refl (a : Container.loc) : Container.loc_eqb a a = true.
Proof. now apply loc_eqb_eq. Qed.

Lemma insert_sorted_In (x y : str) (l : list str) :
  In y (Container.insert_sorted x l) <-> y = x \/ In y l.
Proof.
  induction l as [|z r IH]; simpl.
  - intuition.
  - destruct (Container.str_leb x z); simpl; [intuition|].
    rewrite IH. intuition.
Qed.

Lemma sort_names_In (y : str) (l : list str) :
  In y (Container.sort_names l) <-> In y l.
Proof.
  induction l as [|x r IH]; simpl; [tauto|].
  rewrite insert_sorted_In, IH. intuition.
Qed.

Lemma insert_sorted_length (x : str) (l : list str) :
  length (Container.insert_sorted x l) = S (length l).
Proof.
  induction l as [|z r IH]; simpl; [reflexivity|].
  destruct (Container.str_leb x z); simpl; [reflexivity|]. now rewrite IH.
Qed.

Lemma sort_names_length (l : list str) :
  length (Container.sort_names l) = length l.
Proof.
  induction l as [|x r IH]; simpl; [reflexivity|].
  now rewrite insert_sorted_length, IH.
Qed.

Lemma child_name_Some (l k : Container.loc) (n : str) :
  Container.child_name l k = Some n -> k = (fst l, snd l ++ [n]).
Proof.
  unfold Container.child_name. destruct l as [f p], k as [f' q]. simpl.
  destruct (str_eqb f f') eqn:Ef; [|discriminate].
  apply str_eqb_eq in Ef. subst f'.
  destruct (rev q) as [|m rp] eqn:Er; [discriminate|].
  destruct (Container.path_eqb (rev rp) p) eqn:Ep; [|discriminate].
  apply path_eqb_eq in Ep. intros H. injection H as <-. subst p.
  f_equal. rewrite <- (rev_involutive q), Er. reflexivity.
Qed.

Lemma children_of_In (l : Container.loc) (ls : list (Container.loc * Container.link))
  (n : str) :
  In n (Container.children_of l ls) ->
  exists v, In ((fst l, snd l ++ [n]), v) ls.
Proof.
  induction ls as [|[k v] r IH]; simpl; [tauto|].
  destruct (Container.child_name l k) as [m|] eqn:E.
  - intros [<-|H].
    + apply child_name_Some in E. subst k. exists v. now left.
    + destruct (IH H) as [v' Hv]. exists v'. now right.
  - intros H. destruct (IH H) as [v' Hv]. exists v'. now right.
Qed.

Lemma children_link_name (s : Container.t) (l : Container.loc) (n : str) :
  Container.names_ok s = true ->
  In n (Container.children s l) -> Container.link_name n = true.
Proof.
  unfold Container.names_ok, Container.children. intros H Hin.
  apply andb_true_iff in H. destruct H as [H _].
  destruct (children_of_In _ _ _ Hin) as [v Hv].
  rewrite forallb_forall in H. specialize (H _ Hv). simpl in H.
  rewrite forallb_forall in H. apply H. apply in_or_app. right. now left.
Qed.

Lemma link_name_spec (n : str) :
  Container.link_name n = true ->
  Container.moves n = true /\ ~ In slash n /\
  Container.no_nul n = true /\ size n < npos.
Proof.
  unfold Container.link_name, Container.segment_name.
  rewrite !andb_true_iff.
  intros [[[Hm Hs] Hz] Hl]. repeat split; auto.
  - intros Hin. apply negb_true_iff in Hs.
    assert (E : existsb (Ascii.eqb slash) n = true).
    { apply existsb_exists. exists slash. split; [exact Hin|].
      apply Ascii.eqb_refl. }
    congruence.
  - now apply Z.ltb_lt.
Qed.

Lemma split_plain (n : str) : ~ In slash n -> Container.split n = [n].
Proof.
  induction n as [|c r IH]; simpl; intros H; [reflexivity|].
  destruct (Ascii.eqb_spec c slash) as [->|Hc].
  - exfalso. apply H. now left.
  - rewrite IH; [reflexivity|]. intros Hin. apply H. now right.
Qed.

Lemma resolve_link_name (base : Container.loc) (n : str) :
  Container.link_name n = true ->
  Container.resolve base n = (fst base, snd base ++ [n]).
Proof.
  intros H. apply link_name_spec in H. destruct H as (Hm & Hs & _ & _).
  unfold Container.resolve, Container.segments.
  rewrite split_plain by exact Hs. simpl. rewrite Hm.
  destruct n as [|c r]; simpl.
  - reflexivity.
  - destruct (Ascii.eqb_spec c slash) as [->|Hc]; [|reflexivity].
    exfalso. apply Hs. now left.
Qed.

Lemma target_link_name (s : Container.t) (id : hid_t) (l : Container.loc)
  (n : str) :
  Container.location s id = Some l -> Container.link_name n = true ->
  Container.target s id n = Some (fst l, snd l ++ [n]).
Proof.
  intros Hl Hn. unfold Container.target. rewrite Hl.
  rewrite resolve_link_name by exact Hn.
  apply link_name_spec in Hn. destruct Hn as (Hm & _).
  destruct n; [discriminate Hm|reflexivity].
Qed.

Lemma target_dot (s : Container.t) (id : hid_t) (l : Container.loc) :
  Container.location s id = Some l -> Container.target s id "." = Some l.
Proof.
  intros Hl. unfold Container.target. rewrite Hl. simpl.
  unfold Container.resolve. simpl. rewrite app_nil_r. now destruct l.
Qed.

(** ** Listing the children of a group *)

Lemma type_selected_kept (typeFilter : CustomHDFDataTypes.t) (ty : H5O_type_t) :
  (typeFilter =? CustomHDFDataTypes.Any) = false ->
  type_selected typeFilter ty
  = child_kept typeFilter (Some (Container.Hard ty)).
Proof.
  intros H. unfold type_selected, child_kept. rewrite H.
  destruct ty; cbn [H5O_type_eqb andb orb]; try reflexivity.
  now rewrite orb_false_r.
Qed.

Section GroupListing.

Variables (s : Container.t) (loc_id : hid_t) (l : Container.loc).
Variable typeFilter : CustomHDFDataTypes.t.

Hypothesis names_ok : Container.names_ok s = true.
Hypothesis at_l : Container.location s loc_id = Some l.
Hypothesis is_group :
  Container.lookup_link l (Container.links s)
  = Some (Container.Hard H5O_TYPE_GROUP).

Let kept (n : str) : bool :=
  child_kept typeFilter (Container.child_link s l n).

Lemma listing_link_name (n : str) :
  In n (Container.listing s l) -> Container.link_name n = true.
Proof.
  unfold Container.listing, Container.by_index. rewrite sort_names_In.
  now apply children_link_name.
Qed.

Lemma respond_name_by_idx (i : nat) (size : Z) :
  Container.respond _
    (H5Lget_name_by_idx loc_id "." H5_INDEX_NAME H5_ITER_INC (Z.of_nat i)
       size H5P_DEFAULT) s
  = (Container.name_answer size (nth_error (Container.listing s l) i), s).
Proof.
  cbn [Container.respond]. rewrite (target_dot _ _ _ at_l), is_group.
  destruct (Z.ltb_spec (Z.of_nat i) 0); [lia|].
  now rewrite Nat2Z.id.
Qed.

Lemma respond_info_by_name (n : str) :
  Container.link_name n = true ->
  Container.respond _ (H5Oget_info_by_name loc_id n H5P_DEFAULT) s
  = (Container.info_at s (fst l, snd l ++ [n]), s).
Proof.
  intros Hn. cbn [Container.respond].
  now rewrite (target_link_name _ _ _ _ at_l Hn).
Qed.

Let status (error : herr_t) (n : str) : herr_t :=
  if typeFilter =? CustomHDFDataTypes.Any then error
  else fst (Container.info_at s (fst l, snd l ++ [n])).

(** The loop from index [i] on: for each child its name is retrieved
    size-then-fill and, unless the filter is [Any], its type looked up;
    what is kept is appended; the status is that of the last lookup; the
    container is left as it was. *)
Lemma getGroupObjects_loop_trace (k : nat) :
  forall (i : nat) (name : Buffer.t) (error : herr_t) (names : list str),
    (i + k)%nat = length (Container.listing s l) ->
    run Container.h5
      (getGroupObjects_loop k loc_id typeFilter (Z.of_nat i) name error
         names) s
    = (Ok (fold_left status (skipn i (Container.listing s l)) error,
           names ++ filter kept (skipn i (Container.listing s l))),
       s,
       listing_calls s loc_id l typeFilter i
         (skipn i (Container.listing s l))).
Proof.
  induction k as [|k IH]; intros i name error names Hlen.
  - rewrite skipn_all2 by lia. cbn. now rewrite app_nil_r.
  - destruct (nth_error (Container.listing s l) i) as [n|] eqn:En.
    2:{ apply nth_error_None in En. lia. }
    assert (Hin : In n (Container.listing s l))
      by (eapply nth_error_In; eassumption).
    pose proof (listing_link_name n Hin) as Hln.
    destruct (link_name_spec n Hln) as (_ & _ & Hnul & Hsz).
    assert (Hskip : skipn i (Container.listing s l)
                    = n :: skipn (S i) (Container.listing s l)).
    { clear - En. revert i En.
      induction (Container.listing s l) as [|x r IHr]; intros [|i] E;
        try discriminate.
      - injection E as ->. reflexivity.
      - cbn in E. cbn [skipn]. rewrite (IHr i E). reflexivity. }
    rewrite Hskip.
    cbn [fold_left filter listing_calls].
    unfold child_calls, size_then_fill, status at 2.
    cbn [getGroupObjects_loop call bind run answer Container.h5].
    rewrite respond_name_by_idx, En. cbn [Container.name_answer].
    fold (size n). rewrite (fetch_size n Hsz), write_name_query.
    cbn [bind run answer Container.h5].
    rewrite respond_name_by_idx, En. cbn [Container.name_answer].
    fold (size n). rewrite write_name_fill, (read_fill n name Hnul).
    replace (Z.of_nat i + 1) with (Z.of_nat (S i)) by lia.
    destruct (Z.eqb_spec typeFilter CustomHDFDataTypes.Any) as [HA|HA].
    + assert (Hk : kept n = true)
        by (unfold kept, child_kept; rewrite HA; reflexivity).
      rewrite Hk. cbn [lift bind]. rewrite IH by lia.
      now rewrite <- app_assoc.
    + assert (HA' : (typeFilter =? CustomHDFDataTypes.Any) = false)
        by now apply Z.eqb_neq.
      cbn [lift bind run answer Container.h5].
      rewrite respond_info_by_name by assumption.
      assert (Hk : kept n
                   = match Container.lookup_link (fst l, snd l ++ [n])
                             (Container.links s) with
                     | Some (Container.Hard ty) =>
                         type_selected typeFilter ty
                     | _ => false
                     end).
      { unfold kept, Container.child_link.
        destruct (Container.lookup_link (fst l, snd l ++ [n])
                    (Container.links s)) as [[ty|]|].
        - symmetry. now apply type_selected_kept.
        - unfold child_kept. now rewrite HA'.
        - unfold child_kept. now rewrite HA'. }
      rewrite Hk. unfold Container.info_at.
      destruct (Container.lookup_link (fst l, snd l ++ [n])
                  (Container.links s)) as [[ty|]|];
        cbn [fst snd type Z.leb Z.compare];
        try (destruct (type_selected typeFilter ty));
        rewrite ?(read_fill n name Hnul); cbn [lift bind];
        rewrite IH by lia; cbn [app];
        rewrite <- ?app_assoc; reflexivity.
Qed.

Lemma listing_calls_any (i : nat) (children : list str) :
  typeFilter = CustomHDFDataTypes.Any ->
  existsb is_type_lookup (listing_calls s loc_id l typeFilter i children)
  = false.
Proof.
  intros ->. revert i.
  induction children as [|n rest IH]; intros i; [reflexivity|].
  cbn [listing_calls]. rewrite existsb_app, IH. reflexivity.
Qed.

End GroupListing.

Lemma listing_length (s : Container.t) (l : Container.loc) :
  length (Container.listing s l) = length (Container.children s l).
Proof. apply sort_names_length. Qed.

(** [getGroupObjects] on an open group, call by call: the number of links
    is asked for, then every child is gone through in index order; the
    names kept are appended to [names]; the status is 0 under [Any] and on
    an empty group, and otherwise that of the last type lookup; the
    container is left as it was. *)
Lemma getGroupObjects_trace (s : Container.t) (loc_id : hid_t)
  (l : Container.loc) (typeFilter : CustomHDFDataTypes.t) (names : list str) :
  Container.names_ok s = true ->
  Container.location s loc_id = Some l ->
  Container.lookup_link l (Container.links s)
  = Some (Container.Hard H5O_TYPE_GROUP) ->
  Z.of_nat (length (Container.children s l)) < 2 ^ 64 ->
  run Container.h5 (getGroupObjects loc_id typeFilter names) s
  = (Ok (fold_left
           (fun error n =>
              if typeFilter =? CustomHDFDataTypes.Any then error
              else fst (Container.info_at s (fst l, snd l ++ [n])))
           (Container.listing s l) 0,
         names ++ filter (fun n => child_kept typeFilter
                                     (Container.child_link s l n))
                    (Container.listing s l)),
     s,
     Called (H5Gget_info loc_id)
       (0, {| nlinks := Z.of_nat (length (Container.children s l)) |})
     :: listing_calls s loc_id l typeFilter 0 (Container.listing s l)).
Proof.
  intros Hok Hloc Hgrp Hbound. unfold getGroupObjects.
  cbn [call bind run answer Container.h5 Container.respond].
  rewrite Hloc, Hgrp. cbn [bind run nlinks Z.ltb Z.compare].
  rewrite to_size_t_small by lia.
  destruct (Z.leb_spec (Z.of_nat (length (Container.children s l))) 0)
    as [Hz|Hz].
  - assert (E : Container.listing s l = []).
    { apply length_zero_iff_nil. rewrite listing_length. lia. }
    rewrite E. cbn [filter fold_left listing_calls]. rewrite app_nil_r.
    reflexivity.
  - rewrite Nat2Z.id.
    pose proof (getGroupObjects_loop_trace s loc_id l typeFilter Hok Hloc
                  Hgrp (length (Container.children s l)) 0%nat [] 0 names)
      as Hrun.
    change (Z.of_nat 0) with 0 in Hrun. cbn [skipn] in Hrun.
    rewrite Hrun by (rewrite listing_length; reflexivity).
    reflexivity.
Qed.

(** [getGroupObjects] on an open group: the names kept, in index order,
    are appended to [names]; the container is left as it was. *)
Lemma getGroupObjects_run (s : Container.t) (loc_id : hid_t)
  (l : Container.loc) (typeFilter : CustomHDFDataTypes.t) (names : list str) :
  Container.names_ok s = true ->
  Container.location s loc_id = Some l ->
  Container.lookup_link l (Container.links s)
  = Some (Container.Hard H5O_TYPE_GROUP) ->
  Z.of_nat (length (Container.children s l)) < 2 ^ 64 ->
  exists error t,
    run Container.h5 (getGroupObjects loc_id typeFilter names) s
    = (Ok (error,
           names ++ filter (fun n => child_kept typeFilter
                                       (Container.child_link s l n))
                      (Container.listing s l)),
       s, t)
    /\ (typeFilter = CustomHDFDataTypes.Any ->
        existsb is_type_lookup t = false).
Proof.
  intros Hok Hloc Hgrp Hbound.
  eexists _, _. split.
  - now apply getGroupObjects_trace.
  - intros HA. cbn [existsb is_type_lookup orb].
    now apply listing_calls_any.
Qed.

Lemma filter_kept_any (s : Container.t) (l : Container.loc) (xs : list str) :
  filter (fun n => child_kept CustomHDFDataTypes.Any
                     (Container.child_link s l n)) xs = xs.
Proof.
  induction xs as [|x r IH]; cbn [filter]; [reflexivity|].
  unfold child_kept at 1.
  change (CustomHDFDataTypes.Any =? CustomHDFDataTypes.Any) with true.
  cbn match. now f_equal.
Qed.

(** C4, as the code has it: on an open group [getGroupObjects] appends
    child names in index order.  With the filter [Any] these are all the
    children and no child's type is looked up.  With another filter a
    child is listed exactly when it is a group and the filter has the
    [Group] bit, or it is a dataset and the filter has the [Dataset] bit:
    a named datatype or a dangling link is listed under no such filter,
    whatever the [Type] and [Link] bits. *)
Theorem getGroupObjects_filter (s : Container.t) (loc_id : hid_t)
  (l : Container.loc) (typeFilter : CustomHDFDataTypes.t) (names : list str) :
  Container.names_ok s = true ->
  Container.location s loc_id = Some l ->
  Container.lookup_link l (Container.links s)
  = Some (Container.Hard H5O_TYPE_GROUP) ->
  Z.of_nat (length (Container.children s l)) < 2 ^ 64 ->
  exists error listed t,
    run Container.h5 (getGroupObjects loc_id typeFilter names) s
    = (Ok (error, names ++ listed), s, t) /\
    (typeFilter = CustomHDFDataTypes.Any ->
     listed = Container.listing s l /\ existsb is_type_lookup t = false) /\
    (typeFilter <> CustomHDFDataTypes.Any ->
     listed
     = filter
         (fun n =>
            match Container.child_link s l n with
            | Some (Container.Hard H5O_TYPE_GROUP) =>
                negb (Z.land CustomHDFDataTypes.Group typeFilter =? 0)
            | Some (Container.Hard H5O_TYPE_DATASET) =>
                negb (Z.land CustomHDFDataTypes.Dataset typeFilter =? 0)
            | _ => false
            end) (Container.listing s l)).
Proof.
  intros Hok Hloc Hgrp Hbound.
  destruct (getGroupObjects_run s loc_id l typeFilter names Hok Hloc Hgrp
              Hbound) as (e & t & Hrun & Ht).
  eexists e, _, t. split; [exact Hrun|]. split.
  - intros HA. split; [|now apply Ht].
    rewrite HA. apply filter_kept_any.
  - intros HA. apply Z.eqb_neq in HA. unfold child_kept. now rewrite HA.
Qed.

Lemma getGroupObjects_filter_witness :
  Container.names_ok Samples.mixed = true /\
  Container.location Samples.mixed 1 = Some (Samples.at_path "data.h5" []) /\
  Container.lookup_link (Samples.at_path "data.h5" [])
    (Container.links Samples.mixed)
  = Some (Container.Hard H5O_TYPE_GROUP) /\
  Z.of_nat (length (Container.children Samples.mixed
                      (Samples.at_path "data.h5" []))) < 2 ^ 64 /\
  exists error listed t,
    run Container.h5 (getGroupObjects 1 CustomHDFDataTypes.Type_ [])
      Samples.mixed
    = (Ok (error, [] ++ listed), Samples.mixed, t) /\
    (CustomHDFDataTypes.Type_ = CustomHDFDataTypes.Any ->
     listed = Container.listing Samples.mixed (Samples.at_path "data.h5" [])
     /\ existsb is_type_lookup t = false) /\
    (CustomHDFDataTypes.Type_ <> CustomHDFDataTypes.Any ->
     listed
     = filter
         (fun n =>
            match Container.child_link Samples.mixed
                    (Samples.at_path "data.h5" []) n with
            | Some (Container.Hard H5O_TYPE_GROUP) =>
                negb (Z.land CustomHDFDataTypes.Group
                        CustomHDFDataTypes.Type_ =? 0)
            | Some (Container.Hard H5O_TYPE_DATASET) =>
                negb (Z.land CustomHDFDataTypes.Dataset
                        CustomHDFDataTypes.Type_ =? 0)
            | _ => false
            end)
         (Container.listing Samples.mixed (Samples.at_path "data.h5" []))).
Proof.
  split; [reflexivity|]. split; [reflexivity|]. split; [reflexivity|].
  split; [vm_compute; reflexivity|].
  apply (getGroupObjects_filter Samples.mixed 1
           (Samples.at_path "data.h5" []) CustomHDFDataTypes.Type_ []);
    try reflexivity.
Defined.

(** C4 as stated fails: the root group of the sample holds the named
    datatype ["t"], yet the filter [Type] lists nothing, and [Type | Group]
    lists only the group; [Any] lists all four links in name order. *)
Lemma getGroupObjects_type_bit_selects_nothing :
  exists t1 t2 t3,
    run Container.h5 (getGroupObjects 1 CustomHDFDataTypes.Type_ [])
      Samples.mixed = (Ok (0, []), Samples.mixed, t1) /\
    run Container.h5
      (getGroupObjects 1
         (CustomHDFDataTypes.bitor CustomHDFDataTypes.Type_
            CustomHDFDataTypes.Group) [])
      Samples.mixed = (Ok (0, ["g" : str]), Samples.mixed, t2) /\
    run Container.h5 (getGroupObjects 1 CustomHDFDataTypes.Any [])
      Samples.mixed
    = (Ok (0, ["d" : str; "g" : str; "l" : str; "t" : str]), Samples.mixed, t3) /\
    Container.child_link Samples.mixed (Samples.at_path "data.h5" []) "t"
    = Some (Container.Hard H5O_TYPE_NAMED_DATATYPE).
Proof. eexists _, _, _. vm_compute. repeat split. Qed.

(** C9, as the code has it: when the type lookup of one child fails under
    a filter other than [Any], that child is left out and the loop goes
    on: the names returned are what is kept of the children before it
    followed by what is kept of the children after it.  Of the later
    children, those listed are exactly the ones that pass the code's test
    [type_selected]: every later group under the [Group] bit and every
    later dataset under the [Dataset] bit; a later child of another type
    is not listed, whatever the filter's other bits. *)
Theorem getGroupObjects_skips_failed_lookup (s : Container.t)
  (loc_id : hid_t) (l : Container.loc) (typeFilter : CustomHDFDataTypes.t)
  (names pre post : list str) (bad : str) :
  Container.names_ok s = true ->
  Container.location s loc_id = Some l ->
  Container.lookup_link l (Container.links s)
  = Some (Container.Hard H5O_TYPE_GROUP) ->
  Z.of_nat (length (Container.children s l)) < 2 ^ 64 ->
  typeFilter <> CustomHDFDataTypes.Any ->
  Container.listing s l = pre ++ bad :: post ->
  fst (fst (Container.respond _
              (H5Oget_info_by_name loc_id bad H5P_DEFAULT) s)) < 0 ->
  let kept n := child_kept typeFilter (Container.child_link s l n) in
  exists error t,
    run Container.h5 (getGroupObjects loc_id typeFilter names) s
    = (Ok (error, names ++ filter kept pre ++ filter kept post), s, t) /\
    (forall n ty,
        In n post ->
        Container.child_link s l n = Some (Container.Hard ty) ->
        type_selected typeFilter ty = true ->
        In n (names ++ filter kept pre ++ filter kept post)) /\
    (forall n,
        In n (filter kept post) ->
        exists ty,
          Container.child_link s l n = Some (Container.Hard ty) /\
          (ty = H5O_TYPE_GROUP \/ ty = H5O_TYPE_DATASET) /\
          type_selected typeFilter ty = true).
Proof.
  intros Hok Hloc Hgrp Hbound HA Hlist Hbad kept.
  destruct (getGroupObjects_run s loc_id l typeFilter names Hok Hloc Hgrp
              Hbound) as (e & t & Hrun & _).
  assert (HA' : (typeFilter =? CustomHDFDataTypes.Any) = false)
    by now apply Z.eqb_neq.
  assert (Hkb : kept bad = false).
  { assert (Hln : Container.link_name bad = true).
    { apply (listing_link_name s l Hok). rewrite Hlist.
      apply in_or_app. right. now left. }
    rewrite (respond_info_by_name s loc_id l Hloc bad Hln) in Hbad.
    unfold kept, child_kept, Container.child_link. rewrite HA'.
    unfold Container.info_at in Hbad.
    destruct (Container.lookup_link (fst l, snd l ++ [bad])
                (Container.links s)) as [[ty|]|]; try reflexivity.
    cbn in Hbad. lia. }
  subst kept. cbn beta in Hkb. exists e, t. split; [|split].
  - rewrite Hrun, Hlist, filter_app. cbn [filter].
    now rewrite Hkb.
  - intros n ty Hin Hty Hsel.
    apply in_or_app. right. apply in_or_app. right.
    apply filter_In. split; [exact Hin|].
    rewrite Hty.
    now rewrite <- (type_selected_kept typeFilter ty HA').
  - intros n Hin. apply filter_In in Hin. destruct Hin as [_ Hk].
    unfold child_kept in Hk. rewrite HA' in Hk.
    destruct (Container.child_link s l n) as [[ty|]|];
      try discriminate Hk.
    exists ty. split; [reflexivity|].
    rewrite (type_selected_kept typeFilter ty HA'). unfold child_kept.
    rewrite HA'.
    destruct ty; try discriminate Hk; (split; [tauto|exact Hk]).
Qed.

Lemma getGroupObjects_skips_failed_lookup_witness :
  Container.names_ok Samples.dangling_first = true /\
  Container.location Samples.dangling_first 1
  = Some (Samples.at_path "data.h5" []) /\
  Container.lookup_link (Samples.at_path "data.h5" [])
    (Container.links Samples.dangling_first)
  = Some (Container.Hard H5O_TYPE_GROUP) /\
  Z.of_nat (length (Container.children Samples.dangling_first
                      (Samples.at_path "data.h5" []))) < 2 ^ 64 /\
  CustomHDFDataTypes.Dataset <> CustomHDFDataTypes.Any /\
  Container.listing Samples.dangling_first (Samples.at_path "data.h5" [])
  = [] ++ ("a" : str) :: ["b" : str; "c" : str] /\
  fst (fst (Container.respond _ (H5Oget_info_by_name 1 "a" H5P_DEFAULT)
              Samples.dangling_first)) < 0 /\
  let kept n :=
    child_kept CustomHDFDataTypes.Dataset
      (Container.child_link Samples.dangling_first
         (Samples.at_path "data.h5" []) n) in
  exists error t,
    run Container.h5 (getGroupObjects 1 CustomHDFDataTypes.Dataset [])
      Samples.dangling_first
    = (Ok (error,
           [] ++ filter kept [] ++ filter kept ["b" : str; "c" : str]),
       Samples.dangling_first, t) /\
    (forall n ty,
        In n ["b" : str; "c" : str] ->
        Container.child_link Samples.dangling_first
          (Samples.at_path "data.h5" []) n
        = Some (Container.Hard ty) ->
        type_selected CustomHDFDataTypes.Dataset ty = true ->
        In n ([] ++ filter kept [] ++ filter kept ["b" : str; "c" : str])) /\
    (forall n,
        In n (filter kept ["b" : str; "c" : str]) ->
        exists ty,
          Container.child_link Samples.dangling_first
            (Samples.at_path "data.h5" []) n
          = Some (Container.Hard ty) /\
          (ty = H5O_TYPE_GROUP \/ ty = H5O_TYPE_DATASET) /\
          type_selected CustomHDFDataTypes.Dataset ty = true).
Proof.
  split; [reflexivity|]. split; [reflexivity|]. split; [reflexivity|].
  split; [vm_compute; reflexivity|]. split; [discriminate|].
  split; [reflexivity|]. split; [vm_compute; reflexivity|].
  apply (getGroupObjects_skips_failed_lookup Samples.dangling_first 1
           (Samples.at_path "data.h5" []) CustomHDFDataTypes.Dataset
           [] [] ["b" : str; "c" : str] "a");
    try reflexivity; discriminate.
Defined.

(** On the sample, the dangling link listed first hides neither the group
    nor the dataset that follow it; when the dangling link is listed last,
    the names are the same and the status returned is that of the failed
    lookup. *)
Example getGroupObjects_after_dangling :
  exists t1 t2,
    run Container.h5
      (getGroupObjects 1
         (CustomHDFDataTypes.bitor CustomHDFDataTypes.Group
            CustomHDFDataTypes.Dataset) [])
      Samples.dangling_first
    = (Ok (0, ["b" : str; "c" : str]), Samples.dangling_first, t1) /\
    run Container.h5
      (getGroupObjects 1
         (CustomHDFDataTypes.bitor CustomHDFDataTypes.Group
            CustomHDFDataTypes.Dataset) [])
      (Container.with_links
         [Samples.entry "data.h5" [] (Container.Hard H5O_TYPE_GROUP);
          Samples.entry "data.h5" ["z"] Container.Dangling;
          Samples.entry "data.h5" ["c"] (Container.Hard H5O_TYPE_DATASET);
          Samples.entry "data.h5" ["b"] (Container.Hard H5O_TYPE_GROUP)]
         [] Samples.dangling_first)
    = (Ok (-1, ["b" : str; "c" : str]),
       Container.with_links
         [Samples.entry "data.h5" [] (Container.Hard H5O_TYPE_GROUP);
          Samples.entry "data.h5" ["z"] Container.Dangling;
          Samples.entry "data.h5" ["c"] (Container.Hard H5O_TYPE_DATASET);
          Samples.entry "data.h5" ["b"] (Container.Hard H5O_TYPE_GROUP)]
         [] Samples.dangling_first, t2).
Proof. eexists _, _. vm_compute. split; reflexivity. Qed.

(** C9 as stated fails on the sample under the filter [Type].  The
    children in index order are ["d"], ["g"], ["l"], ["t"]; the lookup of
    the dangling link ["l"] fails; the child ["t"] after it is a named
    datatype, the type the filter's one bit stands for; and it is not
    listed: the call returns the empty list. *)
Lemma getGroupObjects_datatype_after_failed_lookup :
  CustomHDFDataTypes.Type_ <> CustomHDFDataTypes.Any /\
  Container.listing Samples.mixed (Samples.at_path "data.h5" [])
  = ["d" : str; "g" : str] ++ ("l" : str) :: ["t" : str] /\
  fst (fst (Container.respond _ (H5Oget_info_by_name 1 "l" H5P_DEFAULT)
              Samples.mixed)) < 0 /\
  Container.child_link Samples.mixed (Samples.at_path "data.h5" []) "t"
  = Some (Container.Hard H5O_TYPE_NAMED_DATATYPE) /\
  exists t,
    run Container.h5 (getGroupObjects 1 CustomHDFDataTypes.Type_ [])
      Samples.mixed
    = (Ok (0, []), Samples.mixed, t).
Proof.
  split; [discriminate|]. split; [reflexivity|].
  split; [vm_compute; reflexivity|]. split; [reflexivity|].
  eexists. vm_compute. reflexivity.
Qed.

(** ** Identifiers of the container *)

Lemma ids_ok_spec (s : Container.t) :
  Container.ids_ok s = true <->
  0 < Container.next_id s /\
  forall e, In e (Container.handles s) -> fst e < Container.next_id s.
Proof.
  unfold Container.ids_ok. rewrite andb_true_iff, Z.ltb_lt, forallb_forall.
  split; intros [H1 H2]; (split; [exact H1|]); intros e He;
    specialize (H2 e He); now apply Z.ltb_lt.
Qed.

Lemma find_handle_fresh (hs : list (hid_t * Container.handle)) (n : hid_t)
  (h : Container.handle) :
  (forall e, In e hs -> fst e < n) ->
  Container.find_handle n (hs ++ [(n, h)]) = Some h.
Proof.
  induction hs as [|[i h'] r IH]; intros H; cbn [app Container.find_handle].
  - now rewrite Z.eqb_refl.
  - pose proof (H (i, h') (or_introl eq_refl)) as Hi. cbn in Hi.
    destruct (Z.eqb_spec i n); [lia|]. apply IH.
    intros e He. apply H. now right.
Qed.

Lemma find_handle_old (hs : list (hid_t * Container.handle)) (n id : hid_t)
  (h : Container.handle) :
  id <> n ->
  Container.find_handle id (hs ++ [(n, h)]) = Container.find_handle id hs.
Proof.
  intros Hne. induction hs as [|[i h'] r IH]; cbn [app Container.find_handle].
  - destruct (Z.eqb_spec n id); [congruence|reflexivity].
  - now rewrite IH.
Qed.

Lemma find_handle_In (hs : list (hid_t * Container.handle)) (id : hid_t)
  (h : Container.handle) :
  Container.find_handle id hs = Some h -> In (id, h) hs.
Proof.
  induction hs as [|[i h'] r IH]; cbn [Container.find_handle]; [discriminate|].
  destruct (Z.eqb_spec i id) as [->|Hne].
  - intros H. injection H as ->. now left.
  - intros H. right. now apply IH.
Qed.

Lemma remove_handle_fresh (hs : list (hid_t * Container.handle)) (n : hid_t)
  (h : Container.handle) :
  (forall e, In e hs -> fst e < n) ->
  Container.remove_handle n (hs ++ [(n, h)]) = hs.
Proof.
  intros H. unfold Container.remove_handle. rewrite filter_app.
  cbn [filter fst]. rewrite Z.eqb_refl. cbn [negb]. rewrite app_nil_r.
  induction hs as [|e r IH]; cbn [filter]; [reflexivity|].
  pose proof (H e (or_introl eq_refl)) as He. unfold hid_t in *.
  assert (E : (fst e =? n) = false) by (apply Z.eqb_neq; lia).
  rewrite E. cbn [negb]. f_equal.
  apply IH. intros e' He'. apply H. now right.
Qed.

Lemma bump_bump (j k : nat) (s : Container.t) :
  Container.bump j (Container.bump k s) = Container.bump (k + j) s.
Proof.
  unfold Container.bump. cbn. f_equal. lia.
Qed.

Lemma ids_ok_bump (k : nat) (s : Container.t) :
  Container.ids_ok s = true -> Container.ids_ok (Container.bump k s) = true.
Proof.
  rewrite !ids_ok_spec. cbn. intros [H1 H2]. split; [lia|].
  intros e He. specialize (H2 e He). lia.
Qed.

(** Handing out an identifier for [h] and closing it again leaves the
    handle table as it was. *)
Lemma alloc_release (h : Container.handle) (s : Container.t) :
  Container.ids_ok s = true ->
  Container.release (Container.next_id s) (snd (Container.alloc h s))
  = Container.bump 1 s.
Proof.
  intros H. apply ids_ok_spec in H. destruct H as [_ H].
  unfold Container.release, Container.alloc, Container.bump.
  cbn [snd Container.links Container.attrs Container.handles
       Container.next_id Z.of_nat Pos.of_succ_nat].
  now rewrite remove_handle_fresh.
Qed.

Lemma find_handle_alloc (h : Container.handle) (s : Container.t) :
  Container.ids_ok s = true ->
  Container.find_handle (Container.next_id s)
    (Container.handles (snd (Container.alloc h s))) = Some h.
Proof.
  intros H. apply ids_ok_spec in H. destruct H as [_ H].
  cbn. now apply find_handle_fresh.
Qed.

(** ** Listing attribute names *)

Lemma attrs_of_attr_name (l : Container.loc) (al : list (Container.loc * str))
  (a : str) :
  forallb (fun e => Container.attr_name (snd e)) al = true ->
  In a (Container.attrs_of l al) -> Container.attr_name a = true.
Proof.
  induction al as [|[k b] r IH]; cbn [forallb Container.attrs_of snd];
    [intros _ []|].
  intros H. apply andb_true_iff in H. destruct H as [Hb Hr].
  destruct (Container.loc_eqb k l).
  - intros [<-|Hin]; [exact Hb|now apply IH].
  - now apply IH.
Qed.

Lemma attr_listing_attr_name (s : Container.t) (l : Container.loc) (a : str) :
  Container.names_ok s = true ->
  In a (Container.attr_listing s l) -> Container.attr_name a = true.
Proof.
  unfold Container.names_ok, Container.attr_listing, Container.by_index.
  intros H. apply andb_true_iff in H. destruct H as [_ H].
  rewrite sort_names_In. now apply attrs_of_attr_name.
Qed.

Lemma attr_listing_length (s : Container.t) (l : Container.loc) :
  length (Container.attr_listing s l) = length (Container.attributes s l).
Proof. apply sort_names_length. Qed.

Lemma skipn_nth_error (A : Type) (xs : list A) (i : nat) (x : A) :
  nth_error xs i = Some x -> skipn i xs = x :: skipn (S i) xs.
Proof.
  revert i. induction xs as [|y r IH]; intros [|i] E; try discriminate.
  - injection E as ->. reflexivity.
  - cbn in E. cbn [skipn]. now rewrite (IH i E).
Qed.

Section AttributeListing.

Variables (objectID : hid_t) (l : Container.loc) (ty : H5O_type_t).

Let attr_inv := object_open objectID l ty.

Lemma attr_inv_bump (k : nat) (s : Container.t) :
  attr_inv s -> attr_inv (Container.bump k s).
Proof.
  intros (H1 & H2 & H3 & H4). repeat split; auto using ids_ok_bump.
Qed.

(** The loop from index [i] on: every remaining attribute is opened, its
    name retrieved size-then-fill and appended in full, and the
    attribute closed again. *)
Lemma getAllAttributeNames_loop_trace (k : nat) :
  forall (i : nat) (name : Buffer.t) (error : herr_t) (results : list str)
         (s : Container.t),
    attr_inv s ->
    (i + k)%nat = length (Container.attr_listing s l) ->
    run Container.h5
      (getAllAttributeNames_loop k objectID (Z.of_nat i) name error
         results) s
    = (Ok (match k with O => error | S _ => 0 end,
           results ++ skipn i (Container.attr_listing s l)),
       Container.bump k s,
       attribute_calls objectID i (Container.next_id s)
         (skipn i (Container.attr_listing s l))).
Proof.
  induction k as [|k IH]; intros i name error results s Hinv Hlen.
  - rewrite skipn_all2 by lia. rewrite app_nil_r. cbn.
    unfold Container.bump. rewrite Z.add_0_r. now destruct s.
  - destruct Hinv as (Hnames & Hids & Hloc & Hlink).
    destruct (nth_error (Container.attr_listing s l) i) as [a|] eqn:Ea.
    2:{ apply nth_error_None in Ea. lia. }
    assert (Ha : Container.attr_name a = true).
    { apply (attr_listing_attr_name s l a Hnames).
      eapply nth_error_In; eassumption. }
    unfold Container.attr_name in Ha. apply andb_true_iff in Ha.
    destruct Ha as [Hnul Hsz]. apply Z.ltb_lt in Hsz.
    rewrite (skipn_nth_error _ _ _ _ Ea).
    cbn [attribute_calls]. unfold size_then_fill.
    cbn [getAllAttributeNames_loop call bind run answer Container.h5].
    cbn [Container.respond].
    rewrite (target_dot _ _ _ Hloc), Hlink.
    destruct (Z.ltb_spec (Z.of_nat i) 0); [lia|].
    rewrite Nat2Z.id. fold (Container.attr_listing s l). rewrite Ea.
    pose proof (find_handle_alloc (Container.HAttr l a) s Hids) as Hf.
    pose proof (alloc_release (Container.HAttr l a) s Hids) as Hrel.
    set (s1 := snd (Container.alloc (Container.HAttr l a) s)) in *.
    change (Container.alloc (Container.HAttr l a) s)
      with (Container.next_id s, s1).
    cbn [bind run answer Container.h5 Container.respond]. rewrite Hf.
    cbn [Container.name_answer bind run answer Container.h5 fst snd].
    fold (size a). rewrite (fetch_size a Hsz), write_name_query.
    cbn [Container.respond]. rewrite Hf.
    cbn [Container.name_answer bind run answer Container.h5 fst snd].
    fold (size a). rewrite write_name_fill, (read_fill a name Hnul).
    cbn [lift bind run answer Container.h5].
    cbn [Container.respond]. unfold Container.close_if.
    rewrite Hf, Hrel.
    replace (Z.of_nat i + 1) with (Z.of_nat (S i)) by lia.
    rewrite IH.
    + change (Container.attr_listing (Container.bump 1 s) l)
        with (Container.attr_listing s l).
      rewrite bump_bump, <- app_assoc.
      replace (Container.next_id (Container.bump 1 s))
        with (Container.next_id s + 1)
        by (unfold Container.bump; cbn [Container.next_id]; lia).
      destruct k; reflexivity.
    + apply attr_inv_bump. repeat split; assumption.
    + change (Container.attr_listing (Container.bump 1 s) l)
        with (Container.attr_listing s l). lia.
Qed.

End AttributeListing.

(** [getAllAttributeNames] on an open object, call by call: the number of
    attributes is asked for, then every attribute is gone through in the
    order of the name index; each name is appended in full; every
    identifier opened is closed again. *)
Lemma getAllAttributeNames_trace (objectID : hid_t) (l : Container.loc)
  (ty : H5O_type_t) (s : Container.t) (results : list str) :
  0 <= objectID ->
  object_open objectID l ty s ->
  Z.of_nat (length (Container.attributes s l)) < 2 ^ 64 ->
  run Container.h5 (getAllAttributeNames objectID results) s
  = (Ok (0, results ++ Container.attr_listing s l),
     Container.bump (length (Container.attributes s l)) s,
     Called (H5Oget_info objectID)
       (0, {| type := ty;
              num_attrs := Z.of_nat (length (Container.attributes s l)) |})
     :: attribute_calls objectID 0 (Container.next_id s)
          (Container.attr_listing s l)).
Proof.
  intros Hid Hinv Hbound. unfold getAllAttributeNames.
  destruct (Z.ltb_spec objectID 0); [lia|].
  pose proof Hinv as (_ & _ & Hloc & Hlink).
  cbn [call bind run answer Container.h5 Container.respond].
  rewrite Hloc. unfold Container.info_at. rewrite Hlink.
  cbn [bind run num_attrs]. rewrite to_size_t_small by lia.
  rewrite Nat2Z.id.
  pose proof (getAllAttributeNames_loop_trace objectID l ty
                (length (Container.attributes s l)) 0%nat [] 0 results s
                Hinv) as Hrun.
  change (Z.of_nat 0) with 0 in Hrun. cbn [skipn] in Hrun.
  rewrite Hrun by (now rewrite attr_listing_length).
  now destruct (length (Container.attributes s l)).
Qed.

(** [getAllAttributeNames] on an open object appends every attribute name
    of the object, in the order of the name index, each in full. *)
Lemma getAllAttributeNames_run (objectID : hid_t) (l : Container.loc)
  (ty : H5O_type_t) (s : Container.t) (results : list str) :
  0 <= objectID ->
  object_open objectID l ty s ->
  Z.of_nat (length (Container.attributes s l)) < 2 ^ 64 ->
  exists error t,
    run Container.h5 (getAllAttributeNames objectID results) s
    = (Ok (error, results ++ Container.attr_listing s l),
       Container.bump (length (Container.attributes s l)) s, t).
Proof.
  intros Hid Hinv Hbound. eexists _, _.
  now apply (getAllAttributeNames_trace objectID l ty).
Qed.

(** ** Fetching names into a buffer *)

Lemma make_resize (n : Z) : Buffer.make n = Buffer.resize n [].
Proof.
  unfold Buffer.make, Buffer.resize. rewrite firstn_nil. cbn [length app].
  now rewrite Nat.sub_0_r.
Qed.

Lemma no_nul_firstn (k : nat) (n : str) :
  Container.no_nul n = true -> Container.no_nul (firstn k n) = true.
Proof.
  unfold Container.no_nul. revert k.
  induction n as [|c n IH]; intros [|k] H; cbn [firstn existsb] in *;
    try reflexivity.
  apply negb_true_iff, orb_false_iff in H. destruct H as [Hc Hn].
  rewrite Hc. cbn [orb]. apply IH. now rewrite Hn.
Qed.

(** A fetch into a buffer of [size] bytes leaves the first [size - 1]
    characters of the name as the buffer's C string. *)
Lemma fetch_truncates (n : str) (buf : Buffer.t) :
  Container.no_nul n = true -> (0 < length buf)%nat ->
  Buffer.read
    (Buffer.store (Container.write_name (Z.of_nat (length buf)) n) buf)
  = Ok (firstn (length buf - 1) n).
Proof.
  intros Hn Hb. unfold Container.write_name.
  destruct (Z.leb_spec (Z.of_nat (length buf)) 0); [lia|].
  replace (Z.to_nat (Z.of_nat (length buf) - 1)) with (length buf - 1)%nat
    by lia.
  unfold Buffer.store.
  rewrite firstn_all2
    by (rewrite length_app, length_firstn; cbn [length]; lia).
  rewrite <- app_assoc. cbn [app].
  apply read_terminated. now apply no_nul_firstn.
Qed.

(** Whatever the name, the container leaves a terminator in a buffer
    that has room for one. *)
Lemma read_fetched (n : str) (buf : Buffer.t) :
  (0 < length buf)%nat ->
  exists leaked,
    Buffer.read
      (Buffer.store (Container.write_name (Z.of_nat (length buf)) n) buf)
    = Ok leaked.
Proof.
  intros Hb. unfold Buffer.read.
  assert (E : Buffer.terminated
                (Buffer.store
                   (Container.write_name (Z.of_nat (length buf)) n) buf)
              = true).
  { unfold Container.write_name.
    destruct (Z.leb_spec (Z.of_nat (length buf)) 0); [lia|].
    unfold Buffer.store, Buffer.terminated.
    rewrite firstn_all2
      by (rewrite length_app, length_firstn; cbn [length]; lia).
    rewrite !existsb_app. cbn [existsb]. rewrite Ascii.eqb_refl.
    cbn [orb]. now rewrite orb_true_r. }
  rewrite E. now eexists.
Qed.

Lemma respond_get_name (s : Container.t) (id : hid_t) (h : Container.handle)
  (nm : str) (size : Z) :
  Container.find_handle id (Container.handles s) = Some h ->
  Container.handle_name h = Some nm ->
  Container.respond _ (H5Iget_name id size) s
  = ((StdString.size nm, Container.write_name size nm), s).
Proof.
  intros Hf Hn. cbn [Container.respond]. now rewrite Hf, Hn.
Qed.

(** [getObjectPath] queries the length and then fetches the whole name;
    the leading separator is dropped unless the object is the root. *)
Lemma getObjectPath_run (s : Container.t) (id : hid_t) (h : Container.handle)
  (rest : str) (trim : bool) :
  Container.find_handle id (Container.handles s) = Some h ->
  Container.handle_name h = Some (slash :: rest) ->
  Container.no_nul rest = true ->
  size rest + 1 < npos ->
  run Container.h5 (getObjectPath id trim) s
  = (Ok (match rest with [] => [slash] | _ => rest end), s,
     [Called (H5Iget_name id 0) (size rest + 1, []);
      Called (H5Iget_name id (size rest + 2))
        (size rest + 1, slash :: rest ++ [zero])]).
Proof.
  intros Hf Hn Hnul Hsz. pose proof (size_nonneg rest) as Hp.
  assert (Hs : size (slash :: rest) = size rest + 1)
    by (unfold size; cbn [length]; lia).
  assert (Hnul' : Container.no_nul (slash :: rest) = true).
  { unfold Container.no_nul in *. cbn [existsb].
    change (Ascii.eqb zero slash) with false. exact Hnul. }
  unfold getObjectPath.
  cbn [call bind run answer Container.h5].
  rewrite (respond_get_name s id h _ 0 Hf Hn).
  cbn [bind run answer Container.h5 fst].
  rewrite (fetch_size (slash :: rest)) by (rewrite Hs; lia).
  rewrite (respond_get_name s id h _ _ Hf Hn).
  rewrite make_resize, write_name_fill, write_name_query.
  rewrite (read_fill (slash :: rest) [] Hnul').
  rewrite Hs. replace (size rest + 1 + 1) with (size rest + 2) by lia.
  cbn [lift bind app].
  destruct rest as [|c r].
  - reflexivity.
  - assert (E : str_eqb (slash :: c :: r) "/" = false).
    { destruct (str_eqb (slash :: c :: r) "/") eqn:E; [|reflexivity].
      apply str_eqb_eq in E. discriminate E. }
    rewrite E. cbn [negb]. unfold at_. rewrite Hs.
    destruct (Z.leb_spec (size (c :: r) + 1) 0); [lia|].
    cbn [Z.to_nat nth lift bind]. change (Ascii.eqb slash slash) with true.
    cbn match. unfold erase. rewrite Hs.
    destruct (Z.ltb_spec (size (c :: r) + 1) 0); [lia|].
    rewrite Z.min_l by lia. reflexivity.
Qed.

(** [objectNameAtIndex] queries the length and then fetches the whole
    name, which it appends to [name]. *)
Lemma objectNameAtIndex_run (s : Container.t) (loc_id : hid_t)
  (l : Container.loc) (i : nat) (name n : str) :
  Container.names_ok s = true ->
  Container.location s loc_id = Some l ->
  Container.lookup_link l (Container.links s)
  = Some (Container.Hard H5O_TYPE_GROUP) ->
  Z.of_nat i < 2 ^ 31 ->
  nth_error (Container.listing s l) i = Some n ->
  run Container.h5 (objectNameAtIndex loc_id (Z.of_nat i) name) s
  = (Ok (to_herr_t (size n), name ++ n), s,
     size_then_fill
       (fun size => H5Lget_name_by_idx loc_id "." H5_INDEX_NAME
                      H5_ITER_NATIVE (Z.of_nat i) size H5P_DEFAULT) n).
Proof.
  intros Hok Hloc Hgrp Hi En.
  assert (Hln : Container.link_name n = true).
  { apply (listing_link_name s l Hok). eapply nth_error_In; eassumption. }
  destruct (link_name_spec n Hln) as (_ & _ & Hnul & Hsz).
  pose proof (size_nonneg n) as Hp.
  assert (Hresp : forall sz,
    Container.respond _
      (H5Lget_name_by_idx loc_id "." H5_INDEX_NAME H5_ITER_NATIVE
         (Z.of_nat i) sz H5P_DEFAULT) s
    = ((size n, Container.write_name sz n), s)).
  { intros sz. cbn [Container.respond].
    rewrite (target_dot _ _ _ Hloc), Hgrp.
    destruct (Z.ltb_spec (Z.of_nat i) 0); [lia|].
    rewrite Nat2Z.id.
    change (Container.by_index H5_INDEX_NAME H5_ITER_NATIVE
              (Container.children s l)) with (Container.listing s l).
    now rewrite En. }
  unfold objectNameAtIndex, size_then_fill.
  rewrite to_size_t_small by lia.
  cbn [call bind run answer Container.h5]. rewrite Hresp.
  destruct (Z.ltb_spec (size n) 0); [lia|].
  cbn [bind run answer Container.h5].
  rewrite make_length, Z2Nat.id by lia. rewrite Hresp.
  destruct (Z.ltb_spec (size n) 0); [lia|].
  rewrite make_resize, write_name_fill, write_name_query.
  rewrite (read_fill n [] Hnul). reflexivity.
Qed.

(** The sweep of [closeFile] fetches a leaked identifier's name once, into
    its 1024-byte buffer, and reports the first 1023 characters. *)
Lemma closeFile_sweep_reports_prefix (s : Container.t) (id : hid_t)
  (h : Container.handle) (nm : str) (rest : list hid_t) (name : Buffer.t) :
  length name = 1024%nat ->
  Container.find_handle id (Container.handles s) = Some h ->
  Container.handle_name h = Some nm ->
  Container.no_nul nm = true ->
  exists r s' t,
    run Container.h5 (closeFile_sweep (id :: rest) name) s
    = (r, s',
       Called (H5Iget_name id 1024) (size nm, Container.write_name 1024 nm)
       :: Printed (ObjectLeftOpen id (firstn 1023 nm)) :: t).
Proof.
  intros Hlen Hf Hn Hnul. pose proof (size_nonneg nm) as Hp.
  cbn [closeFile_sweep]. rewrite run_bind.
  cbn [call run answer Container.h5].
  rewrite fill0_length, Hlen. change (Z.of_nat 1024) with 1024.
  rewrite (respond_get_name s id h nm 1024 Hf Hn).
  destruct (Z.ltb_spec (size nm) 0); [lia|].
  assert (E : Buffer.read
                (Buffer.store (Container.write_name 1024 nm)
                   (Buffer.fill0 name)) = Ok (firstn 1023 nm)).
  { pose proof (fetch_truncates nm (Buffer.fill0 name) Hnul) as F.
    rewrite fill0_length, Hlen in F. apply F. lia. }
  rewrite E. cbn [lift cout bind run app].
  destruct (run Container.h5 _ s) as [[r s'] t].
  exists r, s', t. reflexivity.
Qed.

(** C5, as the code has it.  In the container, call by call:
    - [getObjectPath], [objectNameAtIndex], [getGroupObjects] and
      [getAllAttributeNames] retrieve a name with two calls: a size query
      that passes no buffer, and a fetch into a buffer of the length
      returned plus one ([size_then_fill]); so each name arrives in full,
      whatever its length;
    - [getGroupObjects] does so for every child, in the order of the name
      index, and [getAllAttributeNames] for every attribute, in the order
      of the name index, between opening and closing it;
    - the sweep of [closeFile] fetches a name with one call into a buffer
      of 1024 bytes and reports its first 1023 characters. *)
Theorem names_fetched_size_then_fill :
  (forall s id h rest trim,
      Container.find_handle id (Container.handles s) = Some h ->
      Container.handle_name h = Some (slash :: rest) ->
      Container.no_nul rest = true ->
      size rest + 1 < npos ->
      run Container.h5 (getObjectPath id trim) s
      = (Ok (match rest with [] => [slash] | _ => rest end), s,
         [Called (H5Iget_name id 0) (size rest + 1, []);
          Called (H5Iget_name id (size rest + 2))
            (size rest + 1, slash :: rest ++ [zero])])) /\
  (forall s loc_id l i name n,
      Container.names_ok s = true ->
      Container.location s loc_id = Some l ->
      Container.lookup_link l (Container.links s)
      = Some (Container.Hard H5O_TYPE_GROUP) ->
      Z.of_nat i < 2 ^ 31 ->
      nth_error (Container.listing s l) i = Some n ->
      run Container.h5 (objectNameAtIndex loc_id (Z.of_nat i) name) s
      = (Ok (to_herr_t (size n), name ++ n), s,
         size_then_fill
           (fun size => H5Lget_name_by_idx loc_id "." H5_INDEX_NAME
                          H5_ITER_NATIVE (Z.of_nat i) size H5P_DEFAULT) n)) /\
  (forall s loc_id l typeFilter names,
      Container.names_ok s = true ->
      Container.location s loc_id = Some l ->
      Container.lookup_link l (Container.links s)
      = Some (Container.Hard H5O_TYPE_GROUP) ->
      Z.of_nat (length (Container.children s l)) < 2 ^ 64 ->
      exists error listed,
        run Container.h5 (getGroupObjects loc_id typeFilter names) s
        = (Ok (error, names ++ listed), s,
           Called (H5Gget_info loc_id)
             (0, {| nlinks := Z.of_nat (length (Container.children s l)) |})
           :: listing_calls s loc_id l typeFilter 0 (Container.listing s l))
        /\ (typeFilter = CustomHDFDataTypes.Any ->
            listed = Container.listing s l)) /\
  (forall objectID l ty s results,
      0 <= objectID ->
      object_open objectID l ty s ->
      Z.of_nat (length (Container.attributes s l)) < 2 ^ 64 ->
      run Container.h5 (getAllAttributeNames objectID results) s
      = (Ok (0,
             results
             ++ Container.by_index H5_INDEX_NAME H5_ITER_INC
                  (Container.attributes s l)),
         Container.bump (length (Container.attributes s l)) s,
         Called (H5Oget_info objectID)
           (0, {| type := ty;
                  num_attrs :=
                    Z.of_nat (length (Container.attributes s l)) |})
         :: attribute_calls objectID 0 (Container.next_id s)
              (Container.by_index H5_INDEX_NAME H5_ITER_INC
                 (Container.attributes s l)))) /\
  (forall s id h nm rest name,
      length name = 1024%nat ->
      Container.find_handle id (Container.handles s) = Some h ->
      Container.handle_name h = Some nm ->
      Container.no_nul nm = true ->
      exists r s' t,
        run Container.h5 (closeFile_sweep (id :: rest) name) s
        = (r, s',
           Called (H5Iget_name id 1024)
             (size nm, Container.write_name 1024 nm)
           :: Printed (ObjectLeftOpen id (firstn 1023 nm)) :: t)).
Proof.
  split; [exact getObjectPath_run|].
  split; [exact objectNameAtIndex_run|].
  split.
  { intros s loc_id l typeFilter names Hok Hloc Hgrp Hb.
    eexists _, _. split.
    - now apply getGroupObjects_trace.
    - intros ->. apply filter_kept_any. }
  split; [exact getAllAttributeNames_trace|].
  exact closeFile_sweep_reports_prefix.
Qed.

Lemma names_fetched_size_then_fill_witness :
  0 <= 1 /\
  object_open 1 (Samples.at_path "data.h5" []) H5O_TYPE_GROUP
    Samples.long_names /\
  Z.of_nat (length (Container.attributes Samples.long_names
                      (Samples.at_path "data.h5" []))) < 2 ^ 64 /\
  run Container.h5 (getAllAttributeNames 1 []) Samples.long_names
  = (Ok (0,
         [] ++ Container.by_index H5_INDEX_NAME H5_ITER_INC
                 (Container.attributes Samples.long_names
                    (Samples.at_path "data.h5" []))),
     Container.bump
       (length (Container.attributes Samples.long_names
                  (Samples.at_path "data.h5" [])))
       Samples.long_names,
     Called (H5Oget_info 1)
       (0, {| type := H5O_TYPE_GROUP;
              num_attrs :=
                Z.of_nat (length (Container.attributes Samples.long_names
                                    (Samples.at_path "data.h5" []))) |})
     :: attribute_calls 1 0 (Container.next_id Samples.long_names)
          (Container.by_index H5_INDEX_NAME H5_ITER_INC
             (Container.attributes Samples.long_names
                (Samples.at_path "data.h5" [])))).
Proof.
  assert (H : object_open 1 (Samples.at_path "data.h5" []) H5O_TYPE_GROUP
                Samples.long_names)
    by (repeat split; vm_compute; reflexivity).
  split; [lia|]. split; [exact H|]. split; [vm_compute; reflexivity|].
  apply (proj1 (proj2 (proj2 (proj2 names_fetched_size_then_fill)))
           1 (Samples.at_path "data.h5" []) H5O_TYPE_GROUP
           Samples.long_names []).
  - lia.
  - exact H.
  - vm_compute. reflexivity.
Defined.

(** On the sample, the three attribute names come back in name order, the
    1100-character one in full. *)
Example getAllAttributeNames_long_names :
  exists s' t,
    run Container.h5 (getAllAttributeNames 1 []) Samples.long_names
    = (Ok (0, ["a" : str; "b" : str; Samples.long_name]), s', t).
Proof. eexists _, _. vm_compute. reflexivity. Qed.

(** C5 as stated fails twice on the sample.  [closeFile] asks for the
    leaked group's name in one call with its 1024-byte buffer, no size
    query before it, and reports 1023 of the 1101 characters.  And
    [getAllAttributeNames] lists the attributes created as ["b"],
    [long_name], ["a"] in the order ["a"], ["b"], [long_name]. *)
Lemma names_not_always_size_then_fill :
  (exists s',
      run Container.h5 (closeFile 1) Samples.long_names
      = (Ok (0, -1), s',
         [Called (H5Fget_obj_count 1 (Z.lor closeFile_types H5F_OBJ_LOCAL)) 1;
          Printed WarnIdsNotClosed;
          Called (H5Fget_obj_ids 1 closeFile_types 1) (1, [2]);
          Called (H5Iget_name 2 1024)
            (1101, slash :: repeat "x"%char 1022 ++ [zero]);
          Printed (ObjectLeftOpen 2 (slash :: repeat "x"%char 1022));
          Called (H5Iget_type 2) H5I_GROUP;
          Called (H5Iget_name 2 1024)
            (1101, slash :: repeat "x"%char 1022 ++ [zero]);
          Called (H5Gclose 2) 0;
          Called (H5Fclose 1) 0])) /\
  Container.handle_name
    (Container.HObject H5I_GROUP "data.h5" (Some [Samples.long_name]))
  = Some (slash :: repeat "x"%char 1100) /\
  (exists s' t,
      run Container.h5 (getAllAttributeNames 1 []) Samples.long_names
      = (Ok (0, ["a" : str; "b" : str; Samples.long_name]), s', t)) /\
  Container.by_index H5_INDEX_CRT_ORDER H5_ITER_INC
    (Container.attributes Samples.long_names (Samples.at_path "data.h5" []))
  = ["b" : str; Samples.long_name; "a" : str].
Proof.
  split; [eexists; vm_compute; reflexivity|].
  split; [vm_compute; reflexivity|].
  split; [eexists _, _; vm_compute; reflexivity|].
  vm_compute. reflexivity.
Qed.

(** ** Searching and cutting joined paths *)

Lemma index_absent (c : ascii) (x : str) : ~ In c x -> index c x = None.
Proof.
  induction x as [|y r IH]; cbn [index]; intros H; [reflexivity|].
  destruct (Ascii.eqb_spec y c) as [->|Hne].
  - exfalso. apply H. now left.
  - rewrite IH; [reflexivity|]. intros Hin. apply H. now right.
Qed.

Lemma index_first (c : ascii) (x r : str) :
  ~ In c x -> index c (x ++ c :: r) = Some (length x).
Proof.
  induction x as [|y t IH]; cbn [index app length]; intros H.
  - now rewrite Ascii.eqb_refl.
  - destruct (Ascii.eqb_spec y c) as [->|Hne].
    + exfalso. apply H. now left.
    + rewrite IH; [reflexivity|]. intros Hin. apply H. now right.
Qed.

Lemma skipn_size_app (pre r : str) : skipn (Z.to_nat (size pre)) (pre ++ r) = r.
Proof.
  unfold size. rewrite Nat2Z.id, skipn_app, Nat.sub_diag, skipn_all.
  reflexivity.
Qed.

Lemma find_first_of_next (pre x r : str) :
  ~ In slash x ->
  find_first_of (pre ++ x ++ slash :: r) slash (size pre)
  = size pre + size x.
Proof.
  intros Hx. unfold find_first_of.
  rewrite !size_app. pose proof (size_nonneg x).
  assert (size (slash :: r) = 1 + size r) by (unfold size; cbn [length]; lia).
  pose proof (size_nonneg r).
  destruct (Z.leb_spec (size pre + (size x + size (slash :: r))) (size pre));
    [lia|].
  rewrite skipn_size_app, index_first by exact Hx. reflexivity.
Qed.

Lemma find_first_of_none (pre x : str) :
  ~ In slash x -> find_first_of (pre ++ x) slash (size pre) = npos.
Proof.
  intros Hx. unfold find_first_of.
  destruct (size (pre ++ x) <=? size pre); [reflexivity|].
  now rewrite skipn_size_app, index_absent.
Qed.

Lemma substr_prefix (pre r : str) : substr (pre ++ r) 0 (size pre) = Ok pre.
Proof.
  unfold substr. rewrite size_app.
  pose proof (size_nonneg pre). pose proof (size_nonneg r).
  destruct (Z.ltb_spec (size pre + size r) 0); [lia|].
  rewrite Z.min_l by lia. cbn [Z.to_nat skipn]. unfold size.
  rewrite Nat2Z.id, firstn_app, Nat.sub_diag, firstn_all. cbn [firstn].
  now rewrite app_nil_r.
Qed.

Lemma substr_suffix (pre r : str) (len : Z) :
  size r <= len -> substr (pre ++ r) (size pre) len = Ok r.
Proof.
  intros Hlen. unfold substr. rewrite size_app.
  pose proof (size_nonneg pre). pose proof (size_nonneg r).
  destruct (Z.ltb_spec (size pre + size r) (size pre)); [lia|].
  rewrite Z.min_r by lia. rewrite skipn_size_app.
  replace (Z.to_nat (size pre + size r - size pre)) with (length r)
    by (unfold size; lia).
  now rewrite firstn_all.
Qed.

Lemma rindex_app_plain (c : ascii) (a y : str) :
  ~ In c y -> rindex c (a ++ y) = rindex c a.
Proof.
  intros Hy. induction a as [|x t IH]; cbn [app rindex].
  - now apply rindex_None.
  - now rewrite IH.
Qed.

Lemma rindex_bound (c : ascii) (a : str) (i : nat) :
  rindex c a = Some i -> (i < length a)%nat.
Proof.
  revert i. induction a as [|x t IH]; cbn [rindex length]; intros i H.
  - discriminate.
  - destruct (rindex c t) as [j|].
    + injection H as <-. specialize (IH j eq_refl). lia.
    + destruct (Ascii.eqb x c); [|discriminate]. injection H as <-. lia.
Qed.

(** *** Joined segments *)

Lemma segment_name_spec (x : str) :
  Container.segment_name x = true ->
  Container.moves x = true /\ ~ In slash x.
Proof.
  unfold Container.segment_name. rewrite andb_true_iff. intros [Hm Hs].
  split; [exact Hm|]. intros Hin. apply negb_true_iff in Hs.
  assert (E : existsb (Ascii.eqb slash) x = true).
  { apply existsb_exists. exists slash. split; [exact Hin|].
    apply Ascii.eqb_refl. }
  congruence.
Qed.

Lemma segment_name_plain (x : str) :
  Container.segment_name x = true -> plain_seg x.
Proof.
  intros H. destruct (segment_name_spec x H) as (Hm & Hs).
  split; [|exact Hs]. intros ->. discriminate Hm.
Qed.

Lemma join_cons (x : str) (todo : list str) :
  todo <> [] -> Container.join (x :: todo) = x ++ slash :: Container.join todo.
Proof. destruct todo; [congruence|reflexivity]. Qed.

Lemma join_snoc (done : list str) (x : str) :
  done <> [] ->
  Container.join (done ++ [x]) = Container.join done ++ slash :: x.
Proof.
  induction done as [|d r IH]; [congruence|]. intros _.
  destruct r as [|d' r'].
  - reflexivity.
  - change ((d :: d' :: r') ++ [x]) with (d :: (d' :: r') ++ [x]).
    rewrite join_cons by (destruct r'; discriminate).
    rewrite IH by discriminate.
    rewrite (join_cons d (d' :: r')) by discriminate.
    now rewrite <- app_assoc.
Qed.

Lemma join_app (done todo : list str) :
  done <> [] -> todo <> [] ->
  Container.join (done ++ todo)
  = Container.join done ++ slash :: Container.join todo.
Proof.
  intros Hd Ht. revert done Hd.
  induction todo as [|x r IH]; [congruence|]. intros done Hd.
  destruct r as [|y r'].
  - now apply join_snoc.
  - change (done ++ x :: y :: r') with (done ++ [x] ++ y :: r').
    rewrite app_assoc, IH by (try discriminate; now destruct done).
    rewrite join_snoc by exact Hd.
    rewrite (join_cons x (y :: r')) by discriminate.
    now rewrite <- app_assoc.
Qed.

Lemma join_nonempty (segs : list str) :
  segs <> [] -> Forall plain_seg segs -> Container.join segs <> [].
Proof.
  destruct segs as [|x r]; [congruence|]. intros _ H.
  apply Forall_inv in H. destruct H as [Hx _].
  destruct r; cbn [Container.join]; [exact Hx|].
  destruct x; [congruence|discriminate].
Qed.

Lemma split_join (segs : list str) :
  segs <> [] -> Forall plain_seg segs ->
  Container.split (Container.join segs) = segs.
Proof.
  induction segs as [|x r IH]; [congruence|]. intros _ H.
  pose proof (Forall_inv H) as [_ Hx]. apply Forall_inv_tail in H.
  destruct r as [|y r'].
  - cbn [Container.join]. now apply split_plain.
  - rewrite join_cons by discriminate.
    specialize (IH ltac:(discriminate) H).
    clear H. revert IH. generalize (Container.join (y :: r')) as rest.
    generalize (y :: r') as tl. intros tl rest IH.
    induction x as [|c x' IHx]; cbn [app Container.split].
    + rewrite Ascii.eqb_refl. now rewrite IH.
    + destruct (Ascii.eqb_spec c slash) as [->|Hc].
      * exfalso. apply Hx. now left.
      * rewrite IHx by (intros Hin; apply Hx; now right). reflexivity.
Qed.

(** ** Ensuring one group in the container *)

Lemma Forall_segment_plain (segs : list str) :
  Forall (fun x => Container.segment_name x = true) segs ->
  Forall plain_seg segs.
Proof.
  intros H. eapply Forall_impl; [|exact H]. intros x. apply segment_name_plain.
Qed.

Lemma filter_moves_id (segs : list str) :
  Forall (fun x => Container.segment_name x = true) segs ->
  filter Container.moves segs = segs.
Proof.
  induction 1 as [|x r Hx _ IH]; cbn [filter]; [reflexivity|].
  destruct (segment_name_spec x Hx) as (Hm & _). now rewrite Hm, IH.
Qed.

Lemma target_join (s : Container.t) (parent : hid_t) (base : Container.loc)
  (segs : list str) :
  Container.location s parent = Some base ->
  segs <> [] ->
  Forall (fun x => Container.segment_name x = true) segs ->
  Container.target s parent (Container.join segs)
  = Some (fst base, snd base ++ segs).
Proof.
  intros Hloc Hne Hall.
  pose proof (Forall_segment_plain segs Hall) as Hplain.
  pose proof (join_nonempty segs Hne Hplain) as Hj.
  unfold Container.target. rewrite Hloc.
  destruct (Container.join segs) as [|c r] eqn:E; [congruence|].
  rewrite <- E. unfold Container.resolve, Container.segments.
  rewrite split_join, filter_moves_id by assumption.
  assert (Hc : Container.is_absolute (Container.join segs) = false).
  { rewrite E. cbn [Container.is_absolute].
    destruct segs as [|x tl]; [congruence|].
    pose proof (Forall_inv Hplain) as [Hx Hs].
    destruct (Ascii.eqb_spec c slash) as [->|]; [|reflexivity].
    exfalso. apply Hs.
    destruct x as [|c' x']; [congruence|].
    destruct tl; cbn [Container.join app] in E; injection E as -> _;
      now left. }
  now rewrite Hc.
Qed.

Lemma ids_ok_relinked (ls : list (Container.loc * Container.link)) (k : nat)
  (s : Container.t) :
  Container.ids_ok s = true -> Container.ids_ok (relinked ls k s) = true.
Proof. intros H. unfold relinked. now apply ids_ok_bump. Qed.

Lemma relinked_relinked (ls ls' : list (Container.loc * Container.link))
  (j k : nat) (s : Container.t) :
  relinked ls' j (relinked ls k s) = relinked ls' (k + j) s.
Proof.
  unfold relinked, Container.bump, Container.with_links. cbn. f_equal. lia.
Qed.

Lemma relinked_self (s : Container.t) :
  relinked (Container.links s) 0 s = s.
Proof.
  unfold relinked, Container.bump, Container.with_links. cbn.
  rewrite Z.add_0_r. now destruct s.
Qed.

(** [createGroup] followed by [H5Gclose] on a name that resolves to [key],
    below an existing group: the group is opened if it is there and
    created if it is not; either way the call succeeds, the identifier is
    positive, and closing it succeeds. *)
Lemma ensure_group_run (s : Container.t) (parent : hid_t) (nm : str)
  (key : Container.loc) :
  Container.ids_ok s = true ->
  Container.no_nul nm = true ->
  Container.target s parent nm = Some key ->
  snd key <> [] ->
  Container.lookup_link (fst key, removelast (snd key)) (Container.links s)
  = Some (Container.Hard H5O_TYPE_GROUP) ->
  Container.lookup_link key (Container.links s) = None \/
  Container.lookup_link key (Container.links s)
  = Some (Container.Hard H5O_TYPE_GROUP) ->
  exists s1 t1,
    run Container.h5 (createGroup parent nm) s
    = (Ok (Container.next_id s), s1, t1) /\
    0 < Container.next_id s /\
    Container.links s1 = add_group key (Container.links s) /\
    Container.respond _ (H5Gclose (Container.next_id s)) s1
    = (0, relinked (add_group key (Container.links s)) 1 s) /\
    (Container.lookup_link key (Container.links s)
     = Some (Container.Hard H5O_TYPE_GROUP) ->
     existsb is_create t1 = false).
Proof.
  intros Hids Hnul Htgt Hne Hpar Hkey.
  assert (Hpos : 0 < Container.next_id s)
    by (apply ids_ok_spec in Hids; tauto).
  unfold createGroup. rewrite (c_str_no_nul nm Hnul).
  cbn [call bind run answer Container.h5 Container.respond].
  rewrite Htgt. unfold Container.info_at.
  destruct Hkey as [Hkey|Hkey]; rewrite Hkey.
  - (* absent: create *)
    cbn [call bind run answer Container.h5 Container.respond Z.eqb].
    unfold Container.create_group. rewrite Htgt, Hkey, Hpar.
    destruct (snd key) as [|x r] eqn:Ek; [congruence|].
    set (h := Container.HObject H5I_GROUP (fst key) (Some (x :: r))).
    set (s' := Container.with_links
                 (Container.links s ++ [(key, Container.Hard H5O_TYPE_GROUP)])
                 (Container.attrs s) s).
    assert (Hids' : Container.ids_ok s' = true) by exact Hids.
    pose proof (find_handle_alloc h s' Hids') as Hf.
    pose proof (alloc_release h s' Hids') as Hrel.
    change (Container.next_id s') with (Container.next_id s) in Hf, Hrel.
    set (s1 := snd (Container.alloc h s')) in *.
    change (Container.alloc h s') with (Container.next_id s, s1).
    cbn [run]. eexists s1, _. split; [reflexivity|]. split; [exact Hpos|].
    split; [unfold add_group; now rewrite Hkey|].
    split; [|intros; discriminate].
    unfold Container.close_if. rewrite Hf. cbn [Container.is_object h].
    rewrite Hrel. unfold add_group. rewrite Hkey. reflexivity.
  - (* present: open *)
    cbn [call bind run answer Container.h5 Container.respond Z.eqb].
    unfold Container.open_object. rewrite Htgt, Hkey.
    cbn [H5O_type_eqb].
    set (h := Container.HObject H5I_GROUP (fst key) (Some (snd key))).
    pose proof (find_handle_alloc h s Hids) as Hf.
    pose proof (alloc_release h s Hids) as Hrel.
    set (s1 := snd (Container.alloc h s)) in *.
    change (Container.alloc h s) with (Container.next_id s, s1).
    cbn [run]. eexists s1, _. split; [reflexivity|]. split; [exact Hpos|].
    split; [unfold add_group; now rewrite Hkey|].
    split; [|intros; reflexivity].
    unfold Container.close_if.
    rewrite Hf. cbn [Container.is_object h]. rewrite Hrel.
    unfold add_group. rewrite Hkey. unfold relinked, Container.with_links.
    now destruct s.
Qed.

(** The same, inside the code that surrounds each [createGroup] call:
    whatever is printed on failure and whatever follows the close, the run
    goes on after the close with status 0. *)
Lemma ensure_fragment (s : Container.t) (parent : hid_t) (nm : str)
  (key : Container.loc) :
  Container.ids_ok s = true ->
  Container.no_nul nm = true ->
  Container.target s parent nm = Some key ->
  snd key <> [] ->
  Container.lookup_link (fst key, removelast (snd key)) (Container.links s)
  = Some (Container.Hard H5O_TYPE_GROUP) ->
  Container.lookup_link key (Container.links s) = None \/
  Container.lookup_link key (Container.links s)
  = Some (Container.Hard H5O_TYPE_GROUP) ->
  exists t1,
    (Container.lookup_link key (Container.links s)
     = Some (Container.Hard H5O_TYPE_GROUP) ->
     existsb is_create t1 = false) /\
    forall (msg : hid_t -> message) (K : herr_t -> prog hid_t),
      run Container.h5
        (groupID <- createGroup parent nm ;;
         if groupID <? 0 then cout (msg groupID) ;; Ret groupID
         else error <- call (H5Gclose groupID) ;; K error) s
      = (let '(r, s', t) :=
           run Container.h5 (K 0)
             (relinked (add_group key (Container.links s)) 1 s) in
         (r, s', t1 ++ t)).
Proof.
  intros Hids Hnul Htgt Hne Hpar Hkey.
  destruct (ensure_group_run s parent nm key Hids Hnul Htgt Hne Hpar Hkey)
    as (s1 & t1 & Hrun & Hpos & _ & Hclose & Hcreate).
  exists (t1 ++ [Called (H5Gclose (Container.next_id s)) 0]).
  split.
  - intros H. rewrite existsb_app, (Hcreate H). reflexivity.
  - intros msg K. rewrite run_bind, Hrun.
    destruct (Z.ltb_spec (Container.next_id s) 0); [lia|].
    cbn [call bind run answer Container.h5]. rewrite Hclose.
    destruct (run Container.h5 (K 0)
                (relinked (add_group key (Container.links s)) 1 s))
      as [[r s'] t].
    now rewrite <- app_assoc.
Qed.

(** *** Looking links up after groups were added *)

Lemma lookup_link_app (k : Container.loc)
  (ls ls' : list (Container.loc * Container.link)) :
  Container.lookup_link k (ls ++ ls')
  = match Container.lookup_link k ls with
    | Some v => Some v
    | None => Container.lookup_link k ls'
    end.
Proof.
  induction ls as [|[k' v] r IH]; cbn [app Container.lookup_link];
    [reflexivity|].
  destruct (Container.loc_eqb k' k); [reflexivity|exact IH].
Qed.

Lemma lookup_add_group_same (key : Container.loc)
  (ls : list (Container.loc * Container.link)) :
  Container.lookup_link key ls = None \/
  Container.lookup_link key ls = Some (Container.Hard H5O_TYPE_GROUP) ->
  Container.lookup_link key (add_group key ls)
  = Some (Container.Hard H5O_TYPE_GROUP).
Proof.
  unfold add_group. intros [H|H]; rewrite H; [|exact H].
  rewrite lookup_link_app, H. cbn [Container.lookup_link].
  now rewrite loc_eqb_refl.
Qed.

Lemma lookup_add_group_other (key k : Container.loc)
  (ls : list (Container.loc * Container.link)) :
  k <> key ->
  Container.lookup_link k (add_group key ls) = Container.lookup_link k ls.
Proof.
  intros Hne. unfold add_group.
  destruct (Container.lookup_link key ls); [reflexivity|].
  rewrite lookup_link_app. destruct (Container.lookup_link k ls);
    [reflexivity|].
  cbn [Container.lookup_link].
  destruct (Container.loc_eqb key k) eqn:E; [|reflexivity].
  apply loc_eqb_eq in E. congruence.
Qed.

Lemma path_longer (cur rest : Container.path) (x : str) :
  cur ++ x :: rest <> cur.
Proof.
  intros H. apply (f_equal (@length _)) in H.
  rewrite length_app in H. cbn [length] in H. lia.
Qed.

Lemma ensurable_add_group_below (f : str) (todo : Container.path) :
  forall (extra cur : Container.path) (x : str)
         (ls : list (Container.loc * Container.link)),
    ensurable f ((cur ++ [x]) ++ extra) todo ls ->
    ensurable f ((cur ++ [x]) ++ extra) todo (add_group (f, cur ++ [x]) ls).
Proof.
  induction todo as [|y rest IH]; intros extra cur x ls H;
    cbn [ensurable] in *; [exact I|].
  destruct H as [Hy Hrest]. split.
  - rewrite lookup_add_group_other; [exact Hy|].
    intros E. injection E as E. rewrite <- app_assoc in E.
    destruct extra; cbn [app] in E; now apply path_longer in E.
  - specialize (IH (extra ++ [y]) cur x ls).
    rewrite app_assoc in IH. now apply IH.
Qed.

Lemma ensurable_add_group (f : str) (todo : Container.path) :
  forall (cur : Container.path) (x : str)
         (ls : list (Container.loc * Container.link)),
    ensurable f (cur ++ [x]) todo ls ->
    ensurable f (cur ++ [x]) todo (add_group (f, cur ++ [x]) ls).
Proof.
  intros cur x ls H.
  pose proof (ensurable_add_group_below f todo [] cur x ls) as G.
  rewrite app_nil_r in G. now apply G.
Qed.

Lemma all_groups_add_group (f : str) (todo : Container.path) :
  forall (cur : Container.path) (key : Container.loc)
         (ls : list (Container.loc * Container.link)),
    Container.lookup_link key ls <> None ->
    all_groups f cur todo (add_group key ls) <-> all_groups f cur todo ls.
Proof.
  intros cur key ls H. unfold add_group.
  destruct (Container.lookup_link key ls); [reflexivity|congruence].
Qed.

(** Once every group is there, ensuring them changes nothing. *)
Lemma ensured_all_groups (f : str) (todo : Container.path) :
  forall (cur : Container.path) (ls : list (Container.loc * Container.link)),
    all_groups f cur todo ls -> ensured f cur todo ls = ls.
Proof.
  induction todo as [|x rest IH]; intros cur ls H; cbn [ensured];
    [reflexivity|].
  destruct H as [Hx Hrest].
  assert (E : add_group (f, cur ++ [x]) ls = ls)
    by (unfold add_group; now rewrite Hx).
  rewrite E. now apply IH.
Qed.

Lemma lookup_ensured_outside (f : str) (todo : Container.path) :
  forall (cur : Container.path) (ls : list (Container.loc * Container.link))
         (k : Container.loc),
    Container.lookup_link k ls <> None ->
    Container.lookup_link k (ensured f cur todo ls)
    = Container.lookup_link k ls.
Proof.
  induction todo as [|x rest IH]; intros cur ls k H; cbn [ensured];
    [reflexivity|].
  assert (E : Container.lookup_link k (add_group (f, cur ++ [x]) ls)
              = Container.lookup_link k ls).
  { unfold add_group.
    destruct (Container.lookup_link (f, cur ++ [x]) ls); [reflexivity|].
    rewrite lookup_link_app.
    destruct (Container.lookup_link k ls); [reflexivity|congruence]. }
  rewrite IH; [exact E|]. now rewrite E.
Qed.

(** After ensuring, every group is there. *)
Lemma all_groups_ensured (f : str) (todo : Container.path) :
  forall (cur : Container.path) (ls : list (Container.loc * Container.link)),
    ensurable f cur todo ls ->
    all_groups f cur todo (ensured f cur todo ls).
Proof.
  induction todo as [|x rest IH]; intros cur ls H; cbn [ensured all_groups];
    [exact I|].
  destruct H as [Hx Hrest]. split.
  - rewrite lookup_ensured_outside; rewrite lookup_add_group_same;
      try exact Hx; congruence.
  - apply IH. now apply ensurable_add_group.
Qed.

(** ** Ensuring the groups of a path *)

Lemma createGroupsFromPath_loop_done (fuel : nat) (path : str)
  (parent : hid_t) (error : herr_t) :
  createGroupsFromPath_loop fuel path parent npos error = Ret error.
Proof. destruct fuel; reflexivity. Qed.

Lemma no_nul_join_app (done todo : list str) :
  done <> [] -> todo <> [] ->
  Container.no_nul (Container.join (done ++ todo)) = true ->
  Container.no_nul (Container.join done) = true /\
  Container.no_nul (Container.join todo) = true.
Proof.
  intros Hd Ht. rewrite join_app by assumption.
  change (Container.join done ++ slash :: Container.join todo)
    with (Container.join done ++ [slash] ++ Container.join todo).
  rewrite !no_nul_app. intros H.
  apply andb_prop in H. destruct H as [H1 H2].
  apply andb_prop in H2. now destruct H2.
Qed.

Lemma no_nul_join (segs : list str) :
  Forall (fun n => Container.no_nul n = true) segs ->
  Container.no_nul (Container.join segs) = true.
Proof.
  induction segs as [|x [|y rest] IH]; intros H; [reflexivity| |].
  - now apply Forall_inv in H.
  - change (Container.join (x :: y :: rest))
      with (x ++ [slash] ++ Container.join (y :: rest)).
    rewrite !no_nul_app. rewrite (Forall_inv H).
    rewrite IH by (now apply Forall_inv_tail in H). reflexivity.
Qed.

Section EnsurePath.

Variables (s0 : Container.t) (parent : hid_t) (f : str) (p : Container.path).

Hypothesis ids_ok0 : Container.ids_ok s0 = true.
Hypothesis at_base : Container.location s0 parent = Some (f, p).

Let segment_names (segs : list str) : Prop :=
  Forall (fun x => Container.segment_name x = true) segs.

(** One group of the walk: the name is [done/x], the state is the initial
    one with links [ls] after [k] identifiers. *)
Lemma ensure_walk_step (done : list str) (x : str)
  (ls : list (Container.loc * Container.link)) (k : nat) :
  segment_names (done ++ [x]) ->
  Container.no_nul (Container.join (done ++ [x])) = true ->
  Container.lookup_link (f, p ++ done) ls
  = Some (Container.Hard H5O_TYPE_GROUP) ->
  Container.lookup_link (f, (p ++ done) ++ [x]) ls = None \/
  Container.lookup_link (f, (p ++ done) ++ [x]) ls
  = Some (Container.Hard H5O_TYPE_GROUP) ->
  exists t1,
    (Container.lookup_link (f, (p ++ done) ++ [x]) ls
     = Some (Container.Hard H5O_TYPE_GROUP) ->
     existsb is_create t1 = false) /\
    forall (msg : hid_t -> message) (K : herr_t -> prog hid_t),
      run Container.h5
        (groupID <- createGroup parent (Container.join (done ++ [x])) ;;
         if groupID <? 0 then cout (msg groupID) ;; Ret groupID
         else error <- call (H5Gclose groupID) ;; K error)
        (relinked ls k s0)
      = (let '(r, s', t) :=
           run Container.h5 (K 0)
             (relinked (add_group (f, (p ++ done) ++ [x]) ls) (k + 1) s0) in
         (r, s', t1 ++ t)).
Proof.
  intros Hnames Hnul Hpar Hkey.
  destruct (ensure_fragment (relinked ls k s0) parent
              (Container.join (done ++ [x])) (f, (p ++ done) ++ [x]))
    as (t1 & Hc & Hrun).
  - now apply ids_ok_relinked.
  - exact Hnul.
  - rewrite <- app_assoc.
    apply (target_join (relinked ls k s0) parent (f, p) (done ++ [x]));
      [exact at_base|now destruct done|exact Hnames].
  - cbn [snd]. now destruct (p ++ done).
  - cbn [fst snd]. rewrite removelast_last. exact Hpar.
  - exact Hkey.
  - exists t1. split; [exact Hc|]. intros msg K.
    rewrite Hrun. now rewrite relinked_relinked.
Qed.

(** The [while] loop, entered at the separator that follows [done/x]:
    it ensures [done/x] and then every longer prefix of the path, and
    returns 0. *)
Lemma createGroupsFromPath_loop_run (todo : list str) :
  forall (done : list str) (x : str) (fuel : nat)
         (ls : list (Container.loc * Container.link)) (k : nat)
         (err : herr_t),
    todo <> [] ->
    segment_names (done ++ x :: todo) ->
    Container.no_nul (Container.join (done ++ x :: todo)) = true ->
    size (Container.join (done ++ x :: todo)) < npos ->
    (length todo <= fuel)%nat ->
    Container.lookup_link (f, p ++ done) ls
    = Some (Container.Hard H5O_TYPE_GROUP) ->
    ensurable f (p ++ done) (x :: todo) ls ->
    exists t,
      run Container.h5
        (createGroupsFromPath_loop fuel (Container.join (done ++ x :: todo))
           parent (size (Container.join (done ++ [x]))) err)
        (relinked ls k s0)
      = (Ok 0,
         relinked (ensured f (p ++ done) (x :: todo) ls)
           (k + S (length todo)) s0, t)
      /\ (all_groups f (p ++ done) (x :: todo) ls ->
          existsb is_create t = false).
Proof.
  induction todo as [|y rest IH]; [congruence|].
  intros done x fuel ls k err _ Hnames Hnul Hsize Hfuel Hpar Hens.
  set (pre := Container.join (done ++ [x])).
  assert (Hnul1 : Container.no_nul pre = true).
  { change (done ++ x :: y :: rest) with (done ++ [x] ++ y :: rest) in Hnul.
    rewrite app_assoc in Hnul.
    apply no_nul_join_app in Hnul; [tauto|now destruct done|discriminate]. }
  assert (Hn1 : segment_names (done ++ [x])).
  { apply Forall_app in Hnames. destruct Hnames as [Hd Hx].
    apply Forall_app. split; [exact Hd|].
    constructor; [now apply Forall_inv in Hx|constructor]. }
  assert (Hny : Container.segment_name y = true).
  { apply Forall_app in Hnames. destruct Hnames as [_ Hx].
    now apply Forall_inv_tail, Forall_inv in Hx. }
  assert (Hys : ~ In slash y) by (apply segment_name_spec in Hny; tauto).
  destruct Hens as [Hx [Hy Hrest]].
  assert (Hy' : Container.lookup_link (f, ((p ++ done) ++ [x]) ++ [y])
                  (add_group (f, (p ++ done) ++ [x]) ls) = None \/
                Container.lookup_link (f, ((p ++ done) ++ [x]) ++ [y])
                  (add_group (f, (p ++ done) ++ [x]) ls)
                = Some (Container.Hard H5O_TYPE_GROUP)).
  { rewrite lookup_add_group_other; [exact Hy|].
    intros E. injection E as E.
    now apply (path_longer ((p ++ done) ++ [x]) [] y). }
  destruct (ensure_walk_step done x ls k Hn1 Hnul1 Hpar Hx)
    as (t1 & Hc1 & Hrun1).
  pose proof (size_nonneg pre) as Hp0.
  pose proof (size_nonneg y) as Hy0.
  assert (Hpre : size (pre ++ [slash]) = size pre + 1)
    by (rewrite size_app; reflexivity).
  destruct fuel as [|fuel]; [cbn in Hfuel; lia|].
  destruct rest as [|z more].
  - (* [y] is the last segment *)
    assert (Hpath : Container.join (done ++ [x; y]) = (pre ++ [slash]) ++ y).
    { change (done ++ [x; y]) with (done ++ [x] ++ [y]).
      rewrite app_assoc, join_snoc by (now destruct done).
      now rewrite <- app_assoc. }
    rewrite Hpath in *. set (path := (pre ++ [slash]) ++ y) in *.
    assert (Htot : size path = size pre + 1 + size y)
      by (unfold path; rewrite size_app, Hpre; reflexivity).
    assert (Hs1 : substr path 0 (size pre) = Ok pre)
      by (unfold path; rewrite <- app_assoc; apply substr_prefix).
    assert (Hs2 : substr path (size pre + 1) (size path) = Ok y)
      by (unfold path; rewrite <- Hpre; apply substr_suffix; fold path; lia).
    assert (Hff : find_first_of path slash (size pre + 1) = npos)
      by (unfold path; rewrite <- Hpre; now apply find_first_of_none).
    cbn [createGroupsFromPath_loop].
    destruct (Z.eqb_spec (size pre) npos) as [E|_]; [lia|].
    rewrite to_size_t_small by (unfold npos in *; lia).
    rewrite Hs1, Hs2, Hff. cbn [lift bind]. rewrite Hrun1.
    change (npos =? npos) with true. cbn match.
    change (pre ++ list_ascii_of_string "/" ++ y) with (pre ++ slash :: y).
    replace (pre ++ slash :: y) with (Container.join ((done ++ [x]) ++ [y]))
      by (unfold pre; apply join_snoc; now destruct done).
    destruct (ensure_walk_step (done ++ [x]) y
                (add_group (f, (p ++ done) ++ [x]) ls) (k + 1))
      as (t2 & Hc2 & Hrun2).
    + apply Forall_app. split; [exact Hn1|]. now constructor.
    + rewrite join_snoc by (now destruct done). fold pre.
      unfold path in Hnul. now rewrite <- app_assoc in Hnul.
    + rewrite app_assoc. now apply lookup_add_group_same.
    + rewrite app_assoc. exact Hy'.
    + rewrite Hrun2, createGroupsFromPath_loop_done. cbn [run app].
      eexists. split.
      * cbn [ensured length]. rewrite !app_assoc.
        replace (k + 1 + 1)%nat with (k + 2)%nat by lia.
        rewrite app_nil_r. reflexivity.
      * intros [Hgx [Hgy _]]. rewrite ?app_nil_r, existsb_app.
        rewrite (Hc1 Hgx). cbn [orb]. apply Hc2.
        rewrite app_assoc.
        rewrite lookup_add_group_other; [exact Hgy|].
        intros E. injection E as E.
        now apply (path_longer ((p ++ done) ++ [x]) [] y).
  - (* more segments follow [y] *)
    set (tl := Container.join (z :: more)) in *.
    assert (Hpath : Container.join (done ++ x :: y :: z :: more)
                    = (pre ++ [slash]) ++ y ++ slash :: tl).
    { change (done ++ x :: y :: z :: more)
        with (done ++ [x] ++ y :: z :: more).
      rewrite app_assoc, join_app by (try discriminate; now destruct done).
      rewrite (join_cons y (z :: more)) by discriminate.
      now rewrite <- app_assoc. }
    assert (Hnext : Container.join ((done ++ [x]) ++ [y])
                    = (pre ++ [slash]) ++ y).
    { rewrite join_snoc by (now destruct done).
      now rewrite <- app_assoc. }
    assert (Hpath' : Container.join ((done ++ [x]) ++ y :: z :: more)
                     = (pre ++ [slash]) ++ y ++ slash :: tl)
      by (rewrite <- app_assoc; exact Hpath).
    destruct (IH (done ++ [x]) y fuel
                (add_group (f, (p ++ done) ++ [x]) ls) (k + 1)%nat 0)
      as (t2 & Hrun2 & Hc2).
    + discriminate.
    + rewrite <- app_assoc. exact Hnames.
    + rewrite <- app_assoc. exact Hnul.
    + rewrite Hpath', <- Hpath. exact Hsize.
    + cbn [length] in *. lia.
    + rewrite app_assoc. now apply lookup_add_group_same.
    + rewrite app_assoc. split; [exact Hy'|].
      now apply (ensurable_add_group_below f (z :: more) [y]).
    + rewrite Hpath', Hnext in Hrun2. rewrite Hpath in *.
      set (path := (pre ++ [slash]) ++ y ++ slash :: tl) in *.
      pose proof (size_nonneg tl) as Ht0.
      assert (Htot : size path = size pre + 1 + size y + 1 + size tl).
      { unfold path, size. rewrite !length_app. cbn [length]. lia. }
      assert (Hs1 : substr path 0 (size pre) = Ok pre)
        by (unfold path; rewrite <- app_assoc; apply substr_prefix).
      assert (Hs2 : substr path (size pre + 1) (size path)
                    = Ok (y ++ slash :: tl)).
      { unfold path. rewrite <- Hpre. apply substr_suffix.
        unfold size. rewrite !length_app. cbn [length]. lia. }
      assert (Hff : find_first_of path slash (size pre + 1)
                    = size ((pre ++ [slash]) ++ y)).
      { unfold path. rewrite <- Hpre, find_first_of_next by exact Hys.
        now rewrite <- size_app. }
      cbn [createGroupsFromPath_loop].
      destruct (Z.eqb_spec (size pre) npos) as [E|_]; [lia|].
      rewrite to_size_t_small by (unfold npos in *; lia).
      rewrite Hs1, Hs2, Hff. cbn [lift bind]. rewrite Hrun1.
      destruct (Z.eqb_spec (size ((pre ++ [slash]) ++ y)) npos) as [E|_].
      { rewrite size_app, Hpre in E. lia. }
      rewrite Hrun2. eexists. split.
      * cbn [ensured length]. rewrite !app_assoc.
        replace (k + 1 + S (S (length more)))%nat
          with (k + S (S (S (length more))))%nat by lia.
        reflexivity.
      * intros [Hgx Hg]. rewrite existsb_app, (Hc1 Hgx). cbn [orb].
        apply Hc2. rewrite app_assoc.
        apply all_groups_add_group; [rewrite Hgx; discriminate|exact Hg].
Qed.

End EnsurePath.

(** *** The path text around the joined segments *)

Lemma join_last_plain (segs : list str) :
  segs <> [] -> Forall plain_seg segs ->
  exists a y, Container.join segs = a ++ y /\ plain_seg y.
Proof.
  induction segs as [|x r IH]; [congruence|]. intros _ H.
  destruct r as [|x' r'].
  - exists [], x. split; [reflexivity|now apply Forall_inv in H].
  - destruct IH as (a & y & E & Hy);
      [discriminate|now apply Forall_inv_tail in H|].
    exists (x ++ slash :: a), y. split; [|exact Hy].
    rewrite join_cons by discriminate. rewrite E.
    now rewrite <- app_assoc.
Qed.

(** Joined segments do not end in a separator. *)
Lemma find_last_of_join (segs : list str) :
  segs <> [] -> Forall plain_seg segs ->
  size (Container.join segs) < npos ->
  find_last_of (Container.join segs) slash
  <> to_size_t (size (Container.join segs) - 1).
Proof.
  intros Hne Hall Hsz.
  destruct (join_last_plain segs Hne Hall) as (a & y & E & Hy1 & Hy2).
  rewrite E in *. unfold find_last_of.
  rewrite rindex_app_plain by exact Hy2.
  assert (Hylen : (0 < length y)%nat) by (destruct y; [congruence|cbn; lia]).
  rewrite size_app in *. pose proof (size_nonneg a).
  assert (size y = Z.of_nat (length y)) by reflexivity.
  rewrite to_size_t_small by (unfold npos in *; lia).
  destruct (rindex slash a) as [i|] eqn:Ei.
  - apply rindex_bound in Ei. unfold size. lia.
  - lia.
Qed.

Lemma find_last_of_trailing (body : str) :
  find_last_of (body ++ [slash]) slash = size body.
Proof.
  unfold find_last_of. rewrite rindex_app_last by (intros []). reflexivity.
Qed.

Lemma join_length (segs : list str) :
  Forall plain_seg segs ->
  (length segs <= length (Container.join segs) + 1)%nat.
Proof.
  induction segs as [|x r IH]; intros H; [cbn; lia|].
  pose proof (Forall_inv H) as [Hx _]. apply Forall_inv_tail in H.
  specialize (IH H). destruct r as [|y r'].
  - cbn. lia.
  - rewrite join_cons by discriminate. rewrite length_app.
    cbn [length] in *. destruct x; [congruence|cbn [length]; lia].
Qed.

Section EnsurePathText.

Variables (s0 : Container.t) (parent : hid_t) (f : str) (p : Container.path).

Hypothesis ids_ok0 : Container.ids_ok s0 = true.
Hypothesis at_base : Container.location s0 parent = Some (f, p).

Variables (x : str) (rest : list str).

Hypothesis names : Forall (fun n => Container.segment_name n = true) (x :: rest).
Hypothesis nul_free : Container.no_nul (Container.join (x :: rest)) = true.

Variables (ls : list (Container.loc * Container.link)) (k : nat).

Hypothesis base_group :
  Container.lookup_link (f, p) ls = Some (Container.Hard H5O_TYPE_GROUP).
Hypothesis free_or_group : ensurable f p (x :: rest) ls.

Let body : str := Container.join (x :: rest).

Let done_state : Container.t :=
  relinked (ensured f p (x :: rest) ls) (k + S (length rest)) s0.

Lemma x_plain : plain_seg x.
Proof. apply segment_name_plain. now apply Forall_inv in names. Qed.

(** The code after both separators were removed: one [createGroup] for a
    single segment, the loop otherwise. *)
Lemma ensure_body_run :
  size body < npos ->
  exists t,
    (all_groups f p (x :: rest) ls -> existsb is_create t = false) /\
    forall (msg : hid_t -> message),
      run Container.h5
        (let pos := find_first_of body slash 0 in
         if pos =? npos then
           groupID <- createGroup parent body ;;
           if groupID <? 0 then cout (msg groupID) ;; Ret groupID
           else error <- call (H5Gclose groupID) ;; Ret error
         else
           createGroupsFromPath_loop (length body) body parent pos (-1))
        (relinked ls k s0)
      = (Ok 0, done_state, t).
Proof.
  intros Hsz. pose proof x_plain as [Hx Hxs].
  unfold done_state. destruct rest as [|y more].
  - (* one segment *)
    assert (Hb : body = x) by reflexivity. rewrite Hb in *.
    assert (Hff : find_first_of x slash 0 = npos)
      by (apply (find_first_of_none [] x Hxs)).
    rewrite Hff. change (npos =? npos) with true. cbn match zeta.
    destruct (ensure_walk_step s0 parent f p ids_ok0 at_base [] x ls k)
      as (t1 & Hc & Hrun).
    + exact names.
    + exact nul_free.
    + now rewrite app_nil_r.
    + rewrite app_nil_r. now destruct free_or_group.
    + exists (t1 ++ []). split.
      * intros [Hg _]. rewrite app_nil_r. apply Hc. now rewrite app_nil_r.
      * intros msg. change (Container.join ([] ++ [x])) with x in Hrun.
        refine (eq_trans (Hrun msg Ret) _). cbn [run ensured length].
        rewrite app_nil_r. reflexivity.
  - (* several segments *)
    assert (Hb : body = x ++ slash :: Container.join (y :: more))
      by (unfold body; now rewrite join_cons).
    assert (Hff : find_first_of body slash 0 = size x).
    { rewrite Hb. apply (find_first_of_next [] x _ Hxs). }
    rewrite Hff. pose proof (size_nonneg x).
    assert (Hxb : size x < size body).
    { rewrite Hb, size_app. unfold size. cbn [length]. lia. }
    destruct (Z.eqb_spec (size x) npos) as [E|_]; [lia|].
    cbn zeta.
    destruct (createGroupsFromPath_loop_run s0 parent f p ids_ok0 at_base
                (y :: more) [] x (length body) ls k (-1))
      as (t & Hrun & Hc).
    + discriminate.
    + exact names.
    + exact nul_free.
    + exact Hsz.
    + pose proof (join_length (x :: y :: more)
                    (Forall_segment_plain _ names)) as Hl.
      fold body in Hl. cbn [length] in *. lia.
    + now rewrite app_nil_r.
    + now rewrite app_nil_r.
    + rewrite app_nil_r in Hrun, Hc.
      exists t. split; [exact Hc|]. intros _. exact Hrun.
Qed.

End EnsurePathText.

Lemma match_nonempty (A B : Type) (l : list A) (a b : B) :
  l <> [] -> match l with [] => a | _ :: _ => b end = b.
Proof. destruct l; congruence. Qed.

Section EnsureWholePath.

Variables (s0 : Container.t) (parent : hid_t) (f : str) (p : Container.path).

Hypothesis ids_ok0 : Container.ids_ok s0 = true.
Hypothesis at_base : Container.location s0 parent = Some (f, p).
Hypothesis parent_pos : 0 < parent.

Variables (x : str) (rest : list str).

Hypothesis names : Forall (fun n => Container.segment_name n = true) (x :: rest).
Hypothesis nul_free : Container.no_nul (Container.join (x :: rest)) = true.

Variables (ls : list (Container.loc * Container.link)) (k : nat).

Hypothesis base_group :
  Container.lookup_link (f, p) ls = Some (Container.Hard H5O_TYPE_GROUP).
Hypothesis free_or_group : ensurable f p (x :: rest) ls.

Let body : str := Container.join (x :: rest).

Let done_state : Container.t :=
  relinked (ensured f p (x :: rest) ls) (k + S (length rest)) s0.

Lemma body_nonempty : body <> [].
Proof.
  apply join_nonempty; [discriminate|].
  now apply Forall_segment_plain.
Qed.

(** From "Remove any trailing slash" on. *)
Lemma createGroupsFromPath_tail_run (trail : bool) :
  size (body ++ (if trail then [slash] else [])) < npos ->
  exists t,
    (all_groups f p (x :: rest) ls -> existsb is_create t = false) /\
    run Container.h5
      (createGroupsFromPath_tail (body ++ (if trail then [slash] else []))
         parent) (relinked ls k s0)
    = (Ok 0, done_state, t).
Proof.
  intros Hsz. pose proof (size_nonneg body) as Hb0.
  assert (Hbody : size body < npos).
  { rewrite size_app in Hsz. unfold size in *.
    destruct trail; cbn [length] in Hsz; lia. }
  destruct (ensure_body_run s0 parent f p ids_ok0 at_base x rest names
              nul_free ls k
              base_group free_or_group Hbody) as (t & Hc & Hrun).
  exists t. split; [exact Hc|].
  unfold createGroupsFromPath_tail. cbn zeta.
  match goal with
  | |- run _ (bind ?c _) _ = _ => assert (Hstrip : c = Ret body)
  end.
  { destruct trail.
    - rewrite find_last_of_trailing, size_app.
      change (size [slash]) with 1.
      rewrite to_size_t_small
        by (rewrite size_app in Hsz; unfold npos in *; lia).
      replace (size body + 1 - 1) with (size body) by lia.
      rewrite Z.eqb_refl, substr_prefix. reflexivity.
    - rewrite app_nil_r in *.
      destruct (Z.eqb_spec (find_last_of body slash)
                  (to_size_t (size body - 1))) as [E|_]; [|reflexivity].
      exfalso. revert E. apply find_last_of_join;
        [discriminate|now apply Forall_segment_plain|exact Hbody]. }
  rewrite Hstrip. cbn [bind].
  rewrite match_nonempty by exact body_nonempty.
  apply Hrun.
Qed.

(** The whole function on the text of the path [x/rest], with or without
    a leading and a trailing separator. *)
Lemma createGroupsFromPath_run (lead trail : bool) :
  size (path_text lead trail (x :: rest)) < npos ->
  exists t,
    (all_groups f p (x :: rest) ls -> existsb is_create t = false) /\
    run Container.h5
      (createGroupsFromPath (path_text lead trail (x :: rest)) parent)
      (relinked ls k s0)
    = (Ok 0, done_state, t).
Proof.
  intros Hsz. unfold path_text in *. fold body in Hsz |- *.
  pose proof (x_plain x rest names) as [Hx Hxs].
  pose proof (size_nonneg x) as Hx0.
  unfold createGroupsFromPath.
  destruct (Z.leb_spec parent 0); [lia|].
  destruct lead.
  - (* leading separator *)
    set (tl := body ++ (if trail then [slash] else [])) in *.
    assert (Hff : find_first_of ([slash] ++ tl) slash 0 = 0)
      by (apply (find_first_of_next [] [] tl); intros []).
    cbn zeta. rewrite Hff. cbn [Z.eqb].
    assert (Hs : substr ([slash] ++ tl) 1 (size ([slash] ++ tl)) = Ok tl).
    { apply (substr_suffix [slash] tl). rewrite size_app.
      change (size [slash]) with 1. lia. }
    rewrite Hs. cbn [lift bind].
    apply createGroupsFromPath_tail_run. fold tl.
    rewrite size_app in Hsz. change (size [slash]) with 1 in Hsz. lia.
  - (* no leading separator *)
    cbn [app] in *.
    set (tl := if trail then [slash] else []) in *.
    assert (Hcases : rest = [] \/ exists y more, rest = y :: more)
      by (destruct rest; eauto).
    assert (Hxlen : 0 < size x)
      by (destruct x; [congruence|unfold size; cbn [length]; lia]).
    destruct Hcases as [Erest|(y & more & Erest)].
    + (* one segment *)
      assert (Hb : body = x) by (unfold body; now rewrite Erest).
      destruct trail.
      * (* "x/" *)
        assert (Hff : find_first_of (body ++ tl) slash 0 = size x).
        { rewrite Hb. apply (find_first_of_next [] x [] Hxs). }
        cbn zeta. rewrite Hff.
        destruct (Z.eqb_spec 0 (size x)); [lia|].
        destruct (Z.eqb_spec (size x) npos) as [E|_].
        { rewrite Hb, size_app in Hsz. change (size tl) with 1 in Hsz. lia. }
        now apply (createGroupsFromPath_tail_run true).
      * (* "x" *)
        unfold tl in *. rewrite app_nil_r in *. rewrite Hb in *.
        assert (Hff : find_first_of x slash 0 = npos)
          by (apply (find_first_of_none [] x Hxs)).
        cbn zeta. rewrite Hff. change (0 =? npos) with false.
        change (npos =? npos) with true. cbn match.
        destruct (ensure_walk_step s0 parent f p ids_ok0 at_base [] x ls k)
          as (t1 & Hc & Hrun).
        -- constructor; [now apply Forall_inv in names|constructor].
        -- pose proof nul_free as Hnf. rewrite Erest in Hnf. exact Hnf.
        -- now rewrite app_nil_r.
        -- rewrite app_nil_r. now destruct free_or_group.
        -- exists (t1 ++ []). split.
           ++ intros [Hg _]. rewrite app_nil_r. apply Hc.
              now rewrite app_nil_r.
           ++ change (Container.join ([] ++ [x])) with x in Hrun.
              refine (eq_trans
                        (Hrun (ErrCreatingGroupErr x)
                           (fun error =>
                              if error <? 0
                              then cout ErrClosingGroup ;; Ret error
                              else Ret error)) _).
              cbn [run Z.ltb Z.compare]. unfold done_state.
              rewrite Erest. cbn [ensured length].
              rewrite app_nil_r. reflexivity.
    + (* several segments *)
      assert (Hb : body = x ++ slash :: Container.join (y :: more))
        by (unfold body; rewrite Erest; now rewrite join_cons).
      assert (Hff : find_first_of (body ++ tl) slash 0 = size x).
      { rewrite Hb, <- app_assoc.
        apply (find_first_of_next [] x _ Hxs). }
      cbn zeta. rewrite Hff.
      destruct (Z.eqb_spec 0 (size x)); [lia|].
      destruct (Z.eqb_spec (size x) npos) as [E|_].
      { rewrite Hb, !size_app in Hsz.
        pose proof (size_nonneg (slash :: Container.join (y :: more))).
        pose proof (size_nonneg tl). lia. }
      now apply createGroupsFromPath_tail_run.
Qed.

End EnsureWholePath.

Lemma all_groups_ensurable (f : str) (todo : Container.path) :
  forall (cur : Container.path) (ls : list (Container.loc * Container.link)),
    all_groups f cur todo ls -> ensurable f cur todo ls.
Proof.
  induction todo as [|x rest IH]; intros cur ls H; cbn [ensurable];
    [exact I|].
  destruct H as [Hx Hrest]. split; [now right|now apply IH].
Qed.

(** C2: in the container, for a parent identifier open on an existing
    group and a path of one or more link names (non-empty, not ["."],
    without separator and without terminator), written with or without a
    leading and a trailing separator, none of whose prefixes is taken by
    something other than a group: [createGroupsFromPath] returns 0 and
    afterwards every prefix is a group; called again with the same path it
    returns 0 again, creates nothing ([H5Gcreate] is not called and the
    links are the same), and in both runs every identifier opened is
    closed again.  [createGroup] on a name that is already a group opens
    it: it returns a positive identifier without calling [H5Gcreate] and
    leaves the links as they were. *)
Theorem createGroupsFromPath_idempotent (s : Container.t) (parent : hid_t)
  (f : str) (p : Container.path) (lead trail : bool) (segs : list str) :
  Container.ids_ok s = true ->
  Container.location s parent = Some (f, p) ->
  0 < parent ->
  segs <> [] ->
  Forall (fun n => Container.segment_name n = true) segs ->
  Forall (fun n => Container.no_nul n = true) segs ->
  size (path_text lead trail segs) < npos ->
  Container.lookup_link (f, p) (Container.links s)
  = Some (Container.Hard H5O_TYPE_GROUP) ->
  ensurable f p segs (Container.links s) ->
  (exists s1 t1 s2 t2,
      run Container.h5
        (createGroupsFromPath (path_text lead trail segs) parent) s
      = (Ok 0, s1, t1) /\
      all_groups f p segs (Container.links s1) /\
      Container.handles s1 = Container.handles s /\
      run Container.h5
        (createGroupsFromPath (path_text lead trail segs) parent) s1
      = (Ok 0, s2, t2) /\
      existsb is_create t2 = false /\
      Container.links s2 = Container.links s1 /\
      Container.handles s2 = Container.handles s) /\
  (forall name,
      Container.segment_name name = true ->
      Container.no_nul name = true ->
      Container.lookup_link (f, p ++ [name]) (Container.links s)
      = Some (Container.Hard H5O_TYPE_GROUP) ->
      exists s1 t1,
        run Container.h5 (createGroup parent name) s
        = (Ok (Container.next_id s), s1, t1) /\
        0 < Container.next_id s /\
        existsb is_create t1 = false /\
        Container.links s1 = Container.links s).
Proof.
  intros Hids Hloc Hpar Hne Hnames Hnuls Hsz Hbase Hens.
  pose proof (no_nul_join segs Hnuls) as Hnul. split.
  - destruct segs as [|x rest]; [congruence|].
    set (ls1 := ensured f p (x :: rest) (Container.links s)).
    destruct (createGroupsFromPath_run s parent f p Hids Hloc Hpar x rest
                Hnames Hnul (Container.links s) 0 Hbase Hens lead trail Hsz)
      as (t1 & _ & Hrun1).
    rewrite relinked_self in Hrun1. fold ls1 in Hrun1.
    assert (Hall : all_groups f p (x :: rest) ls1)
      by (now apply all_groups_ensured).
    assert (Hbase1 : Container.lookup_link (f, p) ls1
                     = Some (Container.Hard H5O_TYPE_GROUP)).
    { unfold ls1. rewrite lookup_ensured_outside; [exact Hbase|].
      rewrite Hbase. discriminate. }
    destruct (createGroupsFromPath_run s parent f p Hids Hloc Hpar x rest
                Hnames Hnul ls1 (0 + S (length rest)) Hbase1
                (all_groups_ensurable _ _ _ _ Hall) lead trail Hsz)
      as (t2 & Hc2 & Hrun2).
    rewrite (ensured_all_groups _ _ _ _ Hall) in Hrun2.
    eexists _, t1, _, t2. split; [exact Hrun1|].
    split; [exact Hall|]. split; [reflexivity|].
    split; [exact Hrun2|]. split; [now apply Hc2|].
    split; reflexivity.
  - intros name Hname Hnn Hgroup.
    destruct (ensure_group_run s parent name (f, p ++ [name]))
      as (s1 & t1 & Hrun & Hpos & Hlinks & _ & Hcreate).
    + exact Hids.
    + exact Hnn.
    + apply (target_join s parent (f, p) [name] Hloc); [discriminate|].
      now constructor.
    + cbn [snd]. now destruct p.
    + cbn [fst snd]. rewrite removelast_last. exact Hbase.
    + now right.
    + exists s1, t1. split; [exact Hrun|]. split; [exact Hpos|].
      split; [now apply Hcreate|].
      rewrite Hlinks. unfold add_group. now rewrite Hgroup.
Qed.

Lemma createGroupsFromPath_idempotent_witness :
  Container.ids_ok Samples.mixed = true /\
  Container.location Samples.mixed 1 = Some (Samples.at_path "data.h5" []) /\
  0 < 1 /\
  ["g" : str; "sub" : str; "leaf" : str] <> [] /\
  Forall (fun n => Container.segment_name n = true)
    ["g" : str; "sub" : str; "leaf" : str] /\
  Forall (fun n => Container.no_nul n = true)
    ["g" : str; "sub" : str; "leaf" : str] /\
  size (path_text true true ["g" : str; "sub" : str; "leaf" : str]) < npos /\
  Container.lookup_link ("data.h5" : str, []) (Container.links Samples.mixed)
  = Some (Container.Hard H5O_TYPE_GROUP) /\
  ensurable "data.h5" [] ["g" : str; "sub" : str; "leaf" : str]
    (Container.links Samples.mixed) /\
  exists s1 t1 s2 t2,
    run Container.h5
      (createGroupsFromPath
         (path_text true true ["g" : str; "sub" : str; "leaf" : str]) 1)
      Samples.mixed
    = (Ok 0, s1, t1) /\
    all_groups "data.h5" [] ["g" : str; "sub" : str; "leaf" : str]
      (Container.links s1) /\
    Container.handles s1 = Container.handles Samples.mixed /\
    run Container.h5
      (createGroupsFromPath
         (path_text true true ["g" : str; "sub" : str; "leaf" : str]) 1) s1
    = (Ok 0, s2, t2) /\
    existsb is_create t2 = false /\
    Container.links s2 = Container.links s1 /\
    Container.handles s2 = Container.handles Samples.mixed.
Proof.
  assert (Hnames : Forall (fun n => Container.segment_name n = true)
                     ["g" : str; "sub" : str; "leaf" : str])
    by (repeat constructor).
  assert (Hnuls : Forall (fun n => Container.no_nul n = true)
                    ["g" : str; "sub" : str; "leaf" : str])
    by (repeat constructor).
  assert (Hens : ensurable "data.h5" [] ["g" : str; "sub" : str; "leaf" : str]
                   (Container.links Samples.mixed)).
  { cbn [ensurable]. repeat split; (now left) || (now right). }
  split; [reflexivity|]. split; [reflexivity|]. split; [lia|].
  split; [discriminate|]. split; [exact Hnames|]. split; [exact Hnuls|].
  split; [vm_compute; reflexivity|]. split; [reflexivity|].
  split; [exact Hens|].
  apply (proj1 (createGroupsFromPath_idempotent Samples.mixed 1 "data.h5" []
                  true true ["g" : str; "sub" : str; "leaf" : str]
                  eq_refl eq_refl ltac:(lia) ltac:(discriminate) Hnames
                  Hnuls ltac:(vm_compute; reflexivity) eq_refl Hens)).
Defined.

(** On the sample: ["/g/sub/leaf/"] opens the existing group ["g"], creates
    the two groups below it, and a second call creates nothing. *)
Example createGroupsFromPath_twice :
  exists s1 t1 t2,
    run Container.h5 (createGroupsFromPath "/g/sub/leaf/" 1) Samples.mixed
    = (Ok 0, s1, t1) /\
    map fst (Container.links s1)
    = map fst (Container.links Samples.mixed)
      ++ [Samples.at_path "data.h5" ["g"; "sub"];
          Samples.at_path "data.h5" ["g"; "sub"; "leaf"]] /\
    length (filter is_create t1) = 2%nat /\
    run Container.h5 (createGroupsFromPath "/g/sub/leaf/" 1) s1
    = (Ok 0, Container.bump 3 s1, t2) /\
    filter is_create t2 = [].
Proof. eexists _, _, _. vm_compute. repeat split. Qed.

(** *** The functions always return *)

Lemma index_bound (c : ascii) (s : str) (i : nat) :
  index c s = Some i -> (i < length s)%nat.
Proof.
  revert i. induction s as [|x t IH]; cbn [index length]; intros i H.
  - discriminate.
  - destruct (Ascii.eqb x c).
    + injection H as <-. lia.
    + destruct (index c t) as [j|]; [|discriminate].
      injection H as <-. specialize (IH j eq_refl). lia.
Qed.

Lemma find_first_of_range (s : str) (c : ascii) (pos : Z) :
  0 <= pos ->
  find_first_of s c pos = npos \/ pos <= find_first_of s c pos < size s.
Proof.
  intros Hpos. unfold find_first_of.
  destruct (Z.leb_spec (size s) pos); [now left|].
  destruct (index c (skipn (Z.to_nat pos) s)) as [i|] eqn:E; [|now left].
  right. apply index_bound in E. rewrite length_skipn in E.
  unfold size in *. lia.
Qed.

Lemma createGroup_returns (g : gateway) (s : state g) (locationID : hid_t)
  (group : str) :
  exists id s' t, run g (createGroup locationID group) s = (Ok id, s', t).
Proof.
  unfold createGroup. cbn [call bind run].
  destruct (answer g _ (H5Oget_info_by_name locationID (c_str group)
                          H5P_DEFAULT) s) as [[e i] s1].
  destruct (e =? 0); cbn [call bind run];
    match goal with
    | |- context [answer g _ ?c s1] =>
        destruct (answer g _ c s1) as [id s2]
    end; now eexists _, _, _.
Qed.

(** Whatever the gateway answers, the loop returns before its fuel runs
    out when it starts with as many rounds as characters remain. *)
Lemma createGroupsFromPath_loop_fuel (g : gateway) (path : str)
  (parent : hid_t) (fuel : nat) :
  forall (pos : Z) (err : herr_t) (s : state g),
    size path < npos ->
    pos = npos \/ (0 <= pos < size path /\ size path - pos <= Z.of_nat fuel) ->
    exists r s' t,
      run g (createGroupsFromPath_loop fuel path parent pos err) s
      = (Ok r, s', t).
Proof.
  induction fuel as [|fuel IH]; intros pos err s Hsz Hpos.
  - destruct Hpos as [->|[H1 H2]]; [|cbn in H2; lia].
    cbn. now eexists _, _, _.
  - destruct Hpos as [->|[H1 H2]].
    { rewrite createGroupsFromPath_loop_done. cbn. now eexists _, _, _. }
    cbn [createGroupsFromPath_loop].
    destruct (Z.eqb_spec pos npos); [lia|].
    unfold substr at 1. destruct (Z.ltb_spec (size path) 0); [lia|].
    cbn [lift bind].
    rewrite to_size_t_small by (unfold npos in *; lia).
    unfold substr at 1. destruct (Z.ltb_spec (size path) (pos + 1)); [lia|].
    cbn [lift bind]. rewrite run_bind.
    match goal with
    | |- context [run g (createGroup parent ?nm) s] =>
        destruct (createGroup_returns g s parent nm) as (id & s1 & t1 & ->)
    end.
    destruct (id <? 0); [cbn; now eexists _, _, _|].
    cbn [call bind run]. destruct (answer g _ (H5Gclose id) s1) as [e s2].
    destruct (find_first_of_range path slash (pos + 1) ltac:(lia))
      as [E|E].
    + rewrite E. change (npos =? npos) with true. cbn match.
      rewrite run_bind.
      match goal with
      | |- context [run g (createGroup parent ?nm) s2] =>
          destruct (createGroup_returns g s2 parent nm)
            as (id2 & s3 & t3 & ->)
      end.
      destruct (id2 <? 0); [cbn; now eexists _, _, _|].
      cbn [call bind run]. destruct (answer g _ (H5Gclose id2) s3) as [e2 s4].
      rewrite createGroupsFromPath_loop_done. cbn. now eexists _, _, _.
    + destruct (Z.eqb_spec (find_first_of path slash (pos + 1)) npos);
        [lia|].
      destruct (IH (find_first_of path slash (pos + 1)) e s2 Hsz)
        as (r & s' & t & ->); [right; lia|].
      now eexists _, _, _.
Qed.

Lemma substr_returns (s : str) (pos len : Z) :
  0 <= pos <= size s ->
  exists r, substr s pos len = Ok r /\ size r <= size s.
Proof.
  intros H. unfold substr. destruct (Z.ltb_spec (size s) pos); [lia|].
  eexists. split; [reflexivity|].
  unfold size. rewrite length_firstn, length_skipn. lia.
Qed.

Lemma createGroupsFromPath_tail_returns (g : gateway) (s : state g)
  (path : str) (parent : hid_t) :
  size path < npos ->
  exists r s' t,
    run g (createGroupsFromPath_tail path parent) s = (Ok r, s', t).
Proof.
  intros Hsz. pose proof (size_nonneg path) as Hp.
  unfold createGroupsFromPath_tail. cbn zeta.
  match goal with
  | |- context [bind ?c _] =>
      assert (Hstrip : exists path', c = Ret path' /\ size path' < npos)
  end.
  { destruct (_ =? _).
    - destruct (substr_returns path 0 (find_last_of path slash) ltac:(lia))
        as (r & -> & Hr).
      exists r. split; [reflexivity|lia].
    - now exists path. }
  destruct Hstrip as (path' & -> & Hsz'). cbn [bind].
  destruct path' as [|c r] eqn:E; [cbn; now eexists _, _, _|].
  rewrite <- E in *. clear E c r.
  destruct (find_first_of_range path' slash 0 ltac:(lia)) as [Hff|Hff].
  - rewrite Hff. change (npos =? npos) with true. cbn match.
    rewrite run_bind.
    destruct (createGroup_returns g s parent path') as (id & s1 & t1 & ->).
    destruct (id <? 0); [cbn; now eexists _, _, _|].
    cbn [call bind run]. destruct (answer g _ (H5Gclose id) s1) as [e s2].
    now eexists _, _, _.
  - destruct (Z.eqb_spec (find_first_of path' slash 0) npos); [lia|].
    apply createGroupsFromPath_loop_fuel; [exact Hsz'|].
    right. unfold size in *. lia.
Qed.

(** [createGroupsFromPath] returns a status for every path, parent and
    gateway: no [substr] is out of range and the loop ends. *)
Lemma createGroupsFromPath_returns (g : gateway) (s : state g)
  (pathToCheck : str) (parent : hid_t) :
  size pathToCheck < npos ->
  exists r s' t,
    run g (createGroupsFromPath pathToCheck parent) s = (Ok r, s', t).
Proof.
  intros Hsz. pose proof (size_nonneg pathToCheck) as Hp.
  unfold createGroupsFromPath. cbn zeta.
  destruct (parent <=? 0); [cbn; now eexists _, _, _|].
  destruct (find_first_of_range pathToCheck slash 0 ltac:(lia)) as [Hff|Hff].
  - rewrite Hff. change (0 =? npos) with false.
    change (npos =? npos) with true. cbn match.
    rewrite run_bind.
    destruct (createGroup_returns g s parent pathToCheck)
      as (id & s1 & t1 & ->).
    destruct (id <? 0); [cbn; now eexists _, _, _|].
    cbn [call bind run]. destruct (answer g _ (H5Gclose id) s1) as [e s2].
    destruct (e <? 0); cbn; now eexists _, _, _.
  - destruct (Z.eqb_spec 0 (find_first_of pathToCheck slash 0)) as [E|E].
    + destruct (substr_returns pathToCheck 1 (size pathToCheck) ltac:(lia))
        as (r & -> & Hr).
      cbn [lift bind]. apply createGroupsFromPath_tail_returns. lia.
    + destruct (Z.eqb_spec (find_first_of pathToCheck slash 0) npos); [lia|].
      now apply createGroupsFromPath_tail_returns.
Qed.

(** ** The leak sweep in the container *)

Lemma find_handle_remove_other (hs : list (hid_t * Container.handle))
  (id n : hid_t) :
  id <> n ->
  Container.find_handle id (Container.remove_handle n hs)
  = Container.find_handle id hs.
Proof.
  intros Hne. unfold Container.remove_handle.
  induction hs as [|[i h] r IH]; cbn [filter Container.find_handle fst];
    [reflexivity|].
  destruct (Z.eqb_spec i n) as [->|Hin]; cbn [negb].
  - destruct (Z.eqb_spec n id); [congruence|exact IH].
  - cbn [Container.find_handle]. now rewrite IH.
Qed.

Lemma find_handle_release_all (ids : list hid_t) :
  forall (s : Container.t) (id : hid_t),
    ~ In id ids ->
    Container.find_handle id (Container.handles (release_all ids s))
    = Container.find_handle id (Container.handles s).
Proof.
  induction ids as [|n r IH]; intros s id Hn; cbn [release_all fold_left];
    [reflexivity|].
  fold (release_all r (Container.release n s)). rewrite IH.
  - cbn [Container.release Container.handles].
    apply find_handle_remove_other. intros ->. apply Hn. now left.
  - intros H. apply Hn. now right.
Qed.

Lemma filter_twice (A : Type) (P Q : A -> bool) (l : list A) :
  filter P (filter Q l) = filter (fun x => Q x && P x) l.
Proof.
  induction l as [|a r IH]; cbn [filter]; [reflexivity|].
  destruct (Q a); cbn [andb filter]; [|exact IH].
  destruct (P a); now rewrite IH.
Qed.

Lemma filter_none (A : Type) (P : A -> bool) (l : list A) :
  (forall x, In x l -> P x = false) -> filter P l = [].
Proof.
  induction l as [|a r IH]; cbn [filter]; intros H; [reflexivity|].
  rewrite (H a (or_introl eq_refl)). apply IH. intros x Hx. apply H.
  now right.
Qed.

Lemma handles_release_all (ids : list hid_t) :
  forall s : Container.t,
    Container.handles (release_all ids s)
    = filter (fun e => negb (existsb (Z.eqb (fst e)) ids))
        (Container.handles s).
Proof.
  induction ids as [|n r IH]; intros s; cbn [release_all fold_left].
  - cbn [existsb negb]. symmetry. apply forallb_filter_id.
    now apply forallb_forall.
  - fold (release_all r (Container.release n s)). rewrite IH.
    cbn [Container.release Container.handles].
    unfold Container.remove_handle.
    rewrite filter_twice. apply filter_ext. intros e.
    cbn [existsb]. now rewrite negb_orb.
Qed.

Lemma find_handle_NoDup (hs : list (hid_t * Container.handle)) (id : hid_t)
  (h : Container.handle) :
  NoDup (map fst hs) -> In (id, h) hs ->
  Container.find_handle id hs = Some h.
Proof.
  induction hs as [|[i h'] r IH]; cbn [map fst Container.find_handle];
    [intros _ []|].
  intros Hnd [E|Hin].
  - injection E as -> ->. now rewrite Z.eqb_refl.
  - apply NoDup_cons_iff in Hnd. destruct Hnd as [Hni Hnd].
    destruct (Z.eqb_spec i id) as [->|_]; [|now apply IH].
    exfalso. apply Hni. apply in_map_iff. now exists (id, h).
Qed.

Lemma NoDup_map_filter (A B : Type) (g : A -> B) (P : A -> bool)
  (l : list A) :
  NoDup (map g l) -> NoDup (map g (filter P l)).
Proof.
  induction l as [|a r IH]; cbn [map filter]; [trivial|].
  intros H. apply NoDup_cons_iff in H. destruct H as [Hn Hr].
  destruct (P a); [|now apply IH].
  cbn [map]. constructor; [|now apply IH].
  intros Hin. apply Hn. apply in_map_iff in Hin.
  destruct Hin as (a' & E & Hin'). apply filter_In in Hin'.
  apply in_map_iff. exists a'. tauto.
Qed.

Lemma counted_swept (f : str) (e : hid_t * Container.handle) :
  Container.counted f closeFile_types e = true -> swept (snd e) = true.
Proof.
  unfold Container.counted. destruct e as [id h]. cbn [snd].
  destruct h as [f' lo hi|t f' p|l a|lo hi]; cbn [Container.handle_file];
    try discriminate; try reflexivity.
  - destruct (str_eqb f' f); cbn; discriminate.
  - destruct (str_eqb f' f); [|discriminate].
    destruct t; cbn; (discriminate || reflexivity).
Qed.

Lemma counted_local (f : str) (e : hid_t * Container.handle) :
  Container.counted f (Z.lor closeFile_types H5F_OBJ_LOCAL) e
  = Container.counted f closeFile_types e.
Proof.
  unfold Container.counted. destruct e as [id h]. cbn [snd].
  destruct (Container.handle_file h) as [f'|]; [|reflexivity].
  destruct (str_eqb f' f); [|reflexivity]. cbn [andb].
  destruct h as [f1 lo hi|t f1 p|l a|lo hi]; try reflexivity.
  destruct t; reflexivity.
Qed.

(** [closeHDF5Object] on an open, named handle of a swept kind closes
    it. *)
Lemma closeHDF5Object_closes (s : Container.t) (id : hid_t)
  (h : Container.handle) :
  0 <= id ->
  Container.find_handle id (Container.handles s) = Some h ->
  swept h = true ->
  Container.handle_name h <> None ->
  exists t,
    run Container.h5 (closeHDF5Object id) s
    = (Ok 0, Container.release id s, t).
Proof.
  intros Hid Hf Hsw Hname. unfold closeHDF5Object.
  destruct (Z.ltb_spec id 0); [lia|].
  destruct (Container.handle_name h) as [nm|] eqn:En; [|congruence].
  cbn [call bind run answer Container.h5 Container.respond].
  rewrite Hf, En. cbn [Container.name_answer].
  pose proof (size_nonneg nm). fold (size nm).
  destruct (Z.ltb_spec (size nm) 0); [lia|].
  destruct h as [f' lo hi|t f' p|l a|lo hi]; try discriminate Hsw.
  - destruct t; try discriminate Hsw;
      cbn [Container.handle_type call bind run answer Container.h5
           Container.respond];
      unfold Container.close_if; rewrite Hf; cbn [Container.is_object];
      now eexists.
  - cbn [Container.handle_type call bind run answer Container.h5
         Container.respond].
    unfold Container.close_if. rewrite Hf. now eexists.
Qed.

(** The sweep over distinct identifiers of open, named handles of the
    swept kinds releases them all. *)
Lemma closeFile_sweep_closes (ids : list hid_t) :
  forall (s : Container.t) (name : Buffer.t),
    (0 < length name)%nat ->
    NoDup ids ->
    (forall id, In id ids ->
       0 <= id /\
       exists h, Container.find_handle id (Container.handles s) = Some h /\
                 swept h = true /\ Container.handle_name h <> None) ->
    exists t,
      run Container.h5 (closeFile_sweep ids name) s
      = (Ok None, release_all ids s, t).
Proof.
  induction ids as [|id rest IH]; intros s name Hlen Hnd Hall.
  - now exists [].
  - destruct (Hall id (or_introl eq_refl)) as (Hid & h & Hf & Hsw & Hname).
    apply NoDup_cons_iff in Hnd. destruct Hnd as [Hni Hnd].
    cbn [closeFile_sweep]. rewrite run_bind.
    cbn [call run answer Container.h5 Container.respond].
    rewrite Hf.
    destruct (Container.handle_name h) as [nm|] eqn:En; [|congruence].
    cbn [Container.name_answer]. pose proof (size_nonneg nm).
    fold (size nm). destruct (Z.ltb_spec (size nm) 0); [lia|].
    destruct (read_fetched nm (Buffer.fill0 name)) as (leaked & ->);
      [now rewrite fill0_length|].
    cbn [lift cout bind run app]. rewrite run_bind.
    destruct (closeHDF5Object_closes s id h Hid Hf Hsw) as (t1 & ->);
      [congruence|].
    destruct (IH (Container.release id s)
                (Buffer.store
                   (Container.write_name
                      (Z.of_nat (length (Buffer.fill0 name))) nm)
                   (Buffer.fill0 name))) as (t2 & ->).
    + now rewrite store_length, fill0_length.
    + exact Hnd.
    + intros id' Hin.
      destruct (Hall id' (or_intror Hin)) as (Hid' & h' & Hf' & Hrest).
      split; [exact Hid'|]. exists h'. split; [|exact Hrest].
      cbn [Container.release Container.handles].
      rewrite find_handle_remove_other; [exact Hf'|].
      intros ->. contradiction.
    + now eexists.
Qed.

Lemma store_all (A : Type) (w : list A) (z : A) :
  Buffer.store w (repeat z (length w)) = w.
Proof.
  unfold Buffer.store. rewrite repeat_length, firstn_all, skipn_all2.
  - apply app_nil_r.
  - now rewrite repeat_length.
Qed.

(** In the container: when every handle left open on the file has a name
    the library resolves, [closeFile] closes them all, closes the file and
    returns 0; no identifier of the swept kinds stays open on the file. *)
Lemma closeFile_closes_descendants (s : Container.t) (fileID : hid_t)
  (f : str) (low high : H5F_libver_t) :
  0 <= fileID ->
  NoDup (map fst (Container.handles s)) ->
  Container.find_handle fileID (Container.handles s)
  = Some (Container.HFile f low high) ->
  (forall e, In e (Container.handles s) ->
     Container.counted f closeFile_types e = true ->
     0 <= fst e /\ Container.handle_name (snd e) <> None) ->
  exists s' t,
    run Container.h5 (closeFile fileID) s = (Ok (0, -1), s', t) /\
    s' = Container.release fileID
           (release_all (Container.open_ids s f closeFile_types) s) /\
    Container.open_ids s' f closeFile_types = [].
Proof.
  intros Hid Hnd Hfile Hnamed.
  set (ids := Container.open_ids s f closeFile_types).
  assert (Hids : forall id, In id ids ->
            0 <= id /\
            exists h, Container.find_handle id (Container.handles s) = Some h /\
                      swept h = true /\ Container.handle_name h <> None).
  { intros id Hin. unfold ids, Container.open_ids in Hin.
    apply in_map_iff in Hin. destruct Hin as ([id' h] & E & Hin).
    cbn in E. subst id'. apply filter_In in Hin. destruct Hin as [Hin Hc].
    destruct (Hnamed _ Hin Hc) as [H0 Hn]. split; [exact H0|].
    exists h. split; [now apply find_handle_NoDup|].
    split; [exact (counted_swept f _ Hc)|exact Hn]. }
  assert (Hnd' : NoDup ids)
    by (unfold ids, Container.open_ids; now apply NoDup_map_filter).
  assert (Hfid : ~ In fileID ids).
  { intros Hin. destruct (Hids _ Hin) as (_ & h & Hf & Hsw & _).
    rewrite Hfile in Hf. injection Hf as <-. discriminate Hsw. }
  assert (Hlocal : Container.open_ids s f
                     (Z.lor closeFile_types H5F_OBJ_LOCAL) = ids).
  { unfold ids, Container.open_ids. f_equal. apply filter_ext.
    intros e. apply counted_local. }
  assert (Hclose : forall s1,
            s1 = release_all ids s ->
            Container.respond _ (H5Fclose fileID) s1
            = (0, Container.release fileID s1)).
  { intros s1 ->. cbn [Container.respond]. unfold Container.close_if.
    rewrite (find_handle_release_all ids s fileID Hfid), Hfile.
    reflexivity. }
  assert (Hpost : Container.open_ids
                    (Container.release fileID (release_all ids s)) f
                    closeFile_types = []).
  { unfold Container.open_ids.
    cbn [Container.release Container.handles].
    rewrite handles_release_all. unfold Container.remove_handle.
    rewrite !filter_twice.
    match goal with
    | |- map fst (filter ?P ?l) = [] =>
        assert (E : filter P l = []); [|now rewrite E]
    end.
    apply filter_none. intros e Hin.
    destruct (Container.counted f closeFile_types e) eqn:Ec;
      [|now rewrite !andb_false_r].
    assert (Hine : In (fst e) ids).
    { unfold ids, Container.open_ids. apply in_map. apply filter_In.
      now split. }
    assert (Hex : existsb (Z.eqb (fst e)) ids = true).
    { apply existsb_exists. exists (fst e). split; [exact Hine|].
      apply Z.eqb_refl. }
    rewrite Hex. reflexivity. }
  unfold closeFile. destruct (Z.ltb_spec fileID 0); [lia|].
  rewrite run_bind.
  cbn [call run answer Container.h5 Container.respond].
  rewrite Hfile, Hlocal. cbn [app]. rewrite run_bind.
  destruct (Z.ltb_spec 0 (Z.of_nat (length ids))) as [Hpos|Hzero].
  - cbn [cout call bind run answer Container.h5 Container.respond].
    rewrite Hfile. fold ids. rewrite Nat2Z.id, firstn_all, store_all.
    destruct (closeFile_sweep_closes ids s (Buffer.make 1024)
                ltac:(rewrite make_length; lia) Hnd' Hids)
      as (t1 & ->).
    cbn [call bind run answer Container.h5].
    rewrite (Hclose _ eq_refl). cbn [Z.ltb Z.compare bind run].
    eexists _, _. split; [reflexivity|]. split; [reflexivity|exact Hpost].
  - assert (E : ids = []) by (apply length_zero_iff_nil; lia).
    cbn [run]. cbn [call bind run answer Container.h5].
    rewrite (Hclose s) by (rewrite E; reflexivity).
    cbn [Z.ltb Z.compare bind run].
    eexists _, _. split; [reflexivity|].
    rewrite E in Hpost |- *. split; [reflexivity|exact Hpost].
Qed.

(** *** The sweep, step by step, for every gateway *)

Lemma fill0_1024 (name : Buffer.t) :
  length name = 1024%nat -> Buffer.fill0 name = Buffer.make 1024.
Proof.
  intros H. unfold Buffer.fill0, Buffer.make. now rewrite H.
Qed.

(** When every name resolves, the sweep goes through the whole list. *)
Lemma closeFile_sweep_all (g : gateway) (ids : list hid_t)
  (s s' : state g) (t : list event) :
  leaks_swept g ids s s' t ->
  forall name : Buffer.t,
    length name = 1024%nat ->
    run g (closeFile_sweep ids name) s = (Ok None, s', t).
Proof.
  induction 1 as [s|id rest s s1 s2 t1 t2 Hone Hrest IH]; intros name Hlen;
    [reflexivity|].
  destruct Hone as [c w sa leaked err t Hans Hc Hread Hclose].
  cbn [closeFile_sweep]. rewrite run_bind. cbn [call run].
  rewrite fill0_length, Hlen. change (Z.of_nat 1024) with 1024.
  rewrite Hans. destruct (Z.ltb_spec c 0); [lia|].
  rewrite (fill0_1024 name Hlen), Hread.
  cbn [lift bind cout run app]. rewrite run_bind, Hclose.
  rewrite IH by (now rewrite store_length).
  reflexivity.
Qed.

(** When the name of [id] does not resolve, the sweep ends there: it
    reports the failure and hands back -1; the identifiers after [id] are
    not looked at. *)
Lemma closeFile_sweep_stops (g : gateway) (done : list hid_t)
  (s s1 : state g) (t : list event) :
  leaks_swept g done s s1 t ->
  forall (id : hid_t) (rest : list hid_t) (name : Buffer.t) (c : ssize_t)
         (w : list ascii) (s2 : state g),
    length name = 1024%nat ->
    answer g _ (H5Iget_name id 1024) s1 = ((c, w), s2) ->
    c < 0 ->
    run g (closeFile_sweep (done ++ id :: rest) name) s
    = (Ok (Some (-1)), s2,
       t ++ [Called (H5Iget_name id 1024) (c, w); Printed ErrGetName]).
Proof.
  induction 1 as [s|id0 rest0 s sa sb t1 t2 Hone Hrest IH];
    intros id rest name c w s2 Hlen Hans Hc.
  - cbn [app closeFile_sweep]. rewrite run_bind. cbn [call run].
    rewrite fill0_length, Hlen. change (Z.of_nat 1024) with 1024.
    rewrite Hans. destruct (Z.ltb_spec c 0); [reflexivity|lia].
  - destruct Hone as [c0 w0 sc leaked err t Hans0 Hc0 Hread Hclose].
    cbn [app closeFile_sweep]. rewrite run_bind. cbn [call run].
    rewrite fill0_length, Hlen. change (Z.of_nat 1024) with 1024.
    rewrite Hans0. destruct (Z.ltb_spec c0 0); [lia|].
    rewrite (fill0_1024 name Hlen), Hread.
    cbn [lift bind cout run app]. rewrite run_bind, Hclose.
    rewrite (IH id rest _ c w s2)
      by (rewrite ?store_length; first [reflexivity|assumption]).
    cbn [app]. now rewrite <- !app_assoc.
Qed.

(** When the name of [id] resolves but the buffer is left without a
    terminator, the report of the name reads past the buffer: the run
    ends there, undefined. *)
Lemma closeFile_sweep_unterminated (g : gateway) (done : list hid_t)
  (s s1 : state g) (t : list event) :
  leaks_swept g done s s1 t ->
  forall (id : hid_t) (rest : list hid_t) (name : Buffer.t) (c : ssize_t)
         (w : list ascii) (s2 : state g),
    length name = 1024%nat ->
    answer g _ (H5Iget_name id 1024) s1 = ((c, w), s2) ->
    0 <= c ->
    Buffer.terminated (Buffer.store w (Buffer.make 1024)) = false ->
    run g (closeFile_sweep (done ++ id :: rest) name) s
    = (Raise undefined, s2, t ++ [Called (H5Iget_name id 1024) (c, w)]).
Proof.
  induction 1 as [s|id0 rest0 s sa sb t1 t2 Hone Hrest IH];
    intros id rest name c w s2 Hlen Hans Hc Hterm.
  - cbn [app closeFile_sweep]. rewrite run_bind. cbn [call run].
    rewrite fill0_length, Hlen. change (Z.of_nat 1024) with 1024.
    rewrite Hans. destruct (Z.ltb_spec c 0); [lia|].
    rewrite (fill0_1024 name Hlen). unfold Buffer.read. rewrite Hterm.
    reflexivity.
  - destruct Hone as [c0 w0 sc leaked err t Hans0 Hc0 Hread Hclose].
    cbn [app closeFile_sweep]. rewrite run_bind. cbn [call run].
    rewrite fill0_length, Hlen. change (Z.of_nat 1024) with 1024.
    rewrite Hans0. destruct (Z.ltb_spec c0 0); [lia|].
    rewrite (fill0_1024 name Hlen), Hread.
    cbn [lift bind cout run app]. rewrite run_bind, Hclose.
    rewrite (IH id rest _ c w s2)
      by (rewrite ?store_length; first [reflexivity|assumption]).
    cbn [app]. now rewrite <- !app_assoc.
Qed.

(** One of the three is always the case: every identifier is swept, or
    the sweep comes to an identifier whose name does not resolve, or to
    one whose name is left in the buffer without a terminator. *)
Lemma leaks_swept_or_unnamed (g : gateway) (ids : list hid_t) :
  forall s : state g,
    (exists s' t, leaks_swept g ids s s' t) \/
    (exists done id rest s1 t c w s2,
        ids = done ++ id :: rest /\
        leaks_swept g done s s1 t /\
        answer g _ (H5Iget_name id 1024) s1 = ((c, w), s2) /\
        (c < 0 \/
         Buffer.terminated (Buffer.store w (Buffer.make 1024)) = false)).
Proof.
  induction ids as [|id rest IH]; intros s.
  - left. eexists _, _. constructor.
  - destruct (answer g _ (H5Iget_name id 1024) s) as [[c w] s1] eqn:Hans.
    destruct (Z.lt_ge_cases c 0) as [Hc|Hc].
    + right. exists [], id, rest, s, [], c, w, s1.
      repeat split; try assumption; [constructor|now left].
    + destruct (Buffer.terminated (Buffer.store w (Buffer.make 1024)))
        eqn:Hterm.
      * assert (Hread : Buffer.read (Buffer.store w (Buffer.make 1024))
                        = Ok (Buffer.c_str
                                (Buffer.store w (Buffer.make 1024))))
          by (unfold Buffer.read; now rewrite Hterm).
        destruct (closeHDF5Object_returns g s1 id)
          as (err & s2 & t1 & Hclose).
        pose proof (leak_swept_intro g id s s2 c w s1 _ err t1 Hans Hc
                      Hread Hclose) as Hone.
        destruct (IH s2) as [(s' & t & Hall)
                            |(done & id' & rest' & sa & t & c' & w' & sb &
                              -> & Hdone & Hans' & Hc')].
        -- left. eexists _, _. econstructor; eassumption.
        -- right. exists (id :: done), id', rest', sa. eexists _, c', w', sb.
           repeat split; try assumption.
           econstructor; eassumption.
      * right. exists [], id, rest, s, [], c, w, s1.
        repeat split; try assumption; [constructor|now right].
Qed.

(** [closeFile] on a valid identifier, for every gateway.  [numOpen] is the
    answer to the count of identifiers left open. *)
Lemma closeFile_run (g : gateway) (s s1 : state g) (fileID : hid_t)
  (numOpen : ssize_t) :
  0 <= fileID ->
  answer g _ (H5Fget_obj_count fileID (Z.lor closeFile_types H5F_OBJ_LOCAL))
    s = (numOpen, s1) ->
  let counted :=
    Called (H5Fget_obj_count fileID (Z.lor closeFile_types H5F_OBJ_LOCAL))
      numOpen in
  let closed (err : herr_t) :=
    Called (H5Fclose fileID) err
    :: (if err <? 0 then [Printed (ErrClosingFile err)] else []) in
  (numOpen <= 0 ->
   forall (err : herr_t) (s2 : state g),
     answer g _ (H5Fclose fileID) s1 = (err, s2) ->
     run g (closeFile fileID) s = (Ok (err, -1), s2, counted :: closed err)) /\
  (0 < numOpen ->
   forall (n : ssize_t) (w : list hid_t) (s2 : state g),
     answer g _ (H5Fget_obj_ids fileID closeFile_types numOpen) s1
     = ((n, w), s2) ->
     let ids := Buffer.store w (repeat 0 (Z.to_nat numOpen)) in
     let listed :=
       [counted; Printed WarnIdsNotClosed;
        Called (H5Fget_obj_ids fileID closeFile_types numOpen) (n, w)] in
     (forall (s3 s4 : state g) (t : list event) (err : herr_t),
         leaks_swept g ids s2 s3 t ->
         answer g _ (H5Fclose fileID) s3 = (err, s4) ->
         run g (closeFile fileID) s
         = (Ok (err, -1), s4, listed ++ t ++ closed err)) /\
     (forall (done : list hid_t) (id : hid_t) (rest : list hid_t)
             (s3 s4 : state g) (t : list event) (c : ssize_t)
             (wn : list ascii),
         ids = done ++ id :: rest ->
         leaks_swept g done s2 s3 t ->
         answer g _ (H5Iget_name id 1024) s3 = ((c, wn), s4) ->
         c < 0 ->
         run g (closeFile fileID) s
         = (Ok (-1, fileID), s4,
            listed ++ t ++ [Called (H5Iget_name id 1024) (c, wn);
                            Printed ErrGetName])) /\
     (forall (done : list hid_t) (id : hid_t) (rest : list hid_t)
             (s3 s4 : state g) (t : list event) (c : ssize_t)
             (wn : list ascii),
         ids = done ++ id :: rest ->
         leaks_swept g done s2 s3 t ->
         answer g _ (H5Iget_name id 1024) s3 = ((c, wn), s4) ->
         0 <= c ->
         Buffer.terminated (Buffer.store wn (Buffer.make 1024)) = false ->
         run g (closeFile fileID) s
         = (Raise undefined, s4,
            listed ++ t ++ [Called (H5Iget_name id 1024) (c, wn)])) /\
     ((exists s3 t, leaks_swept g ids s2 s3 t) \/
      (exists done id rest s3 t c wn s4,
          ids = done ++ id :: rest /\
          leaks_swept g done s2 s3 t /\
          answer g _ (H5Iget_name id 1024) s3 = ((c, wn), s4) /\
          (c < 0 \/
           Buffer.terminated (Buffer.store wn (Buffer.make 1024))
           = false)))).
Proof.
  intros Hid Hcount counted closed. split.
  - intros Hnone err s2 Hclose. unfold closeFile.
    destruct (Z.ltb_spec fileID 0); [lia|].
    cbn [call bind run]. rewrite Hcount.
    destruct (Z.ltb_spec 0 numOpen); [lia|].
    cbn [call bind run]. rewrite Hclose.
    unfold closed. now destruct (err <? 0).
  - intros Hsome n w s2 Hids ids listed.
    assert (Hlen : length (Buffer.make 1024) = 1024%nat) by reflexivity.
    split; [|split; [|split]].
    + intros s3 s4 t err Hall Hclose. unfold closeFile.
      destruct (Z.ltb_spec fileID 0); [lia|].
      rewrite run_bind. cbn [call run]. rewrite Hcount.
      destruct (Z.ltb_spec 0 numOpen); [|lia].
      rewrite run_bind. cbn [cout call bind run]. rewrite Hids.
      fold ids. rewrite (closeFile_sweep_all g ids s2 s3 t Hall _ Hlen).
      cbn [call bind run]. rewrite Hclose.
      unfold listed, closed, counted.
      destruct (err <? 0); cbn [cout bind run app];
        now rewrite ?app_nil_r.
    + intros done id rest s3 s4 t c wn Hsplit Hdone Hans Hc.
      unfold closeFile.
      destruct (Z.ltb_spec fileID 0); [lia|].
      rewrite run_bind. cbn [call run]. rewrite Hcount.
      destruct (Z.ltb_spec 0 numOpen); [|lia].
      rewrite run_bind. cbn [cout call bind run]. rewrite Hids.
      fold ids. rewrite Hsplit.
      rewrite (closeFile_sweep_stops g done s2 s3 t Hdone id rest _ c wn s4
                 Hlen Hans Hc).
      cbn [run]. unfold listed, counted. cbn [app].
      now rewrite ?app_nil_r.
    + intros done id rest s3 s4 t c wn Hsplit Hdone Hans Hc Hterm.
      unfold closeFile.
      destruct (Z.ltb_spec fileID 0); [lia|].
      rewrite run_bind. cbn [call run]. rewrite Hcount.
      destruct (Z.ltb_spec 0 numOpen); [|lia].
      rewrite run_bind. cbn [cout call bind run]. rewrite Hids.
      fold ids. rewrite Hsplit.
      rewrite (closeFile_sweep_unterminated g done s2 s3 t Hdone id rest _
                 c wn s4 Hlen Hans Hc Hterm).
      unfold listed, counted. cbn [app]. reflexivity.
    + apply leaks_swept_or_unnamed.
Qed.

(** C1, as the code has it.
    Whatever the gateway answers, [closeFile] on a valid identifier asks
    how many identifiers are left open on the file.  If there are none it
    closes the file.  Otherwise it asks for them and goes through them in
    order: for each it fetches the name, reports the identifier and runs
    [closeHDF5Object] on it, whose status it drops ([leaks_swept]).
    - When every name resolves, [closeHDF5Object] has been run on every
      identifier of the list, [H5Fclose] is called on the file, its status
      is returned and the caller's identifier is set to -1.
    - When the name of an identifier does not resolve, the run ends with
      that call and the report of it: -1 is returned, the caller's
      identifier is left as it was, and neither [closeHDF5Object] on the
      remaining identifiers nor [H5Fclose] on the file is called.
    - When the library leaves the buffer without a terminator, the
      report of the name reads past the buffer and nothing is defined
      from there on.
    One of the three is always the case.
    In the container, when every handle left open on the file has a name
    the library resolves, each close succeeds: every such handle is
    closed, then the file, the status is 0, and no group, dataset,
    datatype or attribute identifier stays open on the file. *)
Theorem closeFile_sweeps_then_closes :
  (forall (g : gateway) (s s1 : state g) (fileID : hid_t)
          (numOpen : ssize_t),
      0 <= fileID ->
      answer g _
        (H5Fget_obj_count fileID (Z.lor closeFile_types H5F_OBJ_LOCAL)) s
      = (numOpen, s1) ->
      let counted :=
        Called
          (H5Fget_obj_count fileID (Z.lor closeFile_types H5F_OBJ_LOCAL))
          numOpen in
      let closed (err : herr_t) :=
        Called (H5Fclose fileID) err
        :: (if err <? 0 then [Printed (ErrClosingFile err)] else []) in
      (numOpen <= 0 ->
       forall (err : herr_t) (s2 : state g),
         answer g _ (H5Fclose fileID) s1 = (err, s2) ->
         run g (closeFile fileID) s
         = (Ok (err, -1), s2, counted :: closed err)) /\
      (0 < numOpen ->
       forall (n : ssize_t) (w : list hid_t) (s2 : state g),
         answer g _ (H5Fget_obj_ids fileID closeFile_types numOpen) s1
         = ((n, w), s2) ->
         let ids := Buffer.store w (repeat 0 (Z.to_nat numOpen)) in
         let listed :=
           [counted; Printed WarnIdsNotClosed;
            Called (H5Fget_obj_ids fileID closeFile_types numOpen) (n, w)] in
         (forall (s3 s4 : state g) (t : list event) (err : herr_t),
             leaks_swept g ids s2 s3 t ->
             answer g _ (H5Fclose fileID) s3 = (err, s4) ->
             run g (closeFile fileID) s
             = (Ok (err, -1), s4, listed ++ t ++ closed err)) /\
         (forall (done : list hid_t) (id : hid_t) (rest : list hid_t)
                 (s3 s4 : state g) (t : list event) (c : ssize_t)
                 (wn : list ascii),
             ids = done ++ id :: rest ->
             leaks_swept g done s2 s3 t ->
             answer g _ (H5Iget_name id 1024) s3 = ((c, wn), s4) ->
             c < 0 ->
             run g (closeFile fileID) s
             = (Ok (-1, fileID), s4,
                listed ++ t ++ [Called (H5Iget_name id 1024) (c, wn);
                                Printed ErrGetName])) /\
         (forall (done : list hid_t) (id : hid_t) (rest : list hid_t)
                 (s3 s4 : state g) (t : list event) (c : ssize_t)
                 (wn : list ascii),
             ids = done ++ id :: rest ->
             leaks_swept g done s2 s3 t ->
             answer g _ (H5Iget_name id 1024) s3 = ((c, wn), s4) ->
             0 <= c ->
             Buffer.terminated (Buffer.store wn (Buffer.make 1024))
             = false ->
             run g (closeFile fileID) s
             = (Raise undefined, s4,
                listed ++ t ++ [Called (H5Iget_name id 1024) (c, wn)])) /\
         ((exists s3 t, leaks_swept g ids s2 s3 t) \/
          (exists done id rest s3 t c wn s4,
              ids = done ++ id :: rest /\
              leaks_swept g done s2 s3 t /\
              answer g _ (H5Iget_name id 1024) s3 = ((c, wn), s4) /\
              (c < 0 \/
               Buffer.terminated (Buffer.store wn (Buffer.make 1024))
               = false))))) /\
  (forall (s : Container.t) (fileID : hid_t) (f : str)
          (low high : H5F_libver_t),
      0 <= fileID ->
      NoDup (map fst (Container.handles s)) ->
      Container.find_handle fileID (Container.handles s)
      = Some (Container.HFile f low high) ->
      (forall e, In e (Container.handles s) ->
         Container.counted f closeFile_types e = true ->
         0 <= fst e /\ Container.handle_name (snd e) <> None) ->
      exists s' t,
        run Container.h5 (closeFile fileID) s = (Ok (0, -1), s', t) /\
        s' = Container.release fileID
               (release_all (Container.open_ids s f closeFile_types) s) /\
        Container.open_ids s' f closeFile_types = []).
Proof.
  split.
  - exact closeFile_run.
  - exact closeFile_closes_descendants.
Qed.

Lemma closeFile_sweeps_then_closes_witness :
  (0 <= 1 /\
   0 < 1 /\
   answer Container.h5 _
     (H5Fget_obj_count 1 (Z.lor closeFile_types H5F_OBJ_LOCAL))
     Samples.unnamed_leak
   = (1, Samples.unnamed_leak) /\
   answer Container.h5 _ (H5Fget_obj_ids 1 closeFile_types 1)
     Samples.unnamed_leak
   = ((1, [2]), Samples.unnamed_leak) /\
   Buffer.store [2] (repeat 0 (Z.to_nat 1)) = [] ++ 2 :: [] /\
   leaks_swept Container.h5 [] Samples.unnamed_leak Samples.unnamed_leak
     [] /\
   answer Container.h5 _ (H5Iget_name 2 1024) Samples.unnamed_leak
   = ((-1, []), Samples.unnamed_leak) /\
   -1 < 0 /\
   run Container.h5 (closeFile 1) Samples.unnamed_leak
   = (Ok (-1, 1), Samples.unnamed_leak,
      [Called (H5Fget_obj_count 1 (Z.lor closeFile_types H5F_OBJ_LOCAL)) 1;
       Printed WarnIdsNotClosed;
       Called (H5Fget_obj_ids 1 closeFile_types 1) (1, [2])]
      ++ [] ++ [Called (H5Iget_name 2 1024) (-1, []);
                Printed ErrGetName])) /\
  0 <= 1 /\
  NoDup (map fst (Container.handles Samples.leaks)) /\
  Container.find_handle 1 (Container.handles Samples.leaks)
  = Some (Container.HFile "data.h5" Container.default_low
            Container.default_high) /\
  (forall e, In e (Container.handles Samples.leaks) ->
     Container.counted "data.h5" closeFile_types e = true ->
     0 <= fst e /\ Container.handle_name (snd e) <> None) /\
  exists s' t,
    run Container.h5 (closeFile 1) Samples.leaks = (Ok (0, -1), s', t) /\
    s' = Container.release 1
           (release_all
              (Container.open_ids Samples.leaks "data.h5" closeFile_types)
              Samples.leaks) /\
    Container.open_ids s' "data.h5" closeFile_types = [].
Proof.
  assert (Hnd : NoDup (map fst (Container.handles Samples.leaks))).
  { cbn. repeat constructor; cbn; intuition discriminate. }
  assert (Hnamed : forall e, In e (Container.handles Samples.leaks) ->
            Container.counted "data.h5" closeFile_types e = true ->
            0 <= fst e /\ Container.handle_name (snd e) <> None).
  { intros e He _. cbn in He.
    destruct He as [<-|[<-|[<-|[<-|[]]]]]; (split; [cbn; lia|discriminate]). }
  assert (H0 : 0 <= 1) by lia.
  assert (H1 : 0 < 1) by lia.
  assert (Hneg : -1 < 0) by lia.
  assert (Hc : answer Container.h5 _
                 (H5Fget_obj_count 1 (Z.lor closeFile_types H5F_OBJ_LOCAL))
                 Samples.unnamed_leak
               = (1, Samples.unnamed_leak)) by reflexivity.
  assert (Hi : answer Container.h5 _ (H5Fget_obj_ids 1 closeFile_types 1)
                 Samples.unnamed_leak
               = ((1, [2]), Samples.unnamed_leak)) by reflexivity.
  assert (Hn : answer Container.h5 _ (H5Iget_name 2 1024)
                 Samples.unnamed_leak
               = ((-1, []), Samples.unnamed_leak)) by reflexivity.
  assert (Hs : leaks_swept Container.h5 [] Samples.unnamed_leak
                 Samples.unnamed_leak []) by constructor.
  split.
  - repeat (split; [first [assumption | reflexivity]|]).
    exact (proj1 (proj2 (proj2 (proj1 closeFile_sweeps_then_closes
             Container.h5 Samples.unnamed_leak Samples.unnamed_leak 1 1
             H0 Hc) H1 1 [2] Samples.unnamed_leak Hi))
             [] 2 [] Samples.unnamed_leak Samples.unnamed_leak [] (-1) []
             eq_refl Hs Hn Hneg).
  - split; [lia|]. split; [exact Hnd|]. split; [reflexivity|].
    split; [exact Hnamed|].
    apply (proj2 closeFile_sweeps_then_closes Samples.leaks 1 "data.h5"
             Container.default_low Container.default_high);
      [lia|exact Hnd|reflexivity|exact Hnamed].
Defined.

(** ** Further properties of the code

    Edge behaviour, round trips and what the functions never do, for the
    functions of the header taken one by one. *)

(** *** Path text: parent path and leaf name *)

(** X1: for a path that contains a separator, the parent path, a separator
    and the leaf name put together give the path back, and the leaf name
    holds no separator. *)
Theorem parent_and_leaf_rebuild_path (path : str) :
  size path < npos -> In slash path ->
  exists dir leaf,
    getParentPath path = Ok dir /\
    getObjectNameFromPath path = Ok leaf /\
    path = dir ++ slash :: leaf /\
    ~ In slash leaf.
Proof.
  intros Hsz Hin.
  destruct (last_separator path Hin) as (dir & leaf & -> & Hleaf).
  exists dir, leaf. split; [now apply getParentPath_split|].
  split; [now apply getObjectNameFromPath_split|]. now split.
Qed.

Lemma parent_and_leaf_rebuild_path_witness :
  exists dir leaf,
    getParentPath "/data/run1/image" = Ok dir /\
    getObjectNameFromPath "/data/run1/image" = Ok leaf /\
    ("/data/run1/image" : str) = dir ++ slash :: leaf /\
    ~ In slash leaf.
Proof.
  apply (parent_and_leaf_rebuild_path "/data/run1/image").
  - vm_compute. reflexivity.
  - vm_compute. tauto.
Defined.

Lemma leaf_of_plain (leaf : str) :
  ~ In slash leaf -> size leaf < npos ->
  getObjectNameFromPath leaf = Ok leaf /\ extractObjectName leaf = Ok leaf.
Proof.
  intros Hp Hs. split.
  - now apply getObjectNameFromPath_plain.
  - now apply extractObjectName_plain.
Qed.

(** X2: the two leaf-name utilities never raise.  What they return is a
    suffix of the path and is returned unchanged when passed in again;
    [getObjectNameFromPath] always returns a name without separator, and so
    does [extractObjectName] on every path but ["/"]. *)
Theorem leaf_names_total_and_stable (path : str) :
  size path < npos ->
  (exists leaf dir,
      getObjectNameFromPath path = Ok leaf /\
      path = dir ++ leaf /\
      ~ In slash leaf /\
      getObjectNameFromPath leaf = Ok leaf) /\
  (exists leaf dir,
      extractObjectName path = Ok leaf /\
      path = dir ++ leaf /\
      (path <> "/" -> ~ In slash leaf) /\
      extractObjectName leaf = Ok leaf).
Proof.
  intros Hsz.
  destruct (in_dec ascii_dec slash path) as [Hin|Hout].
  - destruct (last_separator path Hin) as (dir & leaf & E & Hleaf).
    assert (Hl : size leaf < npos).
    { rewrite E in Hsz. rewrite size_app in Hsz.
      pose proof (size_nonneg dir). unfold size in *. cbn [length] in Hsz.
      lia. }
    destruct (leaf_of_plain leaf Hleaf Hl) as [H1 H2].
    split.
    + exists leaf, (dir ++ [slash]). rewrite <- app_assoc. cbn [app].
      subst path. repeat split; try assumption.
      now apply getObjectNameFromPath_split.
    + destruct (list_eq_dec ascii_dec path "/") as [Hr|Hr].
      * rewrite Hr. exists ("/" : str), []. split; [reflexivity|].
        split; [reflexivity|]. split; [|reflexivity].
        intros H. now elim H.
      * exists leaf, (dir ++ [slash]). rewrite <- app_assoc. cbn [app].
        subst path. repeat split; try (intros; assumption).
        now apply extractObjectName_split.
  - destruct (leaf_of_plain path Hout Hsz) as [H1 H2].
    split; exists path, []; repeat split;
      first [assumption | reflexivity | intros; assumption].
Qed.

Lemma leaf_names_total_and_stable_witness :
  (exists leaf dir,
      getObjectNameFromPath "/" = Ok leaf /\
      ("/" : str) = dir ++ leaf /\
      ~ In slash leaf /\
      getObjectNameFromPath leaf = Ok leaf) /\
  (exists leaf dir,
      extractObjectName "/" = Ok leaf /\
      ("/" : str) = dir ++ leaf /\
      (("/" : str) <> "/" -> ~ In slash leaf) /\
      extractObjectName leaf = Ok leaf).
Proof.
  apply (leaf_names_total_and_stable "/"). vm_compute. reflexivity.
Defined.

(** *** Datatype class names *)

(** X3: [printHDFClassType] writes, for every class, the name that
    [HDFClassTypeAsStr] returns for the class's value. *)
Theorem printHDFClassType_writes_class_name (classType : H5T_class_t) :
  printHDFClassType classType
  = HDFClassTypeAsStr (H5T_class_value classType).
Proof. destruct classType; reflexivity. Qed.

Ltac class_cases x :=
  unfold HDFClassTypeAsStr, H5T_class_value;
  repeat match goal with
         | |- context [x =? ?k] => destruct (Z.eqb_spec x k)
         end.

(** X4: [HDFClassTypeAsStr] names the eleven classes by distinct names, and
    answers ["OTHER"] exactly for the values outside them. *)
Theorem HDFClassTypeAsStr_names_are_distinct (x y : hid_t) :
  (HDFClassTypeAsStr x = "OTHER" <-> x < 0 \/ 10 < x) /\
  (HDFClassTypeAsStr x = HDFClassTypeAsStr y ->
   x = y \/ ((x < 0 \/ 10 < x) /\ (y < 0 \/ 10 < y))).
Proof.
  split.
  - class_cases x; split; intros H; try discriminate H; try lia;
      reflexivity.
  - class_cases x; class_cases y; intros H; try discriminate H;
      try (left; lia); right; lia.
Qed.

(** *** What the functions call, whatever the library answers *)

Lemma getGroupObjects_loop_queries (g : gateway) (locationID : hid_t)
  (typeFilter : CustomHDFDataTypes.t) (n : nat) :
  forall (i : hsize_t) (name : Buffer.t) (error : herr_t) (names : list str)
         (s : state g),
    forallb is_query
      (snd (run g (getGroupObjects_loop n locationID typeFilter i name error
                     names) s)) = true.
Proof.
  induction n as [|n IH]; intros i name error names s; [reflexivity|].
  cbn [getGroupObjects_loop call bind run].
  destruct (answer g _ _ s) as [[r w0] s1].
  cbn [bind run].
  destruct (answer g _ _ s1) as [[r1 w1] s2].
  destruct (Buffer.read _) as [child|e]; [|now destruct (typeFilter =? _)].
  destruct (typeFilter =? CustomHDFDataTypes.Any); cbn [lift bind run].
  - match goal with
    | |- context [run g (getGroupObjects_loop n ?a ?b ?c ?d ?e ?f) ?st] =>
        specialize (IH c d e f st);
        destruct (run g (getGroupObjects_loop n a b c d e f) st)
          as [[r' s'] t]
    end.
    exact IH.
  - destruct (answer g _ _ s2) as [[e1 info] s3].
    destruct (0 <=? e1); [destruct (type_selected typeFilter (type info))|];
      cbn [lift bind run];
      match goal with
      | |- context [run g (getGroupObjects_loop n ?a ?b ?c ?d ?e ?f) ?st] =>
          specialize (IH c d e f st);
          destruct (run g (getGroupObjects_loop n a b c d e f) st)
            as [[r' s'] t]
      end; exact IH.
Qed.

(** X5: the query functions make only reading calls, whatever the library
    answers: [getObjectType], [isGroup], [objectExists],
    [objectNameAtIndex], [getObjectPath] and [getGroupObjects] never open,
    create or close anything. *)
Theorem queries_only_read (g : gateway) (s : state g) (id : hid_t)
  (name : str) :
  (forall ty,
      forallb is_query (snd (run g (getObjectType id name ty) s)) = true) /\
  forallb is_query (snd (run g (isGroup id name) s)) = true /\
  forallb is_query (snd (run g (objectExists id name) s)) = true /\
  (forall index,
      forallb is_query (snd (run g (objectNameAtIndex id index name) s))
      = true) /\
  (forall trim,
      forallb is_query (snd (run g (getObjectPath id trim) s)) = true) /\
  (forall typeFilter names,
      forallb is_query (snd (run g (getGroupObjects id typeFilter names) s))
      = true).
Proof.
  repeat split.
  - intros ty. unfold getObjectType. cbn [call bind run].
    destruct (answer g _ _ s) as [[e info] s1].
    now destruct (e <? 0).
  - unfold isGroup. cbn [call bind run].
    destruct (answer g _ _ s) as [[e info] s1].
    destruct (e <? 0); [reflexivity|]. now destruct (type info).
  - unfold objectExists. cbn [call bind run].
    now destruct (answer g _ _ s) as [e s1].
  - intros index. unfold objectNameAtIndex. cbn [call bind run].
    destruct (answer g _ _ s) as [[n w] s1].
    destruct (n <? 0); [reflexivity|]. cbn [bind run].
    destruct (answer g _ _ s1) as [[e w1] s2].
    destruct (e <? 0); [reflexivity|].
    now destruct (Buffer.read _).
  - intros trim. unfold getObjectPath. cbn [call bind run].
    destruct (answer g _ _ s) as [[r w] s1]. cbn [bind run].
    destruct (answer g _ _ s1) as [[r1 w1] s2].
    destruct (Buffer.read _) as [objectPath|e]; [|reflexivity].
    cbn [lift bind].
    destruct (negb _); [|reflexivity].
    destruct (at_ _ 0) as [c|e]; [|reflexivity]. cbn [lift bind].
    destruct (Ascii.eqb c slash); [|reflexivity].
    now destruct (erase _ 0 1).
  - intros typeFilter names. unfold getGroupObjects. cbn [call bind run].
    destruct (answer g _ _ s) as [[e info] s1].
    destruct (e <? 0); [reflexivity|].
    destruct (to_size_t (nlinks info) <=? 0); [reflexivity|].
    pose proof (getGroupObjects_loop_queries g id typeFilter
                  (Z.to_nat (to_size_t (nlinks info))) 0 [] e names s1) as H.
    destruct (run g (getGroupObjects_loop _ id typeFilter 0 [] e names) s1)
      as [[r' s'] t].
    exact H.
Qed.





(** X7: when the library cannot give the identifier's name,
    [closeHDF5Object] reports the failure, returns -1 and closes nothing;
    and for an identifier that is none of file, group, dataset, attribute,
    datatype and dataspace (here: a property list or an invalid one) it
    returns -1 without calling a close function. *)
Theorem closeHDF5Object_closes_nothing (g : gateway) (s s1 s2 : state g)
  (objectID : hid_t) (ty : H5I_type_t) (charsRead : ssize_t)
  (w : list ascii) :
  0 <= objectID ->
  answer g _ (H5Iget_type objectID) s = (ty, s1) ->
  answer g _ (H5Iget_name objectID 1024) s1 = ((charsRead, w), s2) ->
  (charsRead < 0 ->
   run g (closeHDF5Object objectID) s
   = (Ok (-1), s2,
      [Called (H5Iget_type objectID) ty;
       Called (H5Iget_name objectID 1024) (charsRead, w);
       Printed ErrGetName])) /\
  (0 <= charsRead -> ty = H5I_GENPROP_LST \/ ty = H5I_BADID ->
   run g (closeHDF5Object objectID) s
   = (Ok (-1), s2,
      [Called (H5Iget_type objectID) ty;
       Called (H5Iget_name objectID 1024) (charsRead, w)])).
Proof.
  intros Hid Hty Hname. unfold closeHDF5Object.
  destruct (Z.ltb_spec objectID 0); [lia|].
  cbn [call bind run]. rewrite Hty. cbn [bind run]. rewrite Hname.
  split.
  - intros Hc. destruct (Z.ltb_spec charsRead 0); [reflexivity|lia].
  - intros Hc Hk. destruct (Z.ltb_spec charsRead 0); [lia|].
    now destruct Hk as [-> | ->].
Qed.

Lemma closeHDF5Object_closes_nothing_witness :
  run Container.h5 (closeHDF5Object 2) Samples.unnamed_leak
  = (Ok (-1), Samples.unnamed_leak,
     [Called (H5Iget_type 2) H5I_GROUP;
      Called (H5Iget_name 2 1024) (-1, []);
      Printed ErrGetName]).
Proof.
  apply (proj1 (closeHDF5Object_closes_nothing Container.h5
                  Samples.unnamed_leak Samples.unnamed_leak
                  Samples.unnamed_leak 2 H5I_GROUP (-1) []
                  ltac:(lia) eq_refl eq_refl)).
  lia.
Defined.

(** X8: [getObjectPath] on an identifier without a path.  When the
    library gives the identifier a name of length zero (an object that
    has none), [getObjectPath] raises [std::out_of_range]: the empty path
    is not ["/"], and its first character is read.  When the size query
    fails with -1, the vector is made with size 0 and the path is read
    from the data of an empty vector, which is undefined. *)
Theorem getObjectPath_without_name (g : gateway) (s s1 s2 : state g)
  (locationID : hid_t) (trim : bool) (r0 r1 : ssize_t)
  (w0 w1 : list ascii) :
  answer g _ (H5Iget_name locationID 0) s = ((r0, w0), s1) ->
  answer g _ (H5Iget_name locationID (r0 + 1)) s1 = ((r1, w1), s2) ->
  (r0 = 0 -> Buffer.c_str (firstn 1 w1) = [] ->
   run g (getObjectPath locationID trim) s
   = (Raise out_of_range, s2,
      [Called (H5Iget_name locationID 0) (0, w0);
       Called (H5Iget_name locationID 1) (r1, w1)])) /\
  (r0 = -1 ->
   run g (getObjectPath locationID trim) s
   = (Raise undefined, s2,
      [Called (H5Iget_name locationID 0) (-1, w0);
       Called (H5Iget_name locationID 0) (r1, w1)])).
Proof.
  intros H0 H1. split.
  - intros -> Hw. unfold getObjectPath.
    cbn [call bind run]. rewrite H0. cbn [bind run].
    change (to_size_t (1 + 0)) with 1. change (0 + 1) with 1 in H1.
    rewrite H1.
    assert (E : Buffer.read (Buffer.store w1 (Buffer.make 1)) = Ok []).
    { change (Buffer.make 1) with [zero]. unfold Buffer.store.
      cbn [length]. destruct w1 as [|c r]; [reflexivity|].
      cbn [firstn length skipn app Buffer.c_str] in *.
      unfold Buffer.read, Buffer.terminated. cbn [existsb Buffer.c_str].
      destruct (Ascii.eqb c zero); [reflexivity|discriminate Hw]. }
    rewrite E. reflexivity.
  - intros ->. unfold getObjectPath.
    cbn [call bind run]. rewrite H0. cbn [bind run].
    change (to_size_t (1 + -1)) with 0. change (-1 + 1) with 0 in H1.
    rewrite H1.
    assert (E : Buffer.store w1 (Buffer.make 0) = []).
    { unfold Buffer.store. change (Buffer.make 0) with (@nil ascii).
      cbn [length firstn app]. apply skipn_nil. }
    rewrite E. reflexivity.
Qed.

Lemma getObjectPath_without_name_witness :
  run unnamed (getObjectPath 7 false) tt
  = (Raise out_of_range, tt,
     [Called (H5Iget_name 7 0) (0, []);
      Called (H5Iget_name 7 1) (0, [zero])]) /\
  run Container.h5 (getObjectPath 2 false) Samples.unnamed_leak
  = (Raise undefined, Samples.unnamed_leak,
     [Called (H5Iget_name 2 0) (-1, []);
      Called (H5Iget_name 2 0) (-1, [])]).
Proof.
  split.
  - apply (proj1 (getObjectPath_without_name unnamed tt tt tt 7 false 0 0
                    [] [zero] eq_refl eq_refl));
      reflexivity.
  - apply (proj2 (getObjectPath_without_name Container.h5
                    Samples.unnamed_leak Samples.unnamed_leak
                    Samples.unnamed_leak 2 false (-1) (-1) [] []
                    eq_refl eq_refl)).
    reflexivity.
Defined.

(** *** Looking up and opening objects by name *)

(** X9: in the container, [objectExists] answers true exactly for a name
    that resolves to an object and [isGroup] exactly for one that resolves
    to a group; [getObjectType] reports an object's type with status 0 and
    otherwise returns -1 and leaves [objectType] as it was.  For a missing
    name, a dangling link or a location that is not open all three report
    failure by their value; none raises or changes the container. *)
Theorem lookups_by_name (s : Container.t) (id : hid_t) (name : str) :
  let found :=
    match Container.target s id (c_str name) with
    | Some l =>
        match Container.lookup_link l (Container.links s) with
        | Some (Container.Hard ty) => Some ty
        | _ => None
        end
    | None => None
    end in
  (exists t,
      run Container.h5 (objectExists id name) s
      = (Ok (match found with Some _ => true | None => false end), s, t)) /\
  (exists t,
      run Container.h5 (isGroup id name) s
      = (Ok (match found with
             | Some H5O_TYPE_GROUP => true
             | _ => false
             end), s, t)) /\
  (forall objectType,
      exists t,
        run Container.h5 (getObjectType id name objectType) s
        = (Ok (match found with
               | Some ty => (0, ty)
               | None => (-1, objectType)
               end), s, t)).
Proof.
  cbv zeta. unfold objectExists, isGroup, getObjectType.
  cbn [call bind run answer Container.h5 Container.respond].
  unfold Container.info_at.
  destruct (Container.target s id (c_str name)) as [l|].
  - destruct (Container.lookup_link l (Container.links s)) as [[ty|]|].
    + repeat split; try intros objectType; eexists;
        try reflexivity.
      destruct ty; reflexivity.
    + repeat split; try intros objectType; eexists; reflexivity.
    + repeat split; try intros objectType; eexists; reflexivity.
  - repeat split; try intros objectType; eexists; reflexivity.
Qed.

Lemma location_alloc_old (h : Container.handle) (s : Container.t)
  (id : hid_t) (l : Container.loc) :
  Container.ids_ok s = true ->
  Container.location s id = Some l ->
  Container.location (snd (Container.alloc h s)) id = Some l.
Proof.
  intros Hids Hloc. unfold Container.location in *.
  cbn [Container.alloc snd Container.handles].
  destruct (Container.find_handle id (Container.handles s)) as [h0|] eqn:E;
    [|discriminate].
  rewrite find_handle_old; [now rewrite E|].
  apply find_handle_In in E. apply ids_ok_spec in Hids.
  destruct Hids as [_ Hlt]. specialize (Hlt _ E). cbn [fst] in Hlt. lia.
Qed.

(** [openHDF5Object] on a name that resolves to a group or a dataset. *)
Lemma openHDF5Object_run (s : Container.t) (locationID : hid_t)
  (objectName : str) (l : Container.loc) (ty : H5O_type_t) :
  Container.ids_ok s = true ->
  Container.target s locationID (c_str objectName) = Some l ->
  Container.lookup_link l (Container.links s) = Some (Container.Hard ty) ->
  ty = H5O_TYPE_GROUP \/ ty = H5O_TYPE_DATASET ->
  let h := Container.HObject
             (match ty with H5O_TYPE_GROUP => H5I_GROUP | _ => H5I_DATASET end)
             (fst l) (Some (snd l)) in
  exists t,
    run Container.h5 (openHDF5Object locationID objectName) s
    = (Ok (Container.next_id s), snd (Container.alloc h s), t) /\
    forallb is_call t = true.
Proof.
  intros Hids Htgt Hlk Hty h. unfold openHDF5Object, getObjectType.
  cbn [call bind run answer Container.h5 Container.respond].
  rewrite Htgt. unfold Container.info_at. rewrite Hlk.
  cbn [bind run fst snd type Z.ltb Z.compare].
  destruct Hty as [-> | ->];
    cbn [call bind run answer Container.h5 Container.respond];
    unfold Container.open_object; rewrite Htgt, Hlk; cbn [H5O_type_eqb];
    unfold Container.alloc; cbn [run fst snd app];
    eexists; split; reflexivity.
Qed.

(** X10: [openHDF5Object] opens groups and datasets and nothing else.  On a
    name that resolves to a group or dataset it returns a fresh positive
    identifier that stands for that object, and changes no link.  On a
    named datatype it prints the type and returns -1; on a missing name,
    a dangling link or a location that is not open it returns -1 without
    output.  In both failing cases the container is left as it was. *)
Theorem openHDF5Object_opens_groups_and_datasets (s : Container.t)
  (locationID : hid_t) (objectName : str) :
  Container.ids_ok s = true ->
  (forall l ty,
      Container.target s locationID (c_str objectName) = Some l ->
      Container.lookup_link l (Container.links s)
      = Some (Container.Hard ty) ->
      ty = H5O_TYPE_GROUP \/ ty = H5O_TYPE_DATASET ->
      exists s' t,
        run Container.h5 (openHDF5Object locationID objectName) s
        = (Ok (Container.next_id s), s', t) /\
        0 < Container.next_id s /\
        Container.location s' (Container.next_id s) = Some l /\
        Container.find_handle (Container.next_id s) (Container.handles s)
        = None /\
        Container.links s' = Container.links s /\
        Container.attrs s' = Container.attrs s) /\
  (forall l ty,
      Container.target s locationID (c_str objectName) = Some l ->
      Container.lookup_link l (Container.links s)
      = Some (Container.Hard ty) ->
      ty <> H5O_TYPE_GROUP -> ty <> H5O_TYPE_DATASET ->
      run Container.h5 (openHDF5Object locationID objectName) s
      = (Ok (-1), s,
         [Called (H5Oget_info_by_name locationID (c_str objectName) H5P_DEFAULT)
            (Container.info_at s l);
          Printed (UnknownHDFType ty)])) /\
  (match Container.target s locationID (c_str objectName) with
   | Some l =>
       match Container.lookup_link l (Container.links s) with
       | Some (Container.Hard _) => False
       | _ => True
       end
   | None => True
   end ->
   run Container.h5 (openHDF5Object locationID objectName) s
   = (Ok (-1), s,
      [Called (H5Oget_info_by_name locationID (c_str objectName) H5P_DEFAULT)
         (-1, Container.no_info)])).
Proof.
  intros Hids. split; [|split].
  - intros l ty Htgt Hlk Hty.
    destruct (openHDF5Object_run s locationID objectName l ty Hids Htgt Hlk
                Hty) as (t & Hrun & _).
    eexists _, t. split; [exact Hrun|].
    pose proof Hids as Hspec. apply ids_ok_spec in Hspec.
    destruct Hspec as [Hpos Hlt].
    split; [exact Hpos|]. split.
    + unfold Container.location. rewrite find_handle_alloc by assumption.
      now destruct l.
    + split; [|split; reflexivity].
      destruct (Container.find_handle (Container.next_id s)
                  (Container.handles s)) as [h0|] eqn:E; [|reflexivity].
      apply find_handle_In in E. specialize (Hlt _ E). cbn [fst] in Hlt. lia.
  - intros l ty Htgt Hlk Hg Hd. unfold openHDF5Object, getObjectType.
    cbn [call bind run answer Container.h5 Container.respond].
    rewrite Htgt. unfold Container.info_at. rewrite Hlk.
    cbn [bind run fst snd type Z.ltb Z.compare].
    destruct ty; try congruence; reflexivity.
  - intros Hnone. unfold openHDF5Object, getObjectType.
    cbn [call bind run answer Container.h5 Container.respond].
    unfold Container.info_at.
    destruct (Container.target s locationID (c_str objectName)) as [l|];
      [|reflexivity].
    destruct (Container.lookup_link l (Container.links s)) as [[ty|]|];
      [contradiction|reflexivity|reflexivity].
Qed.

Lemma openHDF5Object_opens_groups_and_datasets_witness :
  run Container.h5 (openHDF5Object 1 "t") Samples.mixed
  = (Ok (-1), Samples.mixed,
     [Called (H5Oget_info_by_name 1 "t" H5P_DEFAULT)
        (Container.info_at Samples.mixed (Samples.at_path "data.h5" ["t"]));
      Printed (UnknownHDFType H5O_TYPE_NAMED_DATATYPE)]).
Proof.
  apply (proj1 (proj2 (openHDF5Object_opens_groups_and_datasets
                         Samples.mixed 1 "t" eq_refl))
           (Samples.at_path "data.h5" ["t"]) H5O_TYPE_NAMED_DATATYPE
           eq_refl eq_refl); discriminate.
Defined.

(** X11: an object opened with [openHDF5Object] is closed again by
    [closeHDF5Object] with status 0, and the container is then as before
    but for the one identifier used up. *)
Theorem openHDF5Object_closeHDF5Object_round_trip (s : Container.t)
  (locationID : hid_t) (objectName : str) (l : Container.loc)
  (ty : H5O_type_t) :
  Container.ids_ok s = true ->
  Container.target s locationID (c_str objectName) = Some l ->
  Container.lookup_link l (Container.links s) = Some (Container.Hard ty) ->
  ty = H5O_TYPE_GROUP \/ ty = H5O_TYPE_DATASET ->
  exists objectID s1 t1 t2,
    run Container.h5 (openHDF5Object locationID objectName) s
    = (Ok objectID, s1, t1) /\
    0 <= objectID /\
    Container.find_handle objectID (Container.handles s1) <> None /\
    run Container.h5 (closeHDF5Object objectID) s1
    = (Ok 0, Container.bump 1 s, t2).
Proof.
  intros Hids Htgt Hlk Hty.
  destruct (openHDF5Object_run s locationID objectName l ty Hids Htgt Hlk
              Hty) as (t1 & Hrun & _).
  cbv zeta in Hrun.
  set (h := Container.HObject
              (match ty with H5O_TYPE_GROUP => H5I_GROUP | _ => H5I_DATASET end)
              (fst l) (Some (snd l))) in *.
  pose proof (find_handle_alloc h s Hids) as Hf.
  assert (Hpos : 0 < Container.next_id s)
    by (apply ids_ok_spec in Hids; tauto).
  destruct (closeHDF5Object_closes (snd (Container.alloc h s))
              (Container.next_id s) h ltac:(lia) Hf) as (t2 & Hclose).
  { unfold h. now destruct Hty as [-> | ->]. }
  { discriminate. }
  exists (Container.next_id s), (snd (Container.alloc h s)), t1, t2.
  split; [exact Hrun|]. split; [lia|]. split; [now rewrite Hf|].
  rewrite Hclose. now rewrite alloc_release.
Qed.

Lemma openHDF5Object_closeHDF5Object_round_trip_witness :
  exists objectID s1 t1 t2,
    run Container.h5 (openHDF5Object 1 "/g/d") Samples.leaks
    = (Ok objectID, s1, t1) /\
    0 <= objectID /\
    Container.find_handle objectID (Container.handles s1) <> None /\
    run Container.h5 (closeHDF5Object objectID) s1
    = (Ok 0, Container.bump 1 Samples.leaks, t2).
Proof.
  apply (openHDF5Object_closeHDF5Object_round_trip Samples.leaks 1 "/g/d"
           (Samples.at_path "data.h5" ["g"; "d"]) H5O_TYPE_DATASET
           eq_refl eq_refl eq_refl).
  now right.
Defined.

(** *** Creating one group *)

(** X12: [createGroup] replaces nothing and creates no parents.  When the
    name is taken by a dataset or a named datatype, or by a dangling link,
    or when the group that should hold it does not exist, it returns -1
    and the container is left as it was. *)
Theorem createGroup_replaces_nothing (s : Container.t) (locationID : hid_t)
  (group : str) (key : Container.loc) :
  Container.target s locationID (c_str group) = Some key ->
  (exists ty, Container.lookup_link key (Container.links s)
              = Some (Container.Hard ty) /\ ty <> H5O_TYPE_GROUP) \/
  Container.lookup_link key (Container.links s) = Some Container.Dangling \/
  (Container.lookup_link key (Container.links s) = None /\
   Container.lookup_link (fst key, removelast (snd key)) (Container.links s)
   <> Some (Container.Hard H5O_TYPE_GROUP)) ->
  exists t,
    run Container.h5 (createGroup locationID group) s = (Ok (-1), s, t) /\
    length (calls t) = 2%nat.
Proof.
  intros Htgt Hcase. unfold createGroup.
  cbn [call bind run answer Container.h5 Container.respond].
  rewrite Htgt. unfold Container.info_at.
  destruct Hcase as [(ty & Hlk & Hty) | [Hlk | [Hlk Hpar]]]; rewrite Hlk.
  - cbn [call bind run answer Container.h5 Container.respond Z.eqb].
    unfold Container.open_object. rewrite Htgt, Hlk.
    destruct ty; try congruence; cbn [H5O_type_eqb run];
      eexists; split; reflexivity.
  - cbn [call bind run answer Container.h5 Container.respond Z.eqb].
    unfold Container.create_group. rewrite Htgt, Hlk.
    destruct (snd key); cbn [run]; eexists; split; reflexivity.
  - cbn [call bind run answer Container.h5 Container.respond Z.eqb].
    unfold Container.create_group. rewrite Htgt, Hlk.
    destruct (snd key) as [|x r] eqn:Ek;
      [cbn [run]; eexists; split; reflexivity|].
    destruct (Container.lookup_link (fst key, removelast (x :: r))
                (Container.links s)) as [[ty|]|] eqn:Ep;
      try (cbn [run]; eexists; split; reflexivity).
    destruct ty; try (cbn [run]; eexists; split; reflexivity).
    congruence.
Qed.

Lemma createGroup_replaces_nothing_witness :
  exists t,
    run Container.h5 (createGroup 1 "d") Samples.mixed
    = (Ok (-1), Samples.mixed, t) /\
    length (calls t) = 2%nat.
Proof.
  apply (createGroup_replaces_nothing Samples.mixed 1 "d"
           (Samples.at_path "data.h5" ["d"]) eq_refl).
  left. exists H5O_TYPE_DATASET. split; [reflexivity|discriminate].
Defined.

Lemma target_alloc (h : Container.handle) (s : Container.t) (id : hid_t)
  (name : str) (l : Container.loc) :
  Container.ids_ok s = true ->
  Container.target s id name = Some l ->
  Container.target (snd (Container.alloc h s)) id name = Some l.
Proof.
  intros Hids. unfold Container.target.
  destruct name as [|c r]; [discriminate|].
  destruct (Container.location s id) as [base|] eqn:E; [|discriminate].
  intros H. now rewrite (location_alloc_old h s id base Hids E).
Qed.

(** X13: after [createGroup] succeeded, the name is that of a group: the
    identifier returned is positive and stands for it, and [isGroup] and
    [objectExists] answer true for the same location and name, whether the
    group was there before or has just been created. *)
Theorem createGroup_then_isGroup (s : Container.t) (locationID : hid_t)
  (group : str) (key : Container.loc) :
  Container.ids_ok s = true ->
  Container.target s locationID (c_str group) = Some key ->
  snd key <> [] ->
  Container.lookup_link (fst key, removelast (snd key)) (Container.links s)
  = Some (Container.Hard H5O_TYPE_GROUP) ->
  Container.lookup_link key (Container.links s) = None \/
  Container.lookup_link key (Container.links s)
  = Some (Container.Hard H5O_TYPE_GROUP) ->
  exists groupID s1 t1 t2 t3,
    run Container.h5 (createGroup locationID group) s = (Ok groupID, s1, t1) /\
    0 < groupID /\
    Container.location s1 groupID = Some key /\
    run Container.h5 (isGroup locationID group) s1 = (Ok true, s1, t2) /\
    run Container.h5 (objectExists locationID group) s1 = (Ok true, s1, t3).
Proof.
  intros Hids Htgt Hne Hpar Hkey.
  assert (Hpos : 0 < Container.next_id s)
    by (apply ids_ok_spec in Hids; tauto).
  set (h := Container.HObject H5I_GROUP (fst key) (Some (snd key))).
  set (s' := Container.with_links (add_group key (Container.links s))
               (Container.attrs s) s).
  assert (Hids' : Container.ids_ok s' = true) by exact Hids.
  assert (Hrun : exists t1,
             run Container.h5 (createGroup locationID group) s
             = (Ok (Container.next_id s), snd (Container.alloc h s'), t1)).
  { unfold createGroup.
    cbn [call bind run answer Container.h5 Container.respond].
    rewrite Htgt. unfold Container.info_at, s', add_group.
    destruct Hkey as [Hkey|Hkey]; rewrite Hkey.
    - cbn [call bind run answer Container.h5 Container.respond Z.eqb].
      unfold Container.create_group. rewrite Htgt, Hkey, Hpar.
      destruct (snd key) as [|x r] eqn:Ek; [congruence|].
      unfold h. eexists. reflexivity.
    - cbn [call bind run answer Container.h5 Container.respond Z.eqb].
      unfold Container.open_object. rewrite Htgt, Hkey.
      cbn [H5O_type_eqb]. unfold h. eexists.
      unfold Container.alloc, Container.with_links. cbn [run fst snd].
      reflexivity. }
  destruct Hrun as (t1 & Hrun).
  assert (Htgt1 : Container.target (snd (Container.alloc h s')) locationID
                    (c_str group) = Some key).
  { apply target_alloc; [exact Hids'|exact Htgt]. }
  assert (Hlk1 : Container.lookup_link key
                   (Container.links (snd (Container.alloc h s')))
                 = Some (Container.Hard H5O_TYPE_GROUP)).
  { cbn [Container.alloc snd Container.links s' Container.with_links].
    now apply lookup_add_group_same. }
  exists (Container.next_id s), (snd (Container.alloc h s')), t1.
  eexists _, _. split; [exact Hrun|]. split; [exact Hpos|]. split.
  - unfold Container.location.
    change (Container.next_id s) with (Container.next_id s').
    rewrite find_handle_alloc by exact Hids'. unfold h. now destruct key.
  - unfold isGroup, objectExists.
    cbn [call bind run answer Container.h5 Container.respond].
    rewrite Htgt1. unfold Container.info_at. rewrite Hlk1.
    split; reflexivity.
Qed.

Lemma createGroup_then_isGroup_witness :
  exists groupID s1 t1 t2 t3,
    run Container.h5 (createGroup 1 "g/new") Samples.mixed
    = (Ok groupID, s1, t1) /\
    0 < groupID /\
    Container.location s1 groupID
    = Some (Samples.at_path "data.h5" ["g"; "new"]) /\
    run Container.h5 (isGroup 1 "g/new") s1 = (Ok true, s1, t2) /\
    run Container.h5 (objectExists 1 "g/new") s1 = (Ok true, s1, t3).
Proof.
  apply (createGroup_then_isGroup Samples.mixed 1 "g/new"
           (Samples.at_path "data.h5" ["g"; "new"]) eq_refl eq_refl).
  - discriminate.
  - reflexivity.
  - now left.
Defined.

(** *** Names by index and parent paths of identifiers *)

(** X14: [objectNameAtIndex] with an index that is negative or not below
    the number of links in the group returns -1 after the one length
    query, prints nothing, and leaves [name] empty, whatever it held. *)
Theorem objectNameAtIndex_out_of_range (s : Container.t) (fileID : hid_t)
  (l : Container.loc) (index : Z) (name : str) :
  Container.location s fileID = Some l ->
  Container.lookup_link l (Container.links s)
  = Some (Container.Hard H5O_TYPE_GROUP) ->
  - 2 ^ 31 <= index < 2 ^ 31 ->
  Z.of_nat (length (Container.children s l)) < 2 ^ 63 ->
  index < 0 \/ Z.of_nat (length (Container.children s l)) <= index ->
  run Container.h5 (objectNameAtIndex fileID index name) s
  = (Ok (-1, []), s,
     [Called (H5Lget_name_by_idx fileID "." H5_INDEX_NAME H5_ITER_NATIVE
                (to_size_t index) 0 H5P_DEFAULT) (-1, [])]).
Proof.
  intros Hloc Hgrp Hrange Hmany Hout. unfold objectNameAtIndex.
  cbn [call bind run answer Container.h5 Container.respond].
  rewrite (target_dot _ _ _ Hloc), Hgrp.
  assert (Hidx : 0 <= to_size_t index /\
                 Z.of_nat (length (Container.children s l))
                 <= to_size_t index).
  { unfold to_size_t. destruct (Z.ltb_spec index 0) as [Hneg|Hpos].
    - replace (index mod 2 ^ 64) with (index + 2 ^ 64); [lia|].
      apply Z.mod_unique with (q := -1); lia.
    - rewrite Z.mod_small by lia. lia. }
  destruct (Z.ltb_spec (to_size_t index) 0); [lia|].
  assert (E : nth_error
                (Container.by_index H5_INDEX_NAME H5_ITER_NATIVE
                   (Container.children s l)) (Z.to_nat (to_size_t index))
              = None).
  { apply nth_error_None.
    change (Container.by_index H5_INDEX_NAME H5_ITER_NATIVE
              (Container.children s l)) with (Container.listing s l).
    rewrite listing_length. lia. }
  rewrite E. reflexivity.
Qed.

Lemma objectNameAtIndex_out_of_range_witness :
  run Container.h5 (objectNameAtIndex 1 (-1) "stale") Samples.mixed
  = (Ok (-1, []), Samples.mixed,
     [Called (H5Lget_name_by_idx 1 "." H5_INDEX_NAME H5_ITER_NATIVE
                (to_size_t (-1)) 0 H5P_DEFAULT) (-1, [])]).
Proof.
  apply (objectNameAtIndex_out_of_range Samples.mixed 1
           (Samples.at_path "data.h5" []) (-1) "stale" eq_refl eq_refl).
  - lia.
  - vm_compute. reflexivity.
  - left. lia.
Defined.

(** X15: [getParentPath(hid_t)] on an open identifier.  For an object two or
    more levels below the root it returns the path of the group that holds
    it, without leading separator; for the root group it returns the empty
    string; for an object directly in the root group it raises
    [std::out_of_range], because [getObjectPath] has dropped the only
    separator. *)
Theorem getParentPath_of_identifier (s : Container.t) (objectID : hid_t)
  (h : Container.handle) (p : Container.path) :
  Container.find_handle objectID (Container.handles s) = Some h ->
  Container.handle_name h = Some (Container.path_name p) ->
  Forall plain_seg p ->
  Container.no_nul (Container.join p) = true ->
  size (Container.join p) + 1 < npos ->
  exists t,
    run Container.h5 (getParentPath_id objectID) s
    = (match p with
       | [] => Ok []
       | [_] => Raise out_of_range
       | _ => Ok (Container.join (removelast p))
       end, s, t).
Proof.
  intros Hf Hn Hplain Hnul Hsz. unfold getParentPath_id.
  rewrite run_bind.
  rewrite (getObjectPath_run s objectID h (Container.join p) false Hf Hn
             Hnul Hsz).
  destruct p as [|x rest].
  - eexists. reflexivity.
  - assert (Hne : Container.join (x :: rest) <> [])
      by (apply join_nonempty; [discriminate|assumption]).
    rewrite match_nonempty by exact Hne.
    assert (Hfits : size (Container.join (x :: rest)) < npos) by lia.
    destruct rest as [|y more].
    + cbn [Container.join] in *.
      assert (Hx : ~ In slash x).
      { apply Forall_inv in Hplain. apply Hplain. }
      cbn [lift run]. rewrite (getParentPath_plain_raises x Hx Hfits).
      eexists. reflexivity.
    + destruct (exists_last (l := x :: y :: more) ltac:(discriminate))
        as (front & leaf & E).
      rewrite E in *. rewrite removelast_last.
      assert (Hfront : front <> []).
      { destruct front; [discriminate E|discriminate]. }
      rewrite join_snoc in * by exact Hfront.
      assert (Hleaf : ~ In slash leaf).
      { apply Forall_app in Hplain. destruct Hplain as [_ Hl].
        apply Forall_inv in Hl. apply Hl. }
      rewrite (getParentPath_split _ leaf Hleaf Hfits).
      destruct front as [|a [|b fr]]; [congruence| |];
        eexists; reflexivity.
Qed.

Lemma getParentPath_of_identifier_witness :
  exists t,
    run Container.h5 (getParentPath_id 2) Samples.leaks
    = (Raise out_of_range, Samples.leaks, t).
Proof.
  apply (getParentPath_of_identifier Samples.leaks 2
           (Samples.object H5I_GROUP "data.h5" ["g"]) ["g" : str]
           eq_refl eq_refl).
  - repeat constructor; [discriminate|].
    cbn. intros [H|[]]. discriminate H.
  - reflexivity.
  - vm_compute. reflexivity.
Defined.

(** *** Listing a group: status and joined filters *)

(** X16: [getGroupObjects] reports a location without children by its
    status alone.  On an open group with no links it returns 0; on an
    identifier that is not open on a group (a dataset, or no open
    identifier at all) it returns -1.  Either way it makes one library
    call and leaves [names] as it was. *)
Theorem getGroupObjects_without_children (s : Container.t)
  (locationID : hid_t) (typeFilter : CustomHDFDataTypes.t)
  (names : list str) :
  (forall l,
      Container.location s locationID = Some l ->
      Container.lookup_link l (Container.links s)
      = Some (Container.Hard H5O_TYPE_GROUP) ->
      Container.children s l = [] ->
      run Container.h5 (getGroupObjects locationID typeFilter names) s
      = (Ok (0, names), s,
         [Called (H5Gget_info locationID) (0, {| nlinks := 0 |})])) /\
  (match Container.location s locationID with
   | Some l =>
       Container.lookup_link l (Container.links s)
       <> Some (Container.Hard H5O_TYPE_GROUP)
   | None => True
   end ->
   run Container.h5 (getGroupObjects locationID typeFilter names) s
   = (Ok (-1, names), s,
      [Called (H5Gget_info locationID) (-1, {| nlinks := 0 |})])).
Proof.
  split.
  - intros l Hloc Hgrp Hnone. unfold getGroupObjects.
    cbn [call bind run answer Container.h5 Container.respond].
    rewrite Hloc, Hgrp, Hnone. reflexivity.
  - intros Hnot. unfold getGroupObjects.
    cbn [call bind run answer Container.h5 Container.respond].
    destruct (Container.location s locationID) as [l|]; [|reflexivity].
    destruct (Container.lookup_link l (Container.links s)) as [[ty|]|];
      try reflexivity.
    destruct ty; try reflexivity. congruence.
Qed.

Lemma getGroupObjects_without_children_witness :
  run Container.h5 (getGroupObjects 3 CustomHDFDataTypes.Any ["kept" : str])
    Samples.leaks
  = (Ok (-1, ["kept" : str]), Samples.leaks,
     [Called (H5Gget_info 3) (-1, {| nlinks := 0 |})]).
Proof.
  apply (proj2 (getGroupObjects_without_children Samples.leaks 3
                  CustomHDFDataTypes.Any ["kept" : str])).
  cbn. discriminate.
Defined.

(** X17: under a filter other than [Any] the status [getGroupObjects]
    returns is that of the type lookup of the last child in index order:
    0 when that child is an object and -1 when it is a dangling link, in
    which case the call reports failure although every child before it
    was examined and the names kept were appended.  A dangling link
    anywhere else does not show in the status. *)
Theorem getGroupObjects_status_is_last_lookup (s : Container.t)
  (locationID : hid_t) (l : Container.loc)
  (typeFilter : CustomHDFDataTypes.t) (names pre : list str) (last : str) :
  Container.names_ok s = true ->
  Container.location s locationID = Some l ->
  Container.lookup_link l (Container.links s)
  = Some (Container.Hard H5O_TYPE_GROUP) ->
  Z.of_nat (length (Container.children s l)) < 2 ^ 64 ->
  typeFilter <> CustomHDFDataTypes.Any ->
  Container.listing s l = pre ++ [last] ->
  exists t,
    run Container.h5 (getGroupObjects locationID typeFilter names) s
    = (Ok (match Container.child_link s l last with
           | Some (Container.Hard _) => 0
           | _ => -1
           end,
           names ++ filter (fun n => child_kept typeFilter
                                       (Container.child_link s l n))
                      (Container.listing s l)),
       s, t).
Proof.
  intros Hok Hloc Hgrp Hbound HA Hlist.
  eexists.
  rewrite (getGroupObjects_trace s locationID l typeFilter names Hok Hloc
             Hgrp Hbound).
  f_equal. f_equal. f_equal. f_equal.
  rewrite Hlist, fold_left_app. cbn [fold_left].
  destruct (Z.eqb_spec typeFilter CustomHDFDataTypes.Any) as [E|_];
    [contradiction|].
  unfold Container.child_link, Container.info_at.
  now destruct (Container.lookup_link (fst l, snd l ++ [last])
                  (Container.links s)) as [[ty|]|].
Qed.

Lemma getGroupObjects_status_is_last_lookup_witness :
  exists t,
    run Container.h5
      (getGroupObjects 1 CustomHDFDataTypes.Dataset []) Samples.mixed
    = (Ok (match Container.child_link Samples.mixed
                   (Samples.at_path "data.h5" []) "t" with
           | Some (Container.Hard _) => 0
           | _ => -1
           end,
           [] ++ filter (fun n => child_kept CustomHDFDataTypes.Dataset
                                    (Container.child_link Samples.mixed
                                       (Samples.at_path "data.h5" []) n))
                   (Container.listing Samples.mixed
                      (Samples.at_path "data.h5" []))),
       Samples.mixed, t).
Proof.
  apply (getGroupObjects_status_is_last_lookup Samples.mixed 1
           (Samples.at_path "data.h5" []) CustomHDFDataTypes.Dataset []
           ["d" : str; "g" : str; "l" : str] "t" eq_refl eq_refl eq_refl).
  - vm_compute. reflexivity.
  - discriminate.
  - vm_compute. reflexivity.
Defined.

Lemma land_bit_lor (bit a b : Z) :
  negb (Z.land bit (Z.lor a b) =? 0)
  = negb (Z.land bit a =? 0) || negb (Z.land bit b =? 0).
Proof.
  rewrite Z.land_lor_distr_r.
  destruct (Z.eqb_spec (Z.land bit a) 0) as [Ha|Ha];
    destruct (Z.eqb_spec (Z.land bit b) 0) as [Hb|Hb];
    destruct (Z.eqb_spec (Z.lor (Z.land bit a) (Z.land bit b)) 0) as [H|H];
    try reflexivity; exfalso.
  - apply H. apply Z.lor_eq_0_iff. now split.
  - apply Z.lor_eq_0_iff in H. tauto.
  - apply Z.lor_eq_0_iff in H. tauto.
  - apply Z.lor_eq_0_iff in H. tauto.
Qed.

(** X18: filters joined with [operator|] select the union.  The test
    [getGroupObjects] applies to a classified child accepts it under
    [a | b] exactly when it accepts it under [a] or under [b]; so on an
    open group, with neither filter nor their join equal to [Any], the
    names listed under [a | b] are those listed under [a] or under [b], in
    index order. *)
Theorem getGroupObjects_joined_filters (s : Container.t)
  (locationID : hid_t) (l : Container.loc) (a b : CustomHDFDataTypes.t) :
  Container.names_ok s = true ->
  Container.location s locationID = Some l ->
  Container.lookup_link l (Container.links s)
  = Some (Container.Hard H5O_TYPE_GROUP) ->
  Z.of_nat (length (Container.children s l)) < 2 ^ 64 ->
  a <> CustomHDFDataTypes.Any -> b <> CustomHDFDataTypes.Any ->
  CustomHDFDataTypes.bitor a b <> CustomHDFDataTypes.Any ->
  (forall ty,
      type_selected (CustomHDFDataTypes.bitor a b) ty
      = type_selected a ty || type_selected b ty) /\
  exists ea eb eab ta tb tab la lb lab,
    run Container.h5 (getGroupObjects locationID a []) s
    = (Ok (ea, la), s, ta) /\
    run Container.h5 (getGroupObjects locationID b []) s
    = (Ok (eb, lb), s, tb) /\
    run Container.h5
      (getGroupObjects locationID (CustomHDFDataTypes.bitor a b) []) s
    = (Ok (eab, lab), s, tab) /\
    forall n, In n lab <-> In n la \/ In n lb.
Proof.
  intros Hok Hloc Hgrp Hbound Ha Hb Hab.
  assert (Hsel : forall ty,
             type_selected (CustomHDFDataTypes.bitor a b) ty
             = type_selected a ty || type_selected b ty).
  { intros ty. unfold type_selected, CustomHDFDataTypes.bitor.
    rewrite !land_bit_lor.
    destruct (H5O_type_eqb ty H5O_TYPE_GROUP);
      destruct (H5O_type_eqb ty H5O_TYPE_DATASET);
      cbn [andb orb]; rewrite ?orb_false_r; try reflexivity.
    destruct (negb (Z.land CustomHDFDataTypes.Group a =? 0)),
      (negb (Z.land CustomHDFDataTypes.Group b =? 0)),
      (negb (Z.land CustomHDFDataTypes.Dataset a =? 0)),
      (negb (Z.land CustomHDFDataTypes.Dataset b =? 0)); reflexivity. }
  split; [exact Hsel|].
  destruct (getGroupObjects_run s locationID l a [] Hok Hloc Hgrp Hbound)
    as (ea & ta & Hra & _).
  destruct (getGroupObjects_run s locationID l b [] Hok Hloc Hgrp Hbound)
    as (eb & tb & Hrb & _).
  destruct (getGroupObjects_run s locationID l (CustomHDFDataTypes.bitor a b)
              [] Hok Hloc Hgrp Hbound) as (eab & tab & Hrab & _).
  cbn [app] in Hra, Hrb, Hrab.
  eexists ea, eb, eab, ta, tb, tab, _, _, _.
  split; [exact Hra|]. split; [exact Hrb|]. split; [exact Hrab|].
  assert (Hkept : forall k,
             child_kept (CustomHDFDataTypes.bitor a b) k
             = child_kept a k || child_kept b k).
  { intros k. unfold child_kept.
    apply Z.eqb_neq in Ha, Hb, Hab. rewrite Ha, Hb, Hab.
    unfold CustomHDFDataTypes.bitor.
    destruct k as [[ty|]|]; try reflexivity.
    destruct ty; try reflexivity; apply land_bit_lor. }
  intros n. rewrite !filter_In, Hkept, orb_true_iff. tauto.
Qed.

Lemma getGroupObjects_joined_filters_witness :
  (forall ty,
      type_selected
        (CustomHDFDataTypes.bitor CustomHDFDataTypes.Group
           CustomHDFDataTypes.Dataset) ty
      = type_selected CustomHDFDataTypes.Group ty
        || type_selected CustomHDFDataTypes.Dataset ty) /\
  exists ea eb eab ta tb tab la lb lab,
    run Container.h5 (getGroupObjects 1 CustomHDFDataTypes.Group [])
      Samples.mixed = (Ok (ea, la), Samples.mixed, ta) /\
    run Container.h5 (getGroupObjects 1 CustomHDFDataTypes.Dataset [])
      Samples.mixed = (Ok (eb, lb), Samples.mixed, tb) /\
    run Container.h5
      (getGroupObjects 1
         (CustomHDFDataTypes.bitor CustomHDFDataTypes.Group
            CustomHDFDataTypes.Dataset) []) Samples.mixed
    = (Ok (eab, lab), Samples.mixed, tab) /\
    forall n, In n lab <-> In n la \/ In n lb.
Proof.
  apply (getGroupObjects_joined_filters Samples.mixed 1
           (Samples.at_path "data.h5" []) CustomHDFDataTypes.Group
           CustomHDFDataTypes.Dataset eq_refl eq_refl eq_refl);
    (vm_compute; reflexivity) || discriminate.
Defined.

(** *** Opening and creating files *)

Lemma set_handle_fresh (hs : list (hid_t * Container.handle)) (n : hid_t)
  (h h' : Container.handle) :
  (forall e, In e hs -> fst e < n) ->
  map (fun e : hid_t * Container.handle =>
         if fst e =? n then (n, h') else e) (hs ++ [(n, h)])
  = hs ++ [(n, h')].
Proof.
  intros Hlt. rewrite map_app. cbn [map fst]. rewrite Z.eqb_refl. f_equal.
  rewrite <- (map_id hs) at 2. apply map_ext_in. intros e He.
  specialize (Hlt e He). destruct (Z.eqb_spec (fst e) n); [lia|reflexivity].
Qed.

Lemma remove_handle_other (hs : list (hid_t * Container.handle))
  (n id : hid_t) (h : Container.handle) :
  id <> n ->
  Container.remove_handle n (hs ++ [(id, h)])
  = Container.remove_handle n hs ++ [(id, h)].
Proof.
  intros Hne. unfold Container.remove_handle. rewrite filter_app.
  cbn [filter fst]. now destruct (Z.eqb_spec id n).
Qed.

(** X19: in the container, [openFile] opens a file that exists and creates
    none.  In either mode it changes no link and no attribute; for an
    existing file it returns a positive identifier for the file, opened
    with the library's default version bounds, and for a missing file it
    returns -1.  The property list made in read-write mode is closed
    again: besides the file identifier, the open identifiers are as
    before. *)
Theorem openFile_opens_existing_files_only (s : Container.t)
  (v : H5_VERS_MINOR) (filename : str) (readOnly : bool) :
  Container.ids_ok s = true ->
  exists fileID s' t,
    run Container.h5 (openFile v filename readOnly) s = (Ok fileID, s', t) /\
    Container.links s' = Container.links s /\
    Container.attrs s' = Container.attrs s /\
    (Container.lookup_link (c_str filename, []) (Container.links s) <> None ->
     0 < fileID /\
     Container.handles s'
     = Container.handles s
       ++ [(fileID, Container.HFile (c_str filename) Container.default_low
                      Container.default_high)]) /\
    (Container.lookup_link (c_str filename, []) (Container.links s) = None ->
     fileID = -1 /\ Container.handles s' = Container.handles s).
Proof.
  intros Hids. pose proof Hids as Hspec. apply ids_ok_spec in Hspec.
  destruct Hspec as [Hpos Hlt].
  destruct readOnly; unfold openFile.
  - cbn [call bind run answer Container.h5 Container.respond].
    change (Container.fapl_bounds s H5P_DEFAULT)
      with (Some (Container.default_low, Container.default_high)).
    destruct (Container.lookup_link (c_str filename, []) (Container.links s))
      as [k|]; cbn [Container.alloc run fst snd];
      eexists _, _, _; (split; [reflexivity|]);
      cbn [Container.links Container.attrs Container.handles];
      repeat split; try reflexivity; try congruence; try lia.
  - set (n := Container.next_id s).
    set (lo := HDF5_VERSION_LIB_LOWER_BOUNDS v).
    set (hi := HDF5_VERSION_LIB_UPPER_BOUNDS v).
    cbn [call bind run answer Container.h5 Container.respond
           Container.alloc Container.handles Container.next_id fst snd].
    fold n. rewrite find_handle_fresh by exact Hlt.
    cbn [bind run answer Container.h5 Container.respond].
    assert (Hset :
      Container.set_handle n (Container.HPlist lo hi)
        {| Container.links := Container.links s;
           Container.attrs := Container.attrs s;
           Container.handles :=
             Container.handles s
             ++ [(n, Container.HPlist Container.default_low
                       Container.default_high)];
           Container.next_id := n + 1 |}
      = {| Container.links := Container.links s;
           Container.attrs := Container.attrs s;
           Container.handles :=
             Container.handles s ++ [(n, Container.HPlist lo hi)];
           Container.next_id := n + 1 |}).
    { unfold Container.set_handle.
      cbn [Container.links Container.attrs Container.handles
             Container.next_id].
      now rewrite (set_handle_fresh _ n _ (Container.HPlist lo hi) Hlt). }
    rewrite Hset. clear Hset.
    unfold Container.fapl_bounds. change (H5P_DEFAULT =? H5P_DEFAULT) with true.
    cbn match. cbn [Container.links].
    destruct (Container.lookup_link (c_str filename, []) (Container.links s))
      as [k|].
    + cbn [bind run answer Container.h5 Container.respond
             Container.alloc Container.handles Container.next_id fst snd
             Container.links Container.attrs].
      unfold Container.close_if.
      cbn [Container.handles].
      rewrite find_handle_old by lia.
      rewrite find_handle_fresh by exact Hlt.
      unfold Container.release.
      cbn [Container.handles Container.links Container.attrs
             Container.next_id run].
      rewrite remove_handle_other by lia.
      rewrite remove_handle_fresh by exact Hlt.
      eexists _, _, _. split; [reflexivity|].
      cbn [Container.links Container.attrs Container.handles].
      repeat split; try reflexivity; try congruence. fold n. lia.
    + cbn [bind run answer Container.h5 Container.respond
             Container.handles Container.next_id fst snd
             Container.links Container.attrs].
      unfold Container.close_if. cbn [Container.handles].
      rewrite find_handle_fresh by exact Hlt.
      unfold Container.release.
      cbn [Container.handles Container.links Container.attrs
             Container.next_id run].
      rewrite remove_handle_fresh by exact Hlt.
      eexists _, _, _. split; [reflexivity|].
      cbn [Container.links Container.attrs Container.handles].
      repeat split; try reflexivity; try congruence.
Qed.

Lemma openFile_opens_existing_files_only_witness :
  exists fileID s' t,
    run Container.h5 (openFile Minor10 "absent.h5" false) Samples.on_disk
    = (Ok fileID, s', t) /\
    Container.links s' = Container.links Samples.on_disk /\
    Container.attrs s' = Container.attrs Samples.on_disk /\
    (Container.lookup_link ("absent.h5" : str, [])
       (Container.links Samples.on_disk) <> None ->
     0 < fileID /\
     Container.handles s'
     = Container.handles Samples.on_disk
       ++ [(fileID, Container.HFile "absent.h5" Container.default_low
                      Container.default_high)]) /\
    (Container.lookup_link ("absent.h5" : str, [])
       (Container.links Samples.on_disk) = None ->
     fileID = -1 /\ Container.handles s' = Container.handles Samples.on_disk).
Proof.
  apply (openFile_opens_existing_files_only Samples.on_disk Minor10
           "absent.h5" false eq_refl).
Defined.

Lemma lookup_other_files (filename : str) (k : Container.loc)
  (ls : list (Container.loc * Container.link)) :
  Container.lookup_link k
    (filter (fun e : Container.loc * Container.link =>
               negb (str_eqb (fst (fst e)) filename)) ls)
  = if str_eqb (fst k) filename then None else Container.lookup_link k ls.
Proof.
  induction ls as [|[k' v] r IH]; cbn [filter Container.lookup_link fst].
  - now destruct (str_eqb (fst k) filename).
  - destruct (str_eqb (fst k') filename) eqn:Ek'; cbn [negb].
    + rewrite IH. destruct (str_eqb (fst k) filename) eqn:Ek; [reflexivity|].
      destruct (Container.loc_eqb k' k) eqn:E; [|reflexivity].
      apply loc_eqb_eq in E. subst k'. congruence.
    + cbn [Container.lookup_link]. rewrite IH.
      destruct (Container.loc_eqb k' k) eqn:E; [|reflexivity].
      apply loc_eqb_eq in E. subst k'. now rewrite Ek'.
Qed.

Lemma attrs_other_files (filename : str) (k : Container.loc)
  (al : list (Container.loc * str)) :
  Container.attrs_of k
    (filter (fun e : Container.loc * str =>
               negb (str_eqb (fst (fst e)) filename)) al)
  = if str_eqb (fst k) filename then [] else Container.attrs_of k al.
Proof.
  induction al as [|[k' a] r IH]; cbn [filter Container.attrs_of fst].
  - now destruct (str_eqb (fst k) filename).
  - destruct (str_eqb (fst k') filename) eqn:Ek'; cbn [negb].
    + rewrite IH. destruct (str_eqb (fst k) filename) eqn:Ek; [reflexivity|].
      destruct (Container.loc_eqb k' k) eqn:E; [|reflexivity].
      apply loc_eqb_eq in E. subst k'. congruence.
    + cbn [Container.attrs_of]. rewrite IH.
      destruct (Container.loc_eqb k' k) eqn:E; [|reflexivity].
      apply loc_eqb_eq in E. subst k'. now rewrite Ek'.
Qed.

Lemma str_eqb_refl (a : str) : str_eqb a a = true.
Proof. now apply str_eqb_eq. Qed.

Lemma str_eqb_neq (a b : str) : a <> b -> str_eqb a b = false.
Proof.
  intros H. destruct (str_eqb a b) eqn:E; [|reflexivity].
  apply str_eqb_eq in E. contradiction.
Qed.

(** [createFile] on a file that is not open. *)
Lemma createFile_run (s : Container.t) (v : H5_VERS_MINOR) (filename : str) :
  Container.ids_ok s = true ->
  Container.file_is_open s (c_str filename) = false ->
  exists t,
    run Container.h5 (createFile v filename) s
    = (Ok (Container.next_id s + 1),
       {| Container.links :=
            filter (fun e : Container.loc * Container.link =>
                      negb (str_eqb (fst (fst e)) (c_str filename)))
              (Container.links s)
            ++ [((c_str filename, []), Container.Hard H5O_TYPE_GROUP)];
          Container.attrs :=
            filter (fun e : Container.loc * str =>
                      negb (str_eqb (fst (fst e)) (c_str filename)))
              (Container.attrs s);
          Container.handles :=
            Container.handles s
            ++ [(Container.next_id s + 1,
                 Container.HFile (c_str filename)
                   (HDF5_VERSION_LIB_LOWER_BOUNDS v)
                   (HDF5_VERSION_LIB_UPPER_BOUNDS v))];
          Container.next_id := Container.next_id s + 1 + 1 |}, t).
Proof.
  intros Hids Hclosed. pose proof Hids as Hspec. apply ids_ok_spec in Hspec.
  destruct Hspec as [Hpos Hlt].
  unfold createFile.
  set (n := Container.next_id s).
  set (lo := HDF5_VERSION_LIB_LOWER_BOUNDS v).
  set (hi := HDF5_VERSION_LIB_UPPER_BOUNDS v).
  cbn [call bind run answer Container.h5 Container.respond
         Container.alloc Container.handles Container.next_id fst snd].
  fold n. rewrite find_handle_fresh by exact Hlt.
  cbn [bind run answer Container.h5 Container.respond].
  assert (Hset :
    Container.set_handle n (Container.HPlist lo hi)
      {| Container.links := Container.links s;
         Container.attrs := Container.attrs s;
         Container.handles :=
           Container.handles s
           ++ [(n, Container.HPlist Container.default_low
                     Container.default_high)];
         Container.next_id := n + 1 |}
    = {| Container.links := Container.links s;
         Container.attrs := Container.attrs s;
         Container.handles :=
           Container.handles s ++ [(n, Container.HPlist lo hi)];
         Container.next_id := n + 1 |}).
  { unfold Container.set_handle.
    cbn [Container.links Container.attrs Container.handles
           Container.next_id].
    now rewrite (set_handle_fresh _ n _ (Container.HPlist lo hi) Hlt). }
  rewrite Hset. clear Hset.
  assert (Hopen :
    Container.file_is_open
      {| Container.links := Container.links s;
         Container.attrs := Container.attrs s;
         Container.handles :=
           Container.handles s ++ [(n, Container.HPlist lo hi)];
         Container.next_id := n + 1 |} (c_str filename) = false).
  { unfold Container.file_is_open in *. cbn [Container.handles].
    rewrite existsb_app, Hclosed. reflexivity. }
  rewrite Hopen. unfold Container.fapl_bounds.
  destruct (Z.eqb_spec n H5P_DEFAULT) as [E|_];
    [unfold H5P_DEFAULT in E; lia|].
  cbn [Container.handles]. rewrite find_handle_fresh by exact Hlt.
  cbn [bind run answer Container.h5 Container.respond
         Container.alloc Container.with_links Container.handles
         Container.next_id fst snd Container.links Container.attrs].
  unfold Container.close_if. cbn [Container.handles].
  rewrite find_handle_old by lia.
  rewrite find_handle_fresh by exact Hlt.
  unfold Container.release.
  cbn [Container.handles Container.links Container.attrs
         Container.next_id run].
  rewrite remove_handle_other by lia.
  rewrite remove_handle_fresh by exact Hlt.
  eexists. reflexivity.
Qed.

(** X20: [createFile] on a file that is not open starts it afresh.  It
    returns a positive identifier for the file, opened with the version
    bounds the header configures (unlike [openFile], which passes the
    default access list); the file then holds its root group and nothing
    else, other files keep their links, and the property list is closed
    again. *)
Theorem createFile_starts_afresh (s : Container.t) (v : H5_VERS_MINOR)
  (filename : str) :
  Container.ids_ok s = true ->
  Container.file_is_open s (c_str filename) = false ->
  exists fileID s' t,
    run Container.h5 (createFile v filename) s = (Ok fileID, s', t) /\
    0 < fileID /\
    Container.handles s'
    = Container.handles s
      ++ [(fileID, Container.HFile (c_str filename)
                     (HDF5_VERSION_LIB_LOWER_BOUNDS v)
                     (HDF5_VERSION_LIB_UPPER_BOUNDS v))] /\
    (forall p,
        Container.lookup_link (c_str filename, p) (Container.links s')
        = match p with
          | [] => Some (Container.Hard H5O_TYPE_GROUP)
          | _ => None
          end) /\
    (forall p, Container.attributes s' (c_str filename, p) = []) /\
    (forall f p,
        f <> (c_str filename) ->
        Container.lookup_link (f, p) (Container.links s')
        = Container.lookup_link (f, p) (Container.links s)).
Proof.
  intros Hids Hclosed.
  destruct (createFile_run s v filename Hids Hclosed) as (t & Hrun).
  eexists _, _, t. split; [exact Hrun|].
  assert (Hpos : 0 < Container.next_id s)
    by (apply ids_ok_spec in Hids; tauto).
  split; [lia|]. split; [reflexivity|].
  cbn [Container.links Container.attrs]. split; [|split].
  - intros p. rewrite lookup_link_app, lookup_other_files.
    cbn [fst]. rewrite str_eqb_refl. cbn [Container.lookup_link].
    unfold Container.loc_eqb. cbn [fst snd]. rewrite str_eqb_refl.
    cbn [andb]. destruct p as [|x r]; [reflexivity|].
    destruct (Container.path_eqb [] (x :: r)) eqn:E; [|reflexivity].
    apply path_eqb_eq in E. discriminate E.
  - intros p. unfold Container.attributes. cbn [Container.attrs].
    rewrite attrs_other_files. cbn [fst]. now rewrite str_eqb_refl.
  - intros f p Hne. rewrite lookup_link_app, lookup_other_files.
    cbn [fst]. rewrite (str_eqb_neq f (c_str filename) Hne).
    destruct (Container.lookup_link (f, p) (Container.links s));
      [reflexivity|].
    cbn [Container.lookup_link]. unfold Container.loc_eqb. cbn [fst snd].
    rewrite (str_eqb_neq (c_str filename) f) by congruence. reflexivity.
Qed.

Lemma createFile_starts_afresh_witness :
  exists fileID s' t,
    run Container.h5 (createFile Minor8 "data.h5") Samples.on_disk
    = (Ok fileID, s', t) /\
    0 < fileID /\
    Container.handles s'
    = Container.handles Samples.on_disk
      ++ [(fileID, Container.HFile "data.h5"
                     (HDF5_VERSION_LIB_LOWER_BOUNDS Minor8)
                     (HDF5_VERSION_LIB_UPPER_BOUNDS Minor8))] /\
    (forall p,
        Container.lookup_link ("data.h5" : str, p) (Container.links s')
        = match p with
          | [] => Some (Container.Hard H5O_TYPE_GROUP)
          | _ => None
          end) /\
    (forall p, Container.attributes s' ("data.h5" : str, p) = []) /\
    (forall f p,
        f <> ("data.h5" : str) ->
        Container.lookup_link (f, p) (Container.links s')
        = Container.lookup_link (f, p) (Container.links Samples.on_disk)).
Proof.
  apply (createFile_starts_afresh Samples.on_disk Minor8 "data.h5"
           eq_refl eq_refl).
Defined.

(** X21: a file made with [createFile] is closed by [closeFile] at once:
    nothing is swept, the status is 0, the caller's identifier is reset to
    -1, the open identifiers are those from before the file was created,
    and the new file with its root group stays. *)
Theorem createFile_closeFile_round_trip (s : Container.t)
  (v : H5_VERS_MINOR) (filename : str) :
  Container.ids_ok s = true ->
  Container.file_is_open s (c_str filename) = false ->
  exists fileID s1 t1 s2 t2,
    run Container.h5 (createFile v filename) s = (Ok fileID, s1, t1) /\
    run Container.h5 (closeFile fileID) s1 = (Ok (0, -1), s2, t2) /\
    forallb is_call t2 = true /\
    Container.handles s2 = Container.handles s /\
    Container.links s2 = Container.links s1 /\
    Container.lookup_link (c_str filename, []) (Container.links s2)
    = Some (Container.Hard H5O_TYPE_GROUP).
Proof.
  intros Hids Hclosed.
  destruct (createFile_run s v filename Hids Hclosed) as (t1 & Hrun).
  pose proof Hids as Hspec. apply ids_ok_spec in Hspec.
  destruct Hspec as [Hpos Hlt].
  set (n := Container.next_id s) in *.
  eexists _, _, t1. eexists _, _. split; [exact Hrun|].
  assert (Hnone : forall types,
    Z.land H5F_OBJ_FILE types = 0 ->
    filter (Container.counted (c_str filename) types)
      (Container.handles s
       ++ [(n + 1,
            Container.HFile (c_str filename) (HDF5_VERSION_LIB_LOWER_BOUNDS v)
              (HDF5_VERSION_LIB_UPPER_BOUNDS v))]) = []).
  { intros types Hbit. apply filter_none. intros e He.
    apply in_app_or in He. destruct He as [He|[<-|[]]].
    - unfold Container.file_is_open in Hclosed.
      unfold Container.counted.
      destruct (Container.handle_file (snd e)) as [f'|] eqn:Ef;
        [|reflexivity].
      assert (Hf : str_eqb f' (c_str filename) = false).
      { destruct (str_eqb f' (c_str filename)) eqn:E; [|reflexivity].
        assert (Hex : existsb
                  (fun e => match Container.handle_file (snd e) with
                            | Some f' => str_eqb f' (c_str filename)
                            | None => false
                            end) (Container.handles s) = true).
        { apply existsb_exists. exists e. split; [exact He|].
          now rewrite Ef. }
        congruence. }
      now rewrite Hf.
    - unfold Container.counted. cbn [snd Container.handle_file
        Container.handle_bit]. rewrite Hbit, str_eqb_refl. reflexivity. }
  unfold closeFile.
  destruct (Z.ltb_spec (n + 1) 0); [lia|].
  cbn [call bind run answer Container.h5 Container.respond
         Container.handles].
  rewrite find_handle_fresh
    by (intros e He; specialize (Hlt e He); fold n in Hlt; lia).
  unfold Container.open_ids. cbn [Container.handles].
  rewrite Hnone by reflexivity.
  cbn [map length Z.of_nat Z.ltb Z.compare bind run answer Container.h5
         Container.respond].
  unfold Container.close_if. cbn [Container.handles].
  rewrite find_handle_fresh
    by (intros e He; specialize (Hlt e He); fold n in Hlt; lia).
  unfold Container.release.
  cbn [Container.handles Container.links Container.attrs Container.next_id
         bind run Z.ltb Z.compare].
  rewrite remove_handle_fresh
    by (intros e He; specialize (Hlt e He); fold n in Hlt; lia).
  split; [reflexivity|]. cbn [Container.handles Container.links].
  split; [reflexivity|]. split; [reflexivity|]. split; [reflexivity|].
  rewrite lookup_link_app, lookup_other_files. cbn [fst].
  rewrite str_eqb_refl. cbn [Container.lookup_link].
  now rewrite loc_eqb_refl.
Qed.

Lemma createFile_closeFile_round_trip_witness :
  exists fileID s1 t1 s2 t2,
    run Container.h5 (createFile Minor12 "new.h5") Samples.mixed
    = (Ok fileID, s1, t1) /\
    run Container.h5 (closeFile fileID) s1 = (Ok (0, -1), s2, t2) /\
    forallb is_call t2 = true /\
    Container.handles s2 = Container.handles Samples.mixed /\
    Container.links s2 = Container.links s1 /\
    Container.lookup_link ("new.h5" : str, []) (Container.links s2)
    = Some (Container.Hard H5O_TYPE_GROUP).
Proof.
  apply (createFile_closeFile_round_trip Samples.mixed Minor12 "new.h5"
           eq_refl eq_refl).
Defined.

(** *** Attribute names of an object given by name *)

(** X22: [getAllAttributeNames(locationID, objectName, names)] on a name
    that resolves to a group or dataset: whatever [names] held is dropped
    and the object's attribute names are returned in name order with
    status 0; the object is opened and closed again, and so is every
    attribute, so that the open identifiers are as before. *)
Theorem getAllAttributeNames_by_name_lists (s : Container.t)
  (locationID : hid_t) (objectName : str) (l : Container.loc)
  (ty : H5O_type_t) (names : list str) :
  Container.names_ok s = true ->
  Container.ids_ok s = true ->
  Container.target s locationID (c_str objectName) = Some l ->
  Container.lookup_link l (Container.links s) = Some (Container.Hard ty) ->
  ty = H5O_TYPE_GROUP \/ ty = H5O_TYPE_DATASET ->
  Z.of_nat (length (Container.attributes s l)) < 2 ^ 64 ->
  exists t,
    run Container.h5
      (getAllAttributeNames_by_name locationID objectName names) s
    = (Ok (0, Container.attr_listing s l),
       Container.bump (S (length (Container.attributes s l))) s, t).
Proof.
  intros Hok Hids Htgt Hlk Hty Hbound.
  destruct (openHDF5Object_run s locationID objectName l ty Hids Htgt Hlk
              Hty) as (t1 & Hopen & _).
  cbv zeta in Hopen.
  set (h := Container.HObject
              (match ty with H5O_TYPE_GROUP => H5I_GROUP | _ => H5I_DATASET end)
              (fst l) (Some (snd l))) in *.
  set (s1 := snd (Container.alloc h s)) in *.
  set (n := Container.next_id s) in *.
  assert (Hpos : 0 < n) by (apply ids_ok_spec in Hids; tauto).
  assert (Hf : Container.find_handle n (Container.handles s1) = Some h)
    by (apply find_handle_alloc; exact Hids).
  assert (Hids1 : Container.ids_ok s1 = true).
  { apply ids_ok_spec in Hids. destruct Hids as [Hp Hlt].
    apply ids_ok_spec. unfold s1. cbn [Container.alloc snd
      Container.next_id Container.handles]. split; [lia|].
    intros e He. apply in_app_or in He. destruct He as [He|[<-|[]]].
    - specialize (Hlt e He). lia.
    - cbn [fst]. lia. }
  assert (Hopen1 : object_open n l ty s1).
  { unfold object_open. split; [exact Hok|]. split; [exact Hids1|].
    split; [|exact Hlk].
    unfold Container.location. rewrite Hf. unfold h. now destruct l. }
  destruct (getAllAttributeNames_run n l ty s1 [] ltac:(lia) Hopen1 Hbound)
    as (e1 & t2 & Hlist).
  cbn [app] in Hlist.
  set (k := length (Container.attributes s l)) in *.
  change (Container.attributes s1 l) with (Container.attributes s l)
    in Hlist.
  change (Container.attr_listing s1 l) with (Container.attr_listing s l)
    in Hlist.
  fold k in Hlist.
  destruct (closeHDF5Object_closes (Container.bump k s1) n h ltac:(lia))
    as (t3 & Hclose).
  { exact Hf. }
  { unfold h. now destruct Hty as [-> | ->]. }
  { discriminate. }
  unfold getAllAttributeNames_by_name.
  rewrite run_bind, Hopen.
  destruct (Z.ltb_spec n 0); [lia|].
  rewrite run_bind, Hlist. rewrite run_bind, Hclose. cbn [run].
  eexists. f_equal. f_equal.
  unfold Container.release, Container.bump, s1.
  cbn [Container.alloc snd Container.handles Container.links
         Container.attrs Container.next_id].
  fold n. rewrite remove_handle_fresh
    by (apply ids_ok_spec in Hids; tauto).
  f_equal. lia.
Qed.

Lemma getAllAttributeNames_by_name_lists_witness :
  exists t,
    run Container.h5 (getAllAttributeNames_by_name 1 "g" ["stale" : str])
      Samples.leaks
    = (Ok (0, Container.attr_listing Samples.leaks
                (Samples.at_path "data.h5" ["g"])),
       Container.bump
         (S (length (Container.attributes Samples.leaks
                       (Samples.at_path "data.h5" ["g"]))))
         Samples.leaks, t).
Proof.
  apply (getAllAttributeNames_by_name_lists Samples.leaks 1 "g"
           (Samples.at_path "data.h5" ["g"]) H5O_TYPE_GROUP
           ["stale" : str] eq_refl eq_refl eq_refl eq_refl).
  - now left.
  - vm_compute. reflexivity.
Defined.

(** X23: [getAllAttributeNames(locationID, objectName, names)] cannot list
    what [openHDF5Object] does not open.  On a name that resolves to a
    named datatype, to a dangling link or to nothing it returns -1, leaves
    the container as it was, and [names] comes back empty, whatever it
    held. *)
Theorem getAllAttributeNames_by_name_fails_empty (s : Container.t)
  (locationID : hid_t) (objectName : str) (names : list str) :
  match Container.target s locationID (c_str objectName) with
  | Some l =>
      match Container.lookup_link l (Container.links s) with
      | Some (Container.Hard H5O_TYPE_GROUP)
      | Some (Container.Hard H5O_TYPE_DATASET) => False
      | _ => True
      end
  | None => True
  end ->
  exists t,
    run Container.h5
      (getAllAttributeNames_by_name locationID objectName names) s
    = (Ok (-1, []), s, t).
Proof.
  intros Hnot. unfold getAllAttributeNames_by_name, openHDF5Object,
    getObjectType.
  cbn [call bind run answer Container.h5 Container.respond].
  unfold Container.info_at.
  destruct (Container.target s locationID (c_str objectName)) as [l|];
    [|eexists; reflexivity].
  destruct (Container.lookup_link l (Container.links s)) as [[ty|]|];
    try (eexists; reflexivity).
  destruct ty; try contradiction; eexists; reflexivity.
Qed.

Lemma getAllAttributeNames_by_name_fails_empty_witness :
  exists t,
    run Container.h5 (getAllAttributeNames_by_name 1 "t" ["stale" : str])
      Samples.mixed
    = (Ok (-1, []), Samples.mixed, t).
Proof.
  apply (getAllAttributeNames_by_name_fails_empty Samples.mixed 1 "t"
           ["stale" : str]).
  exact I.
Defined.

(** *** Groups for a dataset path *)

(** [createGroupsForDataset] on a path with a non-empty part before its
    last separator. *)
Lemma createGroupsForDataset_split (dir leaf : str) (parent : hid_t) :
  ~ In slash leaf -> size (dir ++ slash :: leaf) < npos -> dir <> [] ->
  createGroupsForDataset (dir ++ slash :: leaf) parent
  = createGroupsFromPath dir parent.
Proof.
  intros Hleaf Hsz Hne. unfold createGroupsForDataset.
  rewrite (find_last_of_split dir leaf Hleaf).
  pose proof (size_nonneg leaf) as Hl.
  assert (Hd : 0 < size dir)
    by (destruct dir; [congruence|unfold size; cbn [length]; lia]).
  assert (Hs : size (dir ++ slash :: leaf) = size dir + 1 + size leaf)
    by (unfold size; rewrite length_app; cbn [length]; lia).
  destruct (Z.eqb_spec (size dir) 0); [lia|].
  destruct (Z.eqb_spec (size dir) npos); [lia|].
  cbn [negb andb]. now rewrite substr_prefix.
Qed.

(** X24: [createGroupsForDataset] ensures the groups of the dataset's
    parent path and nothing for the last segment: it is
    [createGroupsFromPath] on what [getParentPath] returns.  When the
    parent path is empty or the path has no separator (a dataset directly
    below [parent]) it returns 1 without calling the library. *)
Theorem createGroupsForDataset_ensures_parent_path (datasetPath : str)
  (parent : hid_t) :
  size datasetPath < npos ->
  createGroupsForDataset datasetPath parent
  = match getParentPath datasetPath with
    | Ok [] | Raise _ => Ret 1
    | Ok dir => createGroupsFromPath dir parent
    end.
Proof.
  intros Hsz.
  destruct (in_dec ascii_dec slash datasetPath) as [Hin|Hout].
  - destruct (last_separator datasetPath Hin) as (dir & leaf & -> & Hleaf).
    rewrite (getParentPath_split dir leaf Hleaf Hsz).
    destruct dir as [|c dir].
    + unfold createGroupsForDataset.
      rewrite (find_last_of_split [] leaf Hleaf).
      change (size []) with 0. rewrite Z.eqb_refl. reflexivity.
    + apply createGroupsForDataset_split;
        [exact Hleaf|exact Hsz|discriminate].
  - rewrite (getParentPath_plain_raises datasetPath Hout Hsz).
    unfold createGroupsForDataset.
    rewrite (find_last_of_plain datasetPath Hout).
    rewrite Z.eqb_refl, andb_false_r. reflexivity.
Qed.

Lemma createGroupsForDataset_ensures_parent_path_witness :
  createGroupsForDataset "/data/run1/image" 1
  = match getParentPath "/data/run1/image" with
    | Ok [] | Raise _ => Ret 1
    | Ok dir => createGroupsFromPath dir 1
    end.
Proof.
  apply (createGroupsForDataset_ensures_parent_path "/data/run1/image" 1).
  vm_compute. reflexivity.
Defined.

(** A link that the walk added is a group at a prefix of the path. *)
Lemma lookup_ensured_new (f : str) (todo : Container.path) :
  forall (cur : Container.path) (ls : list (Container.loc * Container.link))
         (k : Container.loc) (v : Container.link),
    Container.lookup_link k ls = None ->
    Container.lookup_link k (ensured f cur todo ls) = Some v ->
    v = Container.Hard H5O_TYPE_GROUP /\
    exists j, (0 < j <= length todo)%nat /\ k = (f, cur ++ firstn j todo).
Proof.
  induction todo as [|x rest IH]; intros cur ls k v Hnone Hsome;
    cbn [ensured] in Hsome; [congruence|].
  destruct (Container.lookup_link k (add_group (f, cur ++ [x]) ls))
    as [v'|] eqn:E.
  - assert (Hk : k = (f, cur ++ [x])).
    { destruct (list_eq_dec ascii_dec (fst k) f) as [Ef|Ef];
        destruct (list_eq_dec (list_eq_dec ascii_dec) (snd k) (cur ++ [x]))
          as [Ep|Ep];
        try (destruct k; cbn [fst snd] in *; now subst);
        rewrite lookup_add_group_other in E
          by (intros ->; cbn [fst snd] in *; congruence);
        congruence. }
    rewrite lookup_ensured_outside in Hsome by (rewrite E; discriminate).
    rewrite E in Hsome. subst k. unfold add_group in E. rewrite Hnone in E.
    rewrite lookup_link_app, Hnone in E. cbn [Container.lookup_link] in E.
    rewrite loc_eqb_refl in E. split; [congruence|].
    exists 1%nat. cbn [length firstn]. split; [lia|reflexivity].
  - destruct (IH (cur ++ [x]) _ k v E Hsome) as (Hv & j & Hj & Hk).
    split; [exact Hv|]. exists (S j). cbn [length firstn].
    split; [lia|]. now rewrite <- app_assoc in Hk.
Qed.

(** X25: [createGroupsFromPath] adds groups along the path and touches
    nothing else.  Under the conditions of a successful run the container
    it leaves is the same for all four spellings of the path (with or
    without leading and trailing separator); attributes and open
    identifiers are as before; every link that was there is unchanged;
    and a link that is new is a group at a prefix of the path. *)
Theorem createGroupsFromPath_adds_only_groups (s : Container.t)
  (parent : hid_t) (f : str) (p : Container.path) (segs : list str) :
  Container.ids_ok s = true ->
  Container.location s parent = Some (f, p) ->
  0 < parent ->
  segs <> [] ->
  Forall (fun n => Container.segment_name n = true) segs ->
  Forall (fun n => Container.no_nul n = true) segs ->
  Container.lookup_link (f, p) (Container.links s)
  = Some (Container.Hard H5O_TYPE_GROUP) ->
  ensurable f p segs (Container.links s) ->
  exists s',
    (forall lead trail,
        size (path_text lead trail segs) < npos ->
        exists t,
          run Container.h5
            (createGroupsFromPath (path_text lead trail segs) parent) s
          = (Ok 0, s', t)) /\
    Container.attrs s' = Container.attrs s /\
    Container.handles s' = Container.handles s /\
    (forall k v,
        Container.lookup_link k (Container.links s) = Some v ->
        Container.lookup_link k (Container.links s') = Some v) /\
    (forall k v,
        Container.lookup_link k (Container.links s) = None ->
        Container.lookup_link k (Container.links s') = Some v ->
        v = Container.Hard H5O_TYPE_GROUP /\
        exists j, (0 < j <= length segs)%nat /\ k = (f, p ++ firstn j segs)).
Proof.
  intros Hids Hloc Hpar Hne Hnames Hnuls Hbase Hens.
  pose proof (no_nul_join segs Hnuls) as Hnul.
  destruct segs as [|x rest]; [congruence|].
  exists (relinked (ensured f p (x :: rest) (Container.links s))
            (0 + S (length rest)) s).
  split; [|split; [reflexivity|split; [reflexivity|split]]].
  - intros lead trail Hsz.
    destruct (createGroupsFromPath_run s parent f p Hids Hloc Hpar x rest
                Hnames Hnul (Container.links s) 0 Hbase Hens lead trail Hsz)
      as (t & _ & Hrun).
    rewrite relinked_self in Hrun. now exists t.
  - intros k v Hk. cbn [relinked Container.bump Container.with_links
      Container.links].
    rewrite lookup_ensured_outside; [exact Hk|]. rewrite Hk. discriminate.
  - intros k v Hnone Hsome.
    now apply (lookup_ensured_new f (x :: rest) p (Container.links s)).
Qed.

Lemma createGroupsFromPath_adds_only_groups_witness :
  exists s',
    (forall lead trail,
        size (path_text lead trail ["g" : str; "sub" : str]) < npos ->
        exists t,
          run Container.h5
            (createGroupsFromPath
               (path_text lead trail ["g" : str; "sub" : str]) 1)
            Samples.mixed
          = (Ok 0, s', t)) /\
    Container.attrs s' = Container.attrs Samples.mixed /\
    Container.handles s' = Container.handles Samples.mixed /\
    (forall k v,
        Container.lookup_link k (Container.links Samples.mixed) = Some v ->
        Container.lookup_link k (Container.links s') = Some v) /\
    (forall k v,
        Container.lookup_link k (Container.links Samples.mixed) = None ->
        Container.lookup_link k (Container.links s') = Some v ->
        v = Container.Hard H5O_TYPE_GROUP /\
        exists j,
          (0 < j <= length ["g" : str; "sub" : str])%nat /\
          k = ("data.h5" : str, [] ++ firstn j ["g" : str; "sub" : str])).
Proof.
  apply (createGroupsFromPath_adds_only_groups Samples.mixed 1 "data.h5" []
           ["g" : str; "sub" : str] eq_refl eq_refl).
  - lia.
  - discriminate.
  - repeat constructor.
  - repeat constructor.
  - reflexivity.
  - cbn [ensurable]. repeat split; (now left) || (now right).
Defined.

(** X26: on a dataset path of two or more segments [createGroupsForDataset]
    ensures every group above the dataset and leaves the dataset's own
    name as it was: it returns 0, every proper prefix of the path is then
    a group, the link under the last segment is unchanged (absent if it
    was absent), and the open identifiers are as before. *)
Theorem createGroupsForDataset_leaves_dataset_name (s : Container.t)
  (parent : hid_t) (f : str) (p : Container.path) (lead : bool)
  (segs : list str) (leaf : str) :
  Container.ids_ok s = true ->
  Container.location s parent = Some (f, p) ->
  0 < parent ->
  segs <> [] ->
  Forall (fun n => Container.segment_name n = true) segs ->
  Forall (fun n => Container.no_nul n = true) segs ->
  ~ In slash leaf ->
  size (path_text lead false (segs ++ [leaf])) < npos ->
  Container.lookup_link (f, p) (Container.links s)
  = Some (Container.Hard H5O_TYPE_GROUP) ->
  ensurable f p segs (Container.links s) ->
  exists s' t,
    run Container.h5
      (createGroupsForDataset (path_text lead false (segs ++ [leaf])) parent)
      s
    = (Ok 0, s', t) /\
    all_groups f p segs (Container.links s') /\
    Container.lookup_link (f, p ++ segs ++ [leaf]) (Container.links s')
    = Container.lookup_link (f, p ++ segs ++ [leaf]) (Container.links s) /\
    Container.handles s' = Container.handles s.
Proof.
  intros Hids Hloc Hpar Hne Hnames Hnuls Hleaf Hsz Hbase Hens.
  pose proof (no_nul_join segs Hnuls) as Hnul.
  assert (Htext : path_text lead false (segs ++ [leaf])
                  = path_text lead false segs ++ slash :: leaf).
  { unfold path_text. rewrite join_snoc by exact Hne.
    rewrite !app_nil_r. now rewrite app_assoc. }
  assert (Hdir : path_text lead false segs <> []).
  { unfold path_text. rewrite app_nil_r.
    destruct lead; [discriminate|]. cbn [app].
    apply join_nonempty; [exact Hne|].
    now apply Forall_segment_plain. }
  rewrite Htext in *.
  rewrite (createGroupsForDataset_split _ leaf parent Hleaf Hsz Hdir).
  assert (Hsz' : size (path_text lead false segs) < npos).
  { rewrite size_app in Hsz. pose proof (size_nonneg (slash :: leaf)). lia. }
  destruct segs as [|x rest]; [congruence|].
  destruct (createGroupsFromPath_run s parent f p Hids Hloc Hpar x rest
              Hnames Hnul (Container.links s) 0 Hbase Hens lead false Hsz')
    as (t & _ & Hrun).
  rewrite relinked_self in Hrun. eexists _, t. split; [exact Hrun|].
  cbn [relinked Container.bump Container.with_links Container.links
         Container.handles].
  split; [now apply all_groups_ensured|]. split; [|reflexivity].
  destruct (Container.lookup_link (f, p ++ (x :: rest) ++ [leaf])
              (Container.links s)) as [v|] eqn:E.
  - rewrite lookup_ensured_outside; [exact E|]. rewrite E. discriminate.
  - destruct (Container.lookup_link (f, p ++ (x :: rest) ++ [leaf])
                (ensured f p (x :: rest) (Container.links s)))
      as [v|] eqn:E'; [|reflexivity].
    destruct (lookup_ensured_new f (x :: rest) p (Container.links s) _ v E E')
      as (_ & j & Hj & Hk).
    injection Hk as Hk. apply app_inv_head in Hk.
    apply (f_equal (@length str)) in Hk.
    rewrite length_firstn in Hk. cbn [app length] in Hk.
    rewrite length_app in Hk. cbn [length] in Hk. lia.
Qed.

Lemma createGroupsForDataset_leaves_dataset_name_witness :
  exists s' t,
    run Container.h5
      (createGroupsForDataset
         (path_text true false (["g" : str; "sub" : str] ++ ["image" : str]))
         1) Samples.mixed
    = (Ok 0, s', t) /\
    all_groups "data.h5" [] ["g" : str; "sub" : str] (Container.links s') /\
    Container.lookup_link
      ("data.h5" : str, [] ++ ["g" : str; "sub" : str] ++ ["image" : str])
      (Container.links s')
    = Container.lookup_link
        ("data.h5" : str, [] ++ ["g" : str; "sub" : str] ++ ["image" : str])
        (Container.links Samples.mixed) /\
    Container.handles s' = Container.handles Samples.mixed.
Proof.
  apply (createGroupsForDataset_leaves_dataset_name Samples.mixed 1
           "data.h5" [] true ["g" : str; "sub" : str] "image"
           eq_refl eq_refl).
  - lia.
  - discriminate.
  - repeat constructor.
  - repeat constructor.
  - vm_compute. intuition discriminate.
  - vm_compute. reflexivity.
  - reflexivity.
  - cbn [ensurable]. repeat split; (now left) || (now right).
Defined.
